(** * users/forms.py: validation and persistence of accounts

    Shallow embedding of the form classes of [users/forms.py] over an
    explicit relational store, and the properties of signin, signup,
    update and the privileged account actions. *)

From Stdlib Require Import ZArith List String Bool Lia.
Import ListNotations.

Local Open Scope string_scope.
Local Open Scope list_scope.
Local Open Scope Z_scope.

(** ** Exceptions and results *)

(** The exceptions the forms raise or let through.  [ValidationError]
    keeps the message and the [code=] keyword of the source. *)
Inductive Exception : Type :=
| ValidationError (message code : string)
| DoesNotExist (model : string)
| MultipleObjectsReturned (model : string)
| IntegrityError (model : string)
| ValueError (message : string).

Inductive Result (A : Type) : Type :=
| Ok (a : A)
| Raise (e : Exception).
Arguments Ok {A} a.
Arguments Raise {A} e.

(** The error names of the specification, as predicates on exceptions. *)
Definition is_NotFound (e : Exception) : bool :=
  match e with DoesNotExist _ => true | _ => false end.

(** ** Rows of the store *)

(** [id] is [None] on an instance that was never saved, as in Django. *)
Module User.
Record t : Type := mk {
    id : option Z;
    email : string;
    password : string;
    is_student : bool;
    is_teacher : bool;
    is_deptadmin : bool;
    is_staff : bool;
    is_accepted : bool;
    is_active : bool
  }.

Definition with_id (i : Z) (u : t) : t :=
    mk (Some i) (email u) (password u) (is_student u) (is_teacher u)
       (is_deptadmin u) (is_staff u) (is_accepted u) (is_active u).
Definition set_email (e : string) (u : t) : t :=
    mk (id u) e (password u) (is_student u) (is_teacher u)
       (is_deptadmin u) (is_staff u) (is_accepted u) (is_active u).
Definition set_password (h : string) (u : t) : t :=
    mk (id u) (email u) h (is_student u) (is_teacher u)
       (is_deptadmin u) (is_staff u) (is_accepted u) (is_active u).
Definition set_is_student (b : bool) (u : t) : t :=
    mk (id u) (email u) (password u) b (is_teacher u)
       (is_deptadmin u) (is_staff u) (is_accepted u) (is_active u).
Definition set_is_teacher (b : bool) (u : t) : t :=
    mk (id u) (email u) (password u) (is_student u) b
       (is_deptadmin u) (is_staff u) (is_accepted u) (is_active u).
Definition set_is_deptadmin (b : bool) (u : t) : t :=
    mk (id u) (email u) (password u) (is_student u) (is_teacher u)
       b (is_staff u) (is_accepted u) (is_active u).
Definition set_is_staff (b : bool) (u : t) : t :=
    mk (id u) (email u) (password u) (is_student u) (is_teacher u)
       (is_deptadmin u) b (is_accepted u) (is_active u).
Definition set_is_accepted (b : bool) (u : t) : t :=
    mk (id u) (email u) (password u) (is_student u) (is_teacher u)
       (is_deptadmin u) (is_staff u) b (is_active u).
Definition set_is_active (b : bool) (u : t) : t :=
    mk (id u) (email u) (password u) (is_student u) (is_teacher u)
       (is_deptadmin u) (is_staff u) (is_accepted u) b.

(** The four role flags of a user, as one value. *)
Definition role_flags (u : t) : bool * bool * bool * bool :=
    (is_student u, is_teacher u, is_deptadmin u, is_staff u).
End User.

(** A profile column that was never assigned holds [None]. *)
Module Student.
Record t : Type := mk {
    id : option Z;
    user : Z;
    registry_id : option string;
    first_name : option string;
    last_name : option string;
    admission_year : option Z
  }.
Definition with_id (i : Z) (s : t) : t :=
    mk (Some i) (user s) (registry_id s) (first_name s) (last_name s)
       (admission_year s).
End Student.

Module Teacher.
Record t : Type := mk {
    id : option Z;
    user : Z;
    first_name : option string;
    last_name : option string;
    rank : option string
  }.
Definition with_id (i : Z) (s : t) : t :=
    mk (Some i) (user s) (first_name s) (last_name s) (rank s).
End Teacher.

Module Deptadmin.
Record t : Type := mk {
    id : option Z;
    user : Z;
    department : Z
  }.
Definition with_id (i : Z) (s : t) : t :=
    mk (Some i) (user s) (department s).
End Deptadmin.

Module DepartmentStudents.
Record t : Type := mk {
    id : option Z;
    dept_id : Z;
    user_id : Z
  }.
Definition with_id (i : Z) (s : t) : t :=
    mk (Some i) (dept_id s) (user_id s).
End DepartmentStudents.

Module DepartmentTeachers.
Record t : Type := mk {
    id : option Z;
    dept_id : Z;
    user_id : Z
  }.
Definition with_id (i : Z) (s : t) : t :=
    mk (Some i) (dept_id s) (user_id s).
End DepartmentTeachers.

(** ** The store *)

(** A table is its rows, in insertion order, and the next primary key
    its sequence hands out. *)
Record Table (A : Type) : Type := mkTable {
  rows : list A;
  next_pk : Z
}.
Arguments mkTable {A} rows next_pk.
Arguments rows {A} t.
Arguments next_pk {A} t.

Record Store : Type := mkStore {
  users : Table User.t;
  students : Table Student.t;
  teachers : Table Teacher.t;
  deptadmins : Table Deptadmin.t;
  department_students : Table DepartmentStudents.t;
  department_teachers : Table DepartmentTeachers.t
}.

(** ** Computations over the store *)

(** A computation returns a value or raises, and leaves a store behind in
    both cases: what was written before a [raise] stays written unless a
    transaction undoes it. *)
Definition M (A : Type) : Type := Store -> Result A * Store.

Definition ret {A : Type} (a : A) : M A := fun st => (Ok a, st).

Definition raise {A : Type} (e : Exception) : M A := fun st => (Raise e, st).

Definition bind {A B : Type} (m : M A) (f : A -> M B) : M B :=
  fun st =>
    match m st with
    | (Ok a, st') => f a st'
    | (Raise e, st') => (Raise e, st')
    end.

Notation "x <- m ;; k" := (bind m (fun x => k))
  (at level 61, m at next level, right associativity).
Notation "m ;;; k" := (bind m (fun _ => k))
  (at level 61, right associativity).

(** [@transaction.atomic]: when the body raises, the store is the one the
    transaction started from. *)
Definition atomic {A : Type} (m : M A) : M A :=
  fun st =>
    match m st with
    | (Ok a, st') => (Ok a, st')
    | (Raise e, _) => (Raise e, st)
    end.

(** ** The object-relational layer *)

(** Modelled from the spec: [users/models.py] and [mainpage/models.py] are
    not among the sources.  The specification gives the entities and their
    columns, says that [User.email] and [Student.registry_id] are unique in
    the store, and that deleting a user cascades to the profile and
    membership rows; the managers below ([filter], [get], [create],
    [save], [delete]) behave as Django's do on such tables. *)
Class Model (A : Type) : Type := {
  model_name : string;
  pk : A -> option Z;
  with_pk : Z -> A -> A;
  table : Store -> Table A;
  set_table : Table A -> Store -> Store;
  (** [conflicts a b]: [a] and [b] may not both be stored, by a uniqueness
      constraint of the table. *)
  conflicts : A -> A -> bool
}.

Definition opt_eqb {K : Type} (eqb : K -> K -> bool) (x y : option K) : bool :=
  match x, y with
  | Some a, Some b => eqb a b
  | None, None => true
  | _, _ => false
  end.

(** A primary-key lookup: no row has a null key, so looking up [None]
    matches nothing. *)
Definition pk_is {A : Type} `{Model A} (i : option Z) (a : A) : bool :=
  match i, pk a with
  | Some x, Some y => x =? y
  | _, _ => false
  end.

(** Modelled from the spec: the uniqueness of [User.email] is declared in
    [users/models.py], which is not among the sources. *)
#[export] Instance User_Model : Model User.t := {|
  model_name := "User";
  pk := User.id;
  with_pk := User.with_id;
  table := users;
  set_table := fun t st =>
    mkStore t (students st) (teachers st) (deptadmins st)
            (department_students st) (department_teachers st);
  conflicts := fun a b => String.eqb (User.email a) (User.email b)
|}.

(** Modelled from the spec: the uniqueness of [Student.registry_id] is
    declared in [users/models.py], which is not among the sources; a column
    that was never assigned conflicts with nothing. *)
#[export] Instance Student_Model : Model Student.t := {|
  model_name := "Student";
  pk := Student.id;
  with_pk := Student.with_id;
  table := students;
  set_table := fun t st =>
    mkStore (users st) t (teachers st) (deptadmins st)
            (department_students st) (department_teachers st);
  conflicts := fun a b =>
    match Student.registry_id a, Student.registry_id b with
    | Some x, Some y => String.eqb x y
    | _, _ => false
    end
|}.

#[export] Instance Teacher_Model : Model Teacher.t := {|
  model_name := "Teacher";
  pk := Teacher.id;
  with_pk := Teacher.with_id;
  table := teachers;
  set_table := fun t st =>
    mkStore (users st) (students st) t (deptadmins st)
            (department_students st) (department_teachers st);
  conflicts := fun _ _ => false
|}.

#[export] Instance Deptadmin_Model : Model Deptadmin.t := {|
  model_name := "Deptadmin";
  pk := Deptadmin.id;
  with_pk := Deptadmin.with_id;
  table := deptadmins;
  set_table := fun t st =>
    mkStore (users st) (students st) (teachers st) t
            (department_students st) (department_teachers st);
  conflicts := fun _ _ => false
|}.

#[export] Instance DepartmentStudents_Model : Model DepartmentStudents.t := {|
  model_name := "DepartmentStudents";
  pk := DepartmentStudents.id;
  with_pk := DepartmentStudents.with_id;
  table := department_students;
  set_table := fun t st =>
    mkStore (users st) (students st) (teachers st) (deptadmins st)
            t (department_teachers st);
  conflicts := fun _ _ => false
|}.

#[export] Instance DepartmentTeachers_Model : Model DepartmentTeachers.t := {|
  model_name := "DepartmentTeachers";
  pk := DepartmentTeachers.id;
  with_pk := DepartmentTeachers.with_id;
  table := department_teachers;
  set_table := fun t st =>
    mkStore (users st) (students st) (teachers st) (deptadmins st)
            (department_students st) t;
  conflicts := fun _ _ => false
|}.

Section Manager.
Context {A : Type} `{Model A}.

  (** [Model.objects.filter(...)]: the matching rows, in table order. *)
Definition objects_filter (p : A -> bool) : M (list A) :=
    fun st => (Ok (filter p (rows (table st))), st).

  (** [Model.objects.get(...)]: the one matching row. *)
Definition objects_get (p : A -> bool) : M A :=
    found <- objects_filter p ;;
    match found with
    | [] => raise (DoesNotExist model_name)
    | [a] => ret a
    | _ :: _ :: _ => raise (MultipleObjectsReturned model_name)
    end.

  (** [a] may be stored next to [others]: no other row conflicts with it. *)
Definition unique_ok (others : list A) (a : A) : bool :=
    forallb (fun b => pk_is (pk a) b || negb (conflicts a b)) others.

  (** [instance.save()]: an instance without a key is inserted under the
      next key of the sequence; one with a key overwrites the row of that
      key, and is inserted when no row has it.  The instance is returned
      as stored. *)
Definition Model_save (a : A) : M A :=
    fun st =>
      let t := table st in
      match pk a with
      | None =>
          let a' := with_pk (next_pk t) a in
          if unique_ok (rows t) a'
          then (Ok a', set_table (mkTable (rows t ++ [a']) (next_pk t + 1)) st)
          else (Raise (IntegrityError model_name), st)
      | Some i =>
          if unique_ok (rows t) a
          then
            if existsb (pk_is (Some i)) (rows t)
            then (Ok a,
                  set_table
                    (mkTable (map (fun b => if pk_is (Some i) b then a else b)
                                  (rows t))
                             (next_pk t)) st)
            else (Ok a, set_table (mkTable (rows t ++ [a]) (next_pk t)) st)
          else (Raise (IntegrityError model_name), st)
      end.

  (** [Model.objects.create(...)]: build the instance and save it. *)
Definition objects_create (a : A) : M A := Model_save a.

  (** Removal of the rows that satisfy [p], without cascade. *)
Definition remove_rows (p : A -> bool) : M unit :=
    fun st =>
      let t := table st in
      (Ok tt, set_table (mkTable (filter (fun a => negb (p a)) (rows t))
                                 (next_pk t)) st).
End Manager.

(** ** Collaborators *)

(** The password hashing service the forms consume, and the default of
    [User.is_active], which the specification leaves open. *)
Class Env : Type := {
  make_password : string -> string;
  check_password : string -> string -> bool;
  default_is_active : bool
}.

(** Modelled from the spec: the defaults of a [User()] instance come from
    [users/models.py], which is not among the sources.  The specification
    gives [is_accepted] the default false; the role flags are off until a
    signup form sets one. *)
Definition new_User `{Env} : User.t :=
  User.mk None "" "" false false false false false default_is_active.

(** [UserCreationForm.save(commit=False)]: an unsaved instance carrying the
    model fields of the form and the hash of [password1]. *)
Definition UserCreationForm_save `{Env} (email password1 : string) : User.t :=
  User.set_password (make_password password1) (User.set_email email new_User).

(** Modelled from the spec: [django.contrib.auth.authenticate] runs the
    backend chosen in the settings against the user model, neither of which
    is among the sources.  The specification has it look the user up by
    email and verify the password hash; it writes nothing. *)
Definition authenticate `{Env} (username password : option string)
  : M (option User.t) :=
  match username, password with
  | Some e, Some p =>
      found <- objects_filter (fun u => String.eqb (User.email u) e) ;;
      match found with
      | [] => ret None
      | u :: _ =>
          if check_password p (User.password u) then ret (Some u) else ret None
      end
  | _, _ => ret None
  end.

(** The key of a saved instance, needed to point a foreign key at it. *)
Definition require_pk {A : Type} `{Model A} (a : A) : M Z :=
  match pk a with
  | Some i => ret i
  | None => raise (ValueError "unsaved related object")
  end.

(** [owner = user] in a lookup through a foreign key to [User]. *)
Definition owned_by (user : User.t) (owner : Z) : bool :=
  opt_eqb Z.eqb (User.id user) (Some owner).

(** Modelled from the spec: [QuerySet.delete()] on users.  The rows that
    match are collected first; the profile and membership rows that point at
    a collected user go with it (the cascade is declared in the models,
    which are not among the sources). *)
Definition User_objects_delete (p : User.t -> bool) : M unit :=
  doomed <- objects_filter p ;;
  let gone (i : Z) := existsb (fun u => owned_by u i) doomed in
  remove_rows (fun s => gone (Student.user s)) ;;;
  remove_rows (fun s => gone (Teacher.user s)) ;;;
  remove_rows (fun s => gone (Deptadmin.user s)) ;;;
  remove_rows (fun s => gone (DepartmentStudents.user_id s)) ;;;
  remove_rows (fun s => gone (DepartmentTeachers.user_id s)) ;;;
  remove_rows (fun u => match User.id u with
                        | Some i => gone i
                        | None => false
                        end).

(** Python truth of a cleaned string: present and not empty. *)
Definition truthy (s : option string) : bool :=
  match s with
  | Some v => negb (String.eqb v "")
  | None => false
  end.

(** [if cond: raise e]. *)
Definition raise_if (cond : bool) (e : Exception) : M unit :=
  if cond then raise e else ret tt.

(** [ModelForm._post_clean] in the signup forms: the instance built from
    the form goes through the uniqueness validation of its model, which for
    [User] is the one of [email]. *)
Definition UserCreationForm_validate_unique (email : string) : M unit :=
  found <- objects_filter (fun u => String.eqb (User.email u) email) ;;
  raise_if (match found with [] => false | _ :: _ => true end)
           (ValidationError "User with this Email already exists." "unique").

(** Whether a hook returned. *)
Definition passes {A : Type} (m : M A) (st : Store) : bool :=
  match fst (m st) with
  | Ok _ => true
  | Raise _ => false
  end.

(** ** Form fields *)

Module IntegerField.
Record t : Type := mk {
  min_value : option Z;
  max_value : option Z;
  required : bool
}.

(** The validators the constructor installs, run on a value that is not
    empty; every failure is collected. *)
Definition run_validators (f : t) (n : Z) : list Exception :=
  (match max_value f with
   | Some m =>
       if n >? m
       then [ValidationError
               "Ensure this value is less than or equal to %(limit_value)s."
               "max_value"]
       else []
   | None => []
   end)
  ++
  (match min_value f with
   | Some m =>
       if n <? m
       then [ValidationError
               "Ensure this value is greater than or equal to %(limit_value)s."
               "min_value"]
       else []
   | None => []
   end).

(** [Field.clean]: the cleaned value, or the errors of the field.  [None]
    is the empty submission. *)
Definition clean (f : t) (value : option Z) : option Z + list Exception :=
  match value with
  | None =>
      if required f
      then inr [ValidationError "This field is required." "required"]
      else inl None
  | Some n =>
      match run_validators f n with
      | [] => inl (Some n)
      | errors => inr errors
      end
  end.
End IntegerField.

(** ** Forms *)

(** In every form, [cleaned_data] holds a field only when the field passed
    its own validation, so [cleaned_data.get(name)] is an option. *)

Module SigninForm.
Record cleaned_data : Type := mk {
  email : option string;
  password : option string
}.

Definition error_messages (key : string) : string :=
  if String.eqb key "invalid_login" then "Incorrect email or password."
  else if String.eqb key "disabled"
       then "Please wait for your account to be enabled."
       else "".

Definition confirm_login_allowed (user : User.t) : M unit :=
  if negb (User.is_accepted user)
  then raise (ValidationError (error_messages "disabled") "disabled")
  else ret tt.

(** Returns [cleaned_data] together with [self.user_cache], which stays
    unset ([None]) when the credential check is skipped. *)
Definition clean `{Env} (cd : cleaned_data)
  : M (cleaned_data * option User.t) :=
  let email := email cd in
  let password := password cd in
  if truthy email && truthy password
  then
    user_cache <- authenticate email password ;;
    match user_cache with
    | None =>
        raise (ValidationError (error_messages "invalid_login") "invalid_login")
    | Some user =>
        confirm_login_allowed user ;;;
        ret (cd, user_cache)
    end
  else ret (cd, None).

Definition get_user (user_cache : option User.t) : option User.t := user_cache.
End SigninForm.

Module UserActionForm.
Record cleaned_data : Type := mk {
  user_id : option Z
}.

Definition accept (cd : cleaned_data) : M unit :=
  let user_id := user_id cd in
  user <- objects_get (pk_is user_id) ;;
  let user := User.set_is_accepted true user in
  Model_save user ;;;
  ret tt.

Definition delete (cd : cleaned_data) : M unit :=
  let user_id := user_id cd in
  User_objects_delete (pk_is user_id).

Definition activate (cd : cleaned_data) : M unit :=
  let user_id := user_id cd in
  user <- objects_get (pk_is user_id) ;;
  let user := User.set_is_active true user in
  Model_save user ;;;
  ret tt.

Definition deactivate (cd : cleaned_data) : M unit :=
  let user_id := user_id cd in
  user <- objects_get (pk_is user_id) ;;
  let user := User.set_is_active false user in
  Model_save user ;;;
  ret tt.
End UserActionForm.

(** The record of a form's fields is indexed by what a field holds:
    [option] for [cleaned_data] as the [clean] hooks see it, the identity
    for the data of a form whose fields all validated, which is what [save]
    reads. *)
Definition present (T : Type) : Type := T.

Module StudentSignupForm.
Record fields (F : Type -> Type) : Type := mk {
  department : F Z;
  email : F string;
  first_name : F string;
  last_name : F string;
  registry_id : F string;
  admission_year : F Z;
  password1 : F string;
  password2 : F string
}.
Arguments mk {F}.
Arguments department {F}.
Arguments email {F}.
Arguments first_name {F}.
Arguments last_name {F}.
Arguments registry_id {F}.
Arguments admission_year {F}.
Arguments password1 {F}.
Arguments password2 {F}.

Definition cleaned_data : Type := fields option.
Definition valid_data : Type := fields present.

Definition as_cleaned (d : valid_data) : cleaned_data :=
  mk (F:=option)
     (Some (department d)) (Some (email d)) (Some (first_name d))
     (Some (last_name d)) (Some (registry_id d)) (Some (admission_year d))
     (Some (password1 d)) (Some (password2 d)).

(** The class body runs once, when the module is imported: [max_value] is
    the year read at that moment. *)
Definition admission_year_field (year_at_import : Z) : IntegerField.t :=
  IntegerField.mk (Some 2000) (Some year_at_import) true.

Definition error_messages (key : string) : string :=
  if String.eqb key "registry_id_exists"
  then "A student with this registry id already exists."
  else "".

Definition clean (cd : cleaned_data) : M cleaned_data :=
  let reg_id := registry_id cd in
  found <- objects_filter
             (fun s => opt_eqb String.eqb (Student.registry_id s) reg_id) ;;
  raise_if (match found with [] => false | _ :: _ => true end)
           (ValidationError (error_messages "registry_id_exists")
                            "registry_id_exists") ;;;
  ret cd.

Definition save `{Env} (d : valid_data) : M User.t :=
  atomic (
    let user := UserCreationForm_save (email d) (password1 d) in
    let user := User.set_is_student true user in
    user <- Model_save user ;;
    owner <- require_pk user ;;
    student <- objects_create (Student.mk None owner None None None None) ;;
    let student :=
      Student.mk (Student.id student) (Student.user student)
                 (Some (registry_id d)) (Some (first_name d))
                 (Some (last_name d)) (Some (admission_year d)) in
    Model_save student ;;;
    objects_create (DepartmentStudents.mk None (department d) owner) ;;;
    ret user).

(** [is_valid()] on data whose fields all validated: [clean] and the
    uniqueness validation of the instance raise nothing. *)
Definition is_valid (d : valid_data) (st : Store) : bool :=
  passes (clean (as_cleaned d)) st
  && passes (UserCreationForm_validate_unique (email d)) st.
End StudentSignupForm.

Module StudentUpdateForm.
Record fields (F : Type -> Type) : Type := mk {
  user_id : F Z;
  department : F Z;
  first_name : F string;
  last_name : F string;
  registry_id : F string;
  admission_year : F Z;
  email : F string
}.
Arguments mk {F}.
Arguments user_id {F}.
Arguments department {F}.
Arguments first_name {F}.
Arguments last_name {F}.
Arguments registry_id {F}.
Arguments admission_year {F}.
Arguments email {F}.

Definition cleaned_data : Type := fields option.
Definition valid_data : Type := fields present.

Definition as_cleaned (d : valid_data) : cleaned_data :=
  mk (F:=option)
     (Some (user_id d)) (Some (department d)) (Some (first_name d))
     (Some (last_name d)) (Some (registry_id d)) (Some (admission_year d))
     (Some (email d)).

Definition admission_year_field (year_at_import : Z) : IntegerField.t :=
  IntegerField.mk (Some 2000) (Some year_at_import) true.

Definition error_messages (key : string) : string :=
  if String.eqb key "email_exists" then "This email is used by another user."
  else if String.eqb key "registry_id_exists"
       then "A student with this registry id already exists."
       else "".

Definition clean (cd : cleaned_data) : M cleaned_data :=
  let email := email cd in
  found <- objects_filter
             (fun u => opt_eqb String.eqb (Some (User.email u)) email) ;;
  raise_if (match found with
            | [] => false
            | first :: _ => negb (opt_eqb Z.eqb (User.id first) (user_id cd))
            end)
           (ValidationError (error_messages "email_exists") "email_exists") ;;;
  let reg_id := registry_id cd in
  found <- objects_filter
             (fun s => opt_eqb String.eqb (Student.registry_id s) reg_id) ;;
  raise_if (match found with
            | [] => false
            | first :: _ =>
                negb (opt_eqb Z.eqb (Some (Student.user first)) (user_id cd))
            end)
           (ValidationError (error_messages "registry_id_exists")
                            "registry_id_exists") ;;;
  ret cd.

Definition save (d : valid_data) : M User.t :=
  atomic (
    user <- objects_get (pk_is (Some (user_id d))) ;;
    let user := User.set_email (email d) user in
    user <- Model_save user ;;
    student <- objects_get (fun s => owned_by user (Student.user s)) ;;
    let student :=
      Student.mk (Student.id student) (Student.user student)
                 (Some (registry_id d)) (Some (first_name d))
                 (Some (last_name d)) (Some (admission_year d)) in
    Model_save student ;;;
    dept <- objects_get (fun m => owned_by user (DepartmentStudents.user_id m)) ;;
    let dept :=
      DepartmentStudents.mk (DepartmentStudents.id dept) (department d)
                            (DepartmentStudents.user_id dept) in
    Model_save dept ;;;
    ret user).

Definition is_valid (d : valid_data) (st : Store) : bool :=
  passes (clean (as_cleaned d)) st.
End StudentUpdateForm.

Module TeacherSignupForm.
Record fields (F : Type -> Type) : Type := mk {
  department : F Z;
  email : F string;
  first_name : F string;
  last_name : F string;
  rank : F string;
  password1 : F string;
  password2 : F string
}.
Arguments mk {F}.
Arguments department {F}.
Arguments email {F}.
Arguments first_name {F}.
Arguments last_name {F}.
Arguments rank {F}.
Arguments password1 {F}.
Arguments password2 {F}.

Definition valid_data : Type := fields present.

Definition save `{Env} (d : valid_data) : M User.t :=
  atomic (
    let user := UserCreationForm_save (email d) (password1 d) in
    let user := User.set_is_teacher true user in
    user <- Model_save user ;;
    owner <- require_pk user ;;
    teacher <- objects_create (Teacher.mk None owner None None None) ;;
    let teacher :=
      Teacher.mk (Teacher.id teacher) (Teacher.user teacher)
                 (Some (first_name d)) (Some (last_name d)) (Some (rank d)) in
    Model_save teacher ;;;
    objects_create (DepartmentTeachers.mk None (department d) owner) ;;;
    ret user).

Definition is_valid (d : valid_data) (st : Store) : bool :=
  passes (UserCreationForm_validate_unique (email d)) st.
End TeacherSignupForm.

Module TeacherUpdateForm.
Record fields (F : Type -> Type) : Type := mk {
  user_id : F Z;
  department : F Z;
  first_name : F string;
  last_name : F string;
  rank : F string;
  email : F string
}.
Arguments mk {F}.
Arguments user_id {F}.
Arguments department {F}.
Arguments first_name {F}.
Arguments last_name {F}.
Arguments rank {F}.
Arguments email {F}.

Definition cleaned_data : Type := fields option.
Definition valid_data : Type := fields present.

Definition error_messages (key : string) : string :=
  if String.eqb key "email_exists" then "This email is used by another user."
  else "".

Definition clean (cd : cleaned_data) : M cleaned_data :=
  let email := email cd in
  found <- objects_filter
             (fun u => opt_eqb String.eqb (Some (User.email u)) email) ;;
  raise_if (match found with
            | [] => false
            | first :: _ => negb (opt_eqb Z.eqb (User.id first) (user_id cd))
            end)
           (ValidationError (error_messages "email_exists") "email_exists") ;;;
  ret cd.

Definition save (d : valid_data) : M User.t :=
  atomic (
    user <- objects_get (pk_is (Some (user_id d))) ;;
    let user := User.set_email (email d) user in
    user <- Model_save user ;;
    teacher <- objects_get (fun s => owned_by user (Teacher.user s)) ;;
    let teacher :=
      Teacher.mk (Teacher.id teacher) (Teacher.user teacher)
                 (Some (first_name d)) (Some (last_name d)) (Some (rank d)) in
    Model_save teacher ;;;
    dept <- objects_get (fun m => owned_by user (DepartmentTeachers.user_id m)) ;;
    let dept :=
      DepartmentTeachers.mk (DepartmentTeachers.id dept) (department d)
                            (DepartmentTeachers.user_id dept) in
    Model_save dept ;;;
    ret user).

Definition as_cleaned (d : valid_data) : cleaned_data :=
  mk (F:=option)
     (Some (user_id d)) (Some (department d)) (Some (first_name d))
     (Some (last_name d)) (Some (rank d)) (Some (email d)).

Definition is_valid (d : valid_data) (st : Store) : bool :=
  passes (clean (as_cleaned d)) st.
End TeacherUpdateForm.

Module DeptadminSignupForm.
Record fields (F : Type -> Type) : Type := mk {
  department : F Z;
  email : F string;
  password1 : F string;
  password2 : F string
}.
Arguments mk {F}.
Arguments department {F}.
Arguments email {F}.
Arguments password1 {F}.
Arguments password2 {F}.

Definition valid_data : Type := fields present.

Definition save `{Env} (d : valid_data) : M User.t :=
  atomic (
    let user := UserCreationForm_save (email d) (password1 d) in
    let user := User.set_is_deptadmin true user in
    let user := User.set_is_staff true user in
    user <- Model_save user ;;
    owner <- require_pk user ;;
    deptadmin <- objects_create (Deptadmin.mk None owner (department d)) ;;
    Model_save deptadmin ;;;
    ret user).

Definition is_valid (d : valid_data) (st : Store) : bool :=
  passes (UserCreationForm_validate_unique (email d)) st.
End DeptadminSignupForm.

Module DeptadminUpdateForm.
Record fields (F : Type -> Type) : Type := mk {
  user_id : F Z;
  department : F Z;
  email : F string
}.
Arguments mk {F}.
Arguments user_id {F}.
Arguments department {F}.
Arguments email {F}.

Definition cleaned_data : Type := fields option.
Definition valid_data : Type := fields present.

Definition error_messages (key : string) : string :=
  if String.eqb key "email_exists" then "This email is used by another user."
  else "".

Definition clean (cd : cleaned_data) : M cleaned_data :=
  let email := email cd in
  found <- objects_filter
             (fun u => opt_eqb String.eqb (Some (User.email u)) email) ;;
  raise_if (match found with
            | [] => false
            | first :: _ => negb (opt_eqb Z.eqb (User.id first) (user_id cd))
            end)
           (ValidationError (error_messages "email_exists") "email_exists") ;;;
  ret cd.

Definition save (d : valid_data) : M User.t :=
  atomic (
    user <- objects_get (pk_is (Some (user_id d))) ;;
    let user := User.set_email (email d) user in
    user <- Model_save user ;;
    deptadmin <- objects_get (fun s => owned_by user (Deptadmin.user s)) ;;
    let deptadmin :=
      Deptadmin.mk (Deptadmin.id deptadmin) (Deptadmin.user deptadmin)
                   (department d) in
    Model_save deptadmin ;;;
    ret user).

Definition as_cleaned (d : valid_data) : cleaned_data :=
  mk (F:=option) (Some (user_id d)) (Some (department d)) (Some (email d)).

Definition is_valid (d : valid_data) (st : Store) : bool :=
  passes (clean (as_cleaned d)) st.
End DeptadminUpdateForm.

(** ** The operations of the module, as one type *)

Inductive Operation : Type :=
| Signin (cd : SigninForm.cleaned_data)
| Accept (cd : UserActionForm.cleaned_data)
| Delete (cd : UserActionForm.cleaned_data)
| Activate (cd : UserActionForm.cleaned_data)
| Deactivate (cd : UserActionForm.cleaned_data)
| StudentSignupClean (cd : StudentSignupForm.cleaned_data)
| StudentSignup (d : StudentSignupForm.valid_data)
| StudentUpdateClean (cd : StudentUpdateForm.cleaned_data)
| StudentUpdate (d : StudentUpdateForm.valid_data)
| TeacherSignup (d : TeacherSignupForm.valid_data)
| TeacherUpdateClean (cd : TeacherUpdateForm.cleaned_data)
| TeacherUpdate (d : TeacherUpdateForm.valid_data)
| DeptadminSignup (d : DeptadminSignupForm.valid_data)
| DeptadminUpdateClean (cd : DeptadminUpdateForm.cleaned_data)
| DeptadminUpdate (d : DeptadminUpdateForm.valid_data).

(** The store an operation leaves behind, whether it returned or raised. *)
Definition run `{Env} (op : Operation) (st : Store) : Store :=
  match op with
  | Signin cd => snd (SigninForm.clean cd st)
  | Accept cd => snd (UserActionForm.accept cd st)
  | Delete cd => snd (UserActionForm.delete cd st)
  | Activate cd => snd (UserActionForm.activate cd st)
  | Deactivate cd => snd (UserActionForm.deactivate cd st)
  | StudentSignupClean cd => snd (StudentSignupForm.clean cd st)
  | StudentSignup d => snd (StudentSignupForm.save d st)
  | StudentUpdateClean cd => snd (StudentUpdateForm.clean cd st)
  | StudentUpdate d => snd (StudentUpdateForm.save d st)
  | TeacherSignup d => snd (TeacherSignupForm.save d st)
  | TeacherUpdateClean cd => snd (TeacherUpdateForm.clean cd st)
  | TeacherUpdate d => snd (TeacherUpdateForm.save d st)
  | DeptadminSignup d => snd (DeptadminSignupForm.save d st)
  | DeptadminUpdateClean cd => snd (DeptadminUpdateForm.clean cd st)
  | DeptadminUpdate d => snd (DeptadminUpdateForm.save d st)
  end.

Definition run_all `{Env} (ops : list Operation) (st : Store) : Store :=
  fold_left (fun s op => run op s) ops st.

(** [op] is the Accept action on the user of key [i]. *)
Definition accepts (i : Z) (op : Operation) : bool :=
  match op with
  | Accept cd => opt_eqb Z.eqb (UserActionForm.user_id cd) (Some i)
  | _ => false
  end.

(** ** Consistency of the store *)

(** The values of a column, nulls left out. *)
Definition keys {A K : Type} (key : A -> option K) (l : list A) : list K :=
  flat_map (fun a => match key a with Some k => [k] | None => [] end) l.

Fixpoint distinct {K : Type} (eqb : K -> K -> bool) (l : list K) : bool :=
  match l with
  | [] => true
  | k :: rest => negb (existsb (eqb k) rest) && distinct eqb rest
  end.

(** Every row has a key, keys are pairwise different, and the sequence is
    ahead of all of them. *)
Definition Table_ok {A : Type} `{Model A} (t : Table A) : bool :=
  forallb (fun a => match pk a with
                    | Some i => i <? next_pk t
                    | None => false
                    end) (rows t)
  && distinct Z.eqb (keys pk (rows t)).

(** The invariants of the data model: keyed tables, unique emails, unique
    registry ids, and at most one profile and one membership row per user. *)
Definition Store_ok (st : Store) : bool :=
  Table_ok (users st) && Table_ok (students st) && Table_ok (teachers st)
  && Table_ok (deptadmins st) && Table_ok (department_students st)
  && Table_ok (department_teachers st)
  && distinct String.eqb (keys (fun u => Some (User.email u)) (rows (users st)))
  && distinct String.eqb (keys Student.registry_id (rows (students st)))
  && distinct Z.eqb (keys (fun s => Some (Student.user s)) (rows (students st)))
  && distinct Z.eqb (keys (fun s => Some (Teacher.user s)) (rows (teachers st)))
  && distinct Z.eqb (keys (fun s => Some (Deptadmin.user s))
                          (rows (deptadmins st)))
  && distinct Z.eqb (keys (fun s => Some (DepartmentStudents.user_id s))
                          (rows (department_students st)))
  && distinct Z.eqb (keys (fun s => Some (DepartmentTeachers.user_id s))
                          (rows (department_teachers st))).

(** The key and role flags of every user, in table order. *)
Definition user_flags (st : Store) : list (option Z * (bool * bool * bool * bool)) :=
  map (fun u => (User.id u, User.role_flags u)) (rows (users st)).

(** ** Sample data *)

Module Sample.
Definition env : Env := {|
  make_password := fun raw => String.append "hash$" raw;
  check_password := fun raw hashed => String.eqb (String.append "hash$" raw) hashed;
  default_is_active := true
|}.

Definition empty : Store :=
  mkStore (mkTable [] 1) (mkTable [] 1) (mkTable [] 1)
          (mkTable [] 1) (mkTable [] 1) (mkTable [] 1).

Definition ann : User.t :=
  User.mk (Some 1) "ann@uni.example" "hash$s3cret" true false false false
          false true.
Definition bob : User.t :=
  User.mk (Some 2) "bob@uni.example" "hash$hunter2" true false false false
          true true.

Definition ann_profile : Student.t :=
  Student.mk (Some 1) 1 (Some "R-100") (Some "Ann") (Some "Lee") (Some 2020).
Definition bob_profile : Student.t :=
  Student.mk (Some 2) 2 (Some "R-200") (Some "Bob") (Some "Ray") (Some 2021).

(** Two accepted-or-not students, each with a profile and a membership. *)
Definition campus : Store :=
  mkStore (mkTable [ann; bob] 3)
          (mkTable [ann_profile; bob_profile] 3)
          (mkTable [] 1) (mkTable [] 1)
          (mkTable [DepartmentStudents.mk (Some 1) 10 1;
                    DepartmentStudents.mk (Some 2) 20 2] 3)
          (mkTable [] 1).

(** The same, with Ann's membership row missing. *)
Definition campus_no_membership : Store :=
  mkStore (mkTable [ann; bob] 3)
          (mkTable [ann_profile; bob_profile] 3)
          (mkTable [] 1) (mkTable [] 1)
          (mkTable [DepartmentStudents.mk (Some 2) 20 2] 3)
          (mkTable [] 1).
End Sample.

(** A campus with staff: Eve teaches in department 20, Dan administers
    department 10. *)
Module SampleStaff.
Definition eve : User.t :=
  User.mk (Some 3) "eve@uni.example" "hash$pw12345678" false true false false
          true true.
Definition dan : User.t :=
  User.mk (Some 4) "dan@uni.example" "hash$pw87654321" false false true true
          true true.
Definition eve_profile : Teacher.t :=
  Teacher.mk (Some 1) 3 (Some "Eve") (Some "Moss") (Some "Lecturer").

Definition faculty : Store :=
  mkStore (mkTable [Sample.ann; Sample.bob; eve; dan] 5)
          (mkTable [Sample.ann_profile; Sample.bob_profile] 3)
          (mkTable [eve_profile] 2)
          (mkTable [Deptadmin.mk (Some 1) 4 10] 2)
          (mkTable [DepartmentStudents.mk (Some 1) 10 1;
                    DepartmentStudents.mk (Some 2) 20 2] 3)
          (mkTable [DepartmentTeachers.mk (Some 1) 20 3] 2).
End SampleStaff.

(** ** What an operation does to the user table *)

(** The user row an operation overwrites: the key it looks the row up by
    and the assignment it makes before the row is saved. *)
Definition written_by (op : Operation) : option (option Z * (User.t -> User.t)) :=
  match op with
  | Accept cd => Some (UserActionForm.user_id cd, User.set_is_accepted true)
  | Activate cd => Some (UserActionForm.user_id cd, User.set_is_active true)
  | Deactivate cd => Some (UserActionForm.user_id cd, User.set_is_active false)
  | StudentUpdate d =>
      Some (Some (StudentUpdateForm.user_id d),
            User.set_email (StudentUpdateForm.email d))
  | TeacherUpdate d =>
      Some (Some (TeacherUpdateForm.user_id d),
            User.set_email (TeacherUpdateForm.email d))
  | DeptadminUpdate d =>
      Some (Some (DeptadminUpdateForm.user_id d),
            User.set_email (DeptadminUpdateForm.email d))
  | _ => None
  end.

(** The unsaved user a signup hands to [save]. *)
Definition created_by `{Env} (op : Operation) : option User.t :=
  match op with
  | StudentSignup d =>
      Some (User.set_is_student true
              (UserCreationForm_save (StudentSignupForm.email d)
                                     (StudentSignupForm.password1 d)))
  | TeacherSignup d =>
      Some (User.set_is_teacher true
              (UserCreationForm_save (TeacherSignupForm.email d)
                                     (TeacherSignupForm.password1 d)))
  | DeptadminSignup d =>
      Some (User.set_is_staff true
              (User.set_is_deptadmin true
                 (UserCreationForm_save (DeptadminSignupForm.email d)
                                        (DeptadminSignupForm.password1 d))))
  | _ => None
  end.

(** A computation that leaves the user table as it found it. *)
Definition keeps_users {A : Type} (m : M A) : Prop :=
  forall st, users (snd (m st)) = users st.

(** The [is_accepted] flags of the rows stored under key [i]. *)
Definition accepted_flags (i : Z) (st : Store) : list bool :=
  map User.is_accepted (filter (pk_is (Some i)) (rows (users st))).

(** ** References between tables *)

(** Every profile and membership row points at a user key the sequence has
    already handed out. *)
Definition refs_ok (st : Store) : bool :=
  let bound := next_pk (users st) in
  forallb (fun s => Student.user s <? bound) (rows (students st))
  && forallb (fun s => Teacher.user s <? bound) (rows (teachers st))
  && forallb (fun s => Deptadmin.user s <? bound) (rows (deptadmins st))
  && forallb (fun s => DepartmentStudents.user_id s <? bound)
             (rows (department_students st))
  && forallb (fun s => DepartmentTeachers.user_id s <? bound)
             (rows (department_teachers st)).

(** The data an operation is run on went through its form's validation:
    [is_valid] for the forms that save, nothing to ask of the others. *)
Definition validated `{Env} (op : Operation) (st : Store) : bool :=
  match op with
  | StudentSignup d => StudentSignupForm.is_valid d st
  | StudentUpdate d => StudentUpdateForm.is_valid d st
  | TeacherSignup d => TeacherSignupForm.is_valid d st
  | TeacherUpdate d => TeacherUpdateForm.is_valid d st
  | DeptadminSignup d => DeptadminSignupForm.is_valid d st
  | DeptadminUpdate d => DeptadminUpdateForm.is_valid d st
  | _ => true
  end.

(** A run of operations in which each one is validated in the store the
    ones before it left, as a view does that calls [is_valid] and then
    [save] within one request. *)
Fixpoint all_validated `{Env} (ops : list Operation) (st : Store) : bool :=
  match ops with
  | [] => true
  | op :: rest => validated op st && all_validated rest (run op st)
  end.

(** * Properties *)

(** ** Lists, tables and the monad *)

Lemma filter_all {A : Type} (p : A -> bool) (l : list A) :
  (forall a, In a l -> p a = true) -> filter p l = l.
Proof.
  induction l as [|a l IH]; simpl; intros Hp; [reflexivity|].
  rewrite (Hp a) by (left; reflexivity).
  f_equal. apply IH. intros b Hb. apply Hp. right. exact Hb.
Qed.

Lemma Table_eta {A : Type} (t : Table A) : mkTable (rows t) (next_pk t) = t.
Proof. destruct t; reflexivity. Qed.

Lemma Store_eta (st : Store) :
  mkStore (users st) (students st) (teachers st) (deptadmins st)
          (department_students st) (department_teachers st) = st.
Proof. destruct st; reflexivity. Qed.

(** A transaction that raises leaves the store it started from. *)
Lemma atomic_rollback {A : Type} (m : M A) (st : Store) (e : Exception) :
  fst (atomic m st) = Raise e -> snd (atomic m st) = st.
Proof.
  unfold atomic. destruct (m st) as [[a|e'] st']; simpl; [discriminate|reflexivity].
Qed.

(** A transaction that returns has run its body to the end. *)
Lemma atomic_commit {A : Type} (m : M A) (st st' : Store) (a : A) :
  m st = (Ok a, st') -> atomic m st = (Ok a, st').
Proof. unfold atomic. intros ->. reflexivity. Qed.

Lemma atomic_cases {A : Type} (m : M A) (st : Store) :
  (exists e, fst (m st) = Raise e /\ atomic m st = (Raise e, st))
  \/ (exists a, fst (m st) = Ok a /\ atomic m st = m st).
Proof.
  unfold atomic. destruct (m st) as [[a|e] st']; simpl.
  - right. exists a. split; reflexivity.
  - left. exists e. split; reflexivity.
Qed.

(** ** IntegerField *)

Lemma IntegerField_clean_accepts (lo hi n : Z) :
  lo <= n <= hi ->
  IntegerField.clean (IntegerField.mk (Some lo) (Some hi) true) (Some n)
  = inl (Some n).
Proof.
  intros [Hlo Hhi]. unfold IntegerField.clean, IntegerField.run_validators. simpl.
  destruct (Z.gtb_spec n hi); [lia|].
  destruct (Z.ltb_spec n lo); [lia|]. reflexivity.
Qed.

Lemma IntegerField_clean_rejects (lo hi n : Z) :
  n < lo \/ hi < n ->
  exists errors,
    IntegerField.clean (IntegerField.mk (Some lo) (Some hi) true) (Some n)
    = inr errors.
Proof.
  intros Hout. unfold IntegerField.clean, IntegerField.run_validators. simpl.
  destruct (Z.gtb_spec n hi); destruct (Z.ltb_spec n lo); simpl;
    try (eexists; reflexivity). lia.
Qed.

(** What the year bound of the admission-year fields does: the lower bound
    2000 always holds, and the upper bound is the year the class body ran
    in, whatever the year validation happens in. *)
Lemma admission_year_bound (year_at_import n : Z) :
  (2000 <= n <= year_at_import ->
   IntegerField.clean (StudentSignupForm.admission_year_field year_at_import) (Some n)
   = inl (Some n)
   /\ IntegerField.clean (StudentUpdateForm.admission_year_field year_at_import) (Some n)
      = inl (Some n))
  /\ (n < 2000 \/ year_at_import < n ->
      exists errors,
        IntegerField.clean (StudentSignupForm.admission_year_field year_at_import) (Some n)
        = inr errors
        /\ IntegerField.clean (StudentUpdateForm.admission_year_field year_at_import) (Some n)
           = inr errors).
Proof.
  split.
  - intros Hin. split; apply IntegerField_clean_accepts; exact Hin.
  - intros Hout.
    destruct (IntegerField_clean_rejects 2000 year_at_import n Hout) as [errors He].
    exists errors. split; exact He.
Qed.

(** C5 (code defect).  The claim asks for the bound [2000, current year]
    as of validation time.  In a process that imported the module in 2023
    and validates a form in 2024, both forms reject the admission year 2024
    with [max_value]: the upper bound is the year of import. *)
Theorem admission_year_bound_is_year_of_import :
  let year_at_import := 2023 in
  let year_at_validation := 2024 in
  IntegerField.clean (StudentSignupForm.admission_year_field year_at_import)
                     (Some year_at_validation)
  = inr [ValidationError
           "Ensure this value is less than or equal to %(limit_value)s."
           "max_value"]
  /\ IntegerField.clean (StudentUpdateForm.admission_year_field year_at_import)
                        (Some year_at_validation)
     = inr [ValidationError
              "Ensure this value is less than or equal to %(limit_value)s."
              "max_value"]
  /\ (exists errors,
         IntegerField.clean (StudentSignupForm.admission_year_field year_at_import)
                            (Some 1999) = inr errors).
Proof.
  repeat split. eexists. reflexivity.
Qed.

(** ** UserActionForm *)

(** C7.  When the submitted [user_id] matches no user, Accept, Activate and
    Deactivate raise [User.DoesNotExist] (NotFound) and write nothing, while
    Delete returns normally and leaves the store as it was. *)
Theorem action_on_missing_user (cd : UserActionForm.cleaned_data) (st : Store) :
  filter (pk_is (UserActionForm.user_id cd)) (rows (users st)) = [] ->
  UserActionForm.accept cd st = (Raise (DoesNotExist "User"), st)
  /\ UserActionForm.activate cd st = (Raise (DoesNotExist "User"), st)
  /\ UserActionForm.deactivate cd st = (Raise (DoesNotExist "User"), st)
  /\ UserActionForm.delete cd st = (Ok tt, st)
  /\ is_NotFound (DoesNotExist "User") = true.
Proof.
  intros Hnone.
  assert (Hget : objects_get (A:=User.t) (pk_is (UserActionForm.user_id cd)) st
                 = (Raise (DoesNotExist "User"), st)).
  { unfold objects_get, bind, objects_filter. simpl in *. rewrite Hnone. reflexivity. }
  repeat split.
  - unfold UserActionForm.accept, bind. rewrite Hget. reflexivity.
  - unfold UserActionForm.activate, bind. rewrite Hget. reflexivity.
  - unfold UserActionForm.deactivate, bind. rewrite Hget. reflexivity.
  - unfold UserActionForm.delete, User_objects_delete, bind, objects_filter.
    simpl in *. rewrite Hnone. unfold remove_rows. simpl.
    rewrite !filter_all
      by (intros a _; try destruct (User.id a); reflexivity).
    rewrite !Table_eta, Store_eta. reflexivity.
Qed.

Lemma action_on_missing_user_witness :
  UserActionForm.accept (UserActionForm.mk (Some 7)) Sample.campus
  = (Raise (DoesNotExist "User"), Sample.campus)
  /\ UserActionForm.delete (UserActionForm.mk (Some 7)) Sample.campus
     = (Ok tt, Sample.campus).
Proof.
  destruct (action_on_missing_user (UserActionForm.mk (Some 7)) Sample.campus)
    as (Ha & _ & _ & Hd & _).
  - reflexivity.
  - split; [exact Ha | exact Hd].
Defined.

(** ** SigninForm *)

Lemma authenticate_reads `{Env} (username password : option string) (st : Store) :
  snd (authenticate username password st) = st.
Proof.
  unfold authenticate.
  destruct username as [e|]; [destruct password as [p|]|]; try reflexivity.
  unfold bind, objects_filter. simpl.
  destruct (filter _ _) as [|u rest]; [reflexivity|].
  destruct (check_password p (User.password u)); reflexivity.
Qed.

(** Without a non-empty email and a non-empty password in [cleaned_data],
    [clean] checks no credentials and raises nothing. *)
Lemma signin_skips_without_credentials `{Env}
      (cd : SigninForm.cleaned_data) (st : Store) :
  truthy (SigninForm.email cd) && truthy (SigninForm.password cd) = false ->
  SigninForm.clean cd st = (Ok (cd, None), st).
Proof.
  intros Hskip. unfold SigninForm.clean. cbv zeta. rewrite Hskip. reflexivity.
Qed.

(** C1, as amended.  When the email and the password both reach [clean]
    non-empty: an unknown email and a wrong password raise the same
    [invalid_login] error; matching credentials on an account that is not
    accepted raise [disabled], and only then; matching credentials on an
    accepted account return that user; the store is never written. *)
Theorem signin_outcomes `{Env} (e p : string) (st : Store) :
  truthy (Some e) = true ->
  truthy (Some p) = true ->
  let cd := SigninForm.mk (Some e) (Some p) in
  let found := filter (fun u => String.eqb (User.email u) e) (rows (users st)) in
  snd (SigninForm.clean cd st) = st
  /\ ((found = []
       \/ exists u rest,
            found = u :: rest /\ check_password p (User.password u) = false) ->
      fst (SigninForm.clean cd st)
      = Raise (ValidationError "Incorrect email or password." "invalid_login"))
  /\ (forall u rest,
        found = u :: rest ->
        check_password p (User.password u) = true ->
        (User.is_accepted u = false ->
         fst (SigninForm.clean cd st)
         = Raise (ValidationError "Please wait for your account to be enabled."
                                  "disabled"))
        /\ (User.is_accepted u = true ->
            fst (SigninForm.clean cd st) = Ok (cd, Some u))).
Proof.
  intros He Hp cd found. subst cd.
  unfold SigninForm.clean. cbv zeta. cbn [SigninForm.email SigninForm.password].
  rewrite He, Hp. cbn [andb].
  cbv [bind ret raise authenticate objects_filter SigninForm.confirm_login_allowed].
  cbn [table User_Model]. fold found.
  split; [|split].
  - destruct found as [|u rest]; [reflexivity|].
    destruct (check_password p (User.password u)); [|reflexivity].
    destruct (User.is_accepted u); reflexivity.
  - intros [Hnone | (u & rest & Hfound & Hbad)].
    + rewrite Hnone. reflexivity.
    + rewrite Hfound. simpl. rewrite Hbad. reflexivity.
  - intros u rest Hfound Hgood. rewrite Hfound. simpl. rewrite Hgood.
    split; intros Hacc; rewrite Hacc; reflexivity.
Qed.

Lemma signin_outcomes_witness :
  fst (@SigninForm.clean Sample.env
         (SigninForm.mk (Some "ann@uni.example") (Some "s3cret")) Sample.campus)
  = Raise (ValidationError "Please wait for your account to be enabled."
                           "disabled")
  /\ fst (@SigninForm.clean Sample.env
            (SigninForm.mk (Some "ann@uni.example") (Some "wrong")) Sample.campus)
     = Raise (ValidationError "Incorrect email or password." "invalid_login").
Proof.
  split.
  - destruct (@signin_outcomes Sample.env "ann@uni.example" "s3cret" Sample.campus)
      as (_ & _ & Hgood); [reflexivity | reflexivity |].
    apply (Hgood Sample.ann []); reflexivity.
  - destruct (@signin_outcomes Sample.env "ann@uni.example" "wrong" Sample.campus)
      as (_ & Hbad & _); [reflexivity | reflexivity |].
    apply Hbad. right. exists Sample.ann, []. split; reflexivity.
Defined.

(** C1 as stated fails when a field is missing from [cleaned_data]: no user
    has the email, the password did not pass its field, and [clean] returns
    without an [invalid_login] error and without a credential check. *)
Lemma signin_without_password_counterexample :
  filter (fun u => String.eqb (User.email u) "ann@uni.example")
         (rows (users Sample.empty)) = []
  /\ @SigninForm.clean Sample.env
       (SigninForm.mk (Some "ann@uni.example") None) Sample.empty
     = (Ok (SigninForm.mk (Some "ann@uni.example") None, None), Sample.empty)
  /\ fst (@SigninForm.clean Sample.env
            (SigninForm.mk (Some "ann@uni.example") None) Sample.empty)
     <> Raise (ValidationError "Incorrect email or password." "invalid_login").
Proof. repeat split; discriminate. Qed.

(** ** StudentSignupForm.clean *)

(** C3.  A signup whose registry id is already held by a student is
    rejected by [clean] with [registry_id_exists], and the store is
    untouched: no row of any table is created. *)
Theorem duplicate_registry_id_rejected
  (cd : StudentSignupForm.cleaned_data) (st : Store) (r : string) (s : Student.t) :
  StudentSignupForm.registry_id cd = Some r ->
  In s (rows (students st)) ->
  Student.registry_id s = Some r ->
  StudentSignupForm.clean cd st
  = (Raise (ValidationError "A student with this registry id already exists."
                            "registry_id_exists"), st).
Proof.
  intros Hcd Hin Hs.
  unfold StudentSignupForm.clean, bind, objects_filter. simpl table.
  rewrite Hcd.
  assert (Hfound : In s (filter (fun s0 => opt_eqb String.eqb (Student.registry_id s0) (Some r))
                                (rows (students st)))).
  { apply filter_In. split; [exact Hin|]. rewrite Hs. simpl. apply String.eqb_refl. }
  destruct (filter _ _) as [|s0 rest]; [destruct Hfound|]. reflexivity.
Qed.

Lemma duplicate_registry_id_rejected_witness :
  StudentSignupForm.clean
    (StudentSignupForm.mk (F:=option) (Some 10) (Some "cy@uni.example") (Some "Cy")
       (Some "Orr") (Some "R-100") (Some 2022) (Some "pw12345678") (Some "pw12345678"))
    Sample.campus
  = (Raise (ValidationError "A student with this registry id already exists."
                            "registry_id_exists"), Sample.campus).
Proof.
  apply (duplicate_registry_id_rejected _ Sample.campus "R-100" Sample.ann_profile).
  - reflexivity.
  - simpl. left. reflexivity.
  - reflexivity.
Defined.

(** ** Uniqueness in a consistent store *)

Lemma existsb_keys {A K : Type} (eqb : K -> K -> bool) (key : A -> option K)
      (l : list A) (a : A) (k : K) :
  (forall x, eqb x x = true) ->
  In a l -> key a = Some k -> existsb (eqb k) (keys key l) = true.
Proof.
  intros Hrefl Hin Hk. apply existsb_exists. exists k. split; [|apply Hrefl].
  unfold keys. apply in_flat_map. exists a. split; [exact Hin|].
  rewrite Hk. left. reflexivity.
Qed.

(** Two rows of a table with distinct keys that hold the same key are the
    same row. *)
Lemma distinct_keys_inj {A K : Type} (eqb : K -> K -> bool) (key : A -> option K)
      (l : list A) :
  (forall x, eqb x x = true) ->
  distinct eqb (keys key l) = true ->
  forall a b k, In a l -> In b l -> key a = Some k -> key b = Some k -> a = b.
Proof.
  intros Hrefl. induction l as [|x l IH]; intros Hd a b k Ha Hb Hka Hkb.
  - destruct Ha.
  - assert (Htail : distinct eqb (keys key l) = true).
    { simpl in Hd. destruct (key x); simpl in Hd.
      - apply andb_true_iff in Hd. apply Hd.
      - exact Hd. }
    assert (Hhead : forall c, In c l -> key x = Some k -> key c = Some k -> False).
    { intros c Hc Hkx Hkc. simpl in Hd. rewrite Hkx in Hd. simpl in Hd.
      apply andb_true_iff in Hd. destruct Hd as [Hd _].
      rewrite (existsb_keys eqb key l c k Hrefl Hc Hkc) in Hd. discriminate. }
    destruct Ha as [<-|Ha], Hb as [<-|Hb].
    + reflexivity.
    + exfalso. exact (Hhead b Hb Hka Hkb).
    + exfalso. exact (Hhead a Ha Hkb Hka).
    + exact (IH Htail a b k Ha Hb Hka Hkb).
Qed.

Lemma Store_ok_emails (st : Store) :
  Store_ok st = true ->
  forall a b, In a (rows (users st)) -> In b (rows (users st)) ->
              User.email a = User.email b -> a = b.
Proof.
  unfold Store_ok. rewrite !andb_true_iff. intros Hok a b Ha Hb Hab.
  decompose [and] Hok.
  eapply (distinct_keys_inj String.eqb (fun u => Some (User.email u)));
    eauto using String.eqb_refl. simpl. rewrite Hab. reflexivity.
Qed.

Lemma Store_ok_registry_ids (st : Store) :
  Store_ok st = true ->
  forall a b r, In a (rows (students st)) -> In b (rows (students st)) ->
                Student.registry_id a = Some r -> Student.registry_id b = Some r ->
                a = b.
Proof.
  unfold Store_ok. rewrite !andb_true_iff. intros Hok a b r Ha Hb Hra Hrb.
  decompose [and] Hok.
  eapply (distinct_keys_inj String.eqb Student.registry_id);
    eauto using String.eqb_refl.
Qed.

(** ** StudentUpdateForm.clean *)

(** The two checks of [clean], in order: the first row found for the email,
    then the first row found for the registry id. *)
Lemma StudentUpdateForm_clean_eq (cd : StudentUpdateForm.cleaned_data) (st : Store) :
  StudentUpdateForm.clean cd st =
  match filter (fun u => opt_eqb String.eqb (Some (User.email u))
                                 (StudentUpdateForm.email cd))
               (rows (users st)) with
  | first :: _ =>
      if negb (opt_eqb Z.eqb (User.id first) (StudentUpdateForm.user_id cd))
      then (Raise (ValidationError "This email is used by another user."
                                   "email_exists"), st)
      else
        match filter (fun s => opt_eqb String.eqb (Student.registry_id s)
                                       (StudentUpdateForm.registry_id cd))
                     (rows (students st)) with
        | first' :: _ =>
            if negb (opt_eqb Z.eqb (Some (Student.user first'))
                             (StudentUpdateForm.user_id cd))
            then (Raise (ValidationError
                           "A student with this registry id already exists."
                           "registry_id_exists"), st)
            else (Ok cd, st)
        | [] => (Ok cd, st)
        end
  | [] =>
      match filter (fun s => opt_eqb String.eqb (Student.registry_id s)
                                     (StudentUpdateForm.registry_id cd))
                   (rows (students st)) with
      | first' :: _ =>
          if negb (opt_eqb Z.eqb (Some (Student.user first'))
                           (StudentUpdateForm.user_id cd))
          then (Raise (ValidationError
                         "A student with this registry id already exists."
                         "registry_id_exists"), st)
          else (Ok cd, st)
      | [] => (Ok cd, st)
      end
  end.
Proof.
  cbv [StudentUpdateForm.clean bind ret raise raise_if objects_filter].
  cbn [table User_Model Student_Model].
  destruct (filter _ (rows (users st))) as [|first rest].
  - destruct (filter _ (rows (students st))) as [|first' rest']; [reflexivity|].
    destruct (negb _); reflexivity.
  - destruct (negb _); [reflexivity|].
    destruct (filter _ (rows (students st))) as [|first' rest']; [reflexivity|].
    destruct (negb _); reflexivity.
Qed.

(** C4, as amended.  In a consistent store, for an update of user [U]:
    an email held by another user is rejected with [email_exists]; a
    registry id held by a student of another user is rejected with
    [registry_id_exists] provided the email is not another user's (the
    email check comes first and wins); and the user's own email and own
    registry id trigger neither error. *)
Theorem student_update_uniqueness
  (cd : StudentUpdateForm.cleaned_data) (st : Store) (U : Z) (e r : string) :
  Store_ok st = true ->
  StudentUpdateForm.user_id cd = Some U ->
  StudentUpdateForm.email cd = Some e ->
  StudentUpdateForm.registry_id cd = Some r ->
  let email_taken :=
    exists v, In v (rows (users st)) /\ User.email v = e /\ User.id v <> Some U in
  let registry_taken :=
    exists s, In s (rows (students st))
              /\ Student.registry_id s = Some r /\ Student.user s <> U in
  (email_taken ->
   StudentUpdateForm.clean cd st
   = (Raise (ValidationError "This email is used by another user."
                             "email_exists"), st))
  /\ (~ email_taken -> registry_taken ->
      StudentUpdateForm.clean cd st
      = (Raise (ValidationError "A student with this registry id already exists."
                                "registry_id_exists"), st))
  /\ (~ email_taken -> ~ registry_taken ->
      StudentUpdateForm.clean cd st = (Ok cd, st))
  /\ (forall u, In u (rows (users st)) -> User.id u = Some U -> User.email u = e ->
      ~ email_taken)
  /\ (forall s, In s (rows (students st)) -> Student.user s = U ->
      Student.registry_id s = Some r -> ~ registry_taken).
Proof.
  intros Hok HU He Hr email_taken registry_taken.
  rewrite StudentUpdateForm_clean_eq, HU, He, Hr.
  set (found := filter _ (rows (users st))).
  set (found' := filter _ (rows (students st))).
  assert (Hfound : forall v, In v found <-> In v (rows (users st)) /\ User.email v = e).
  { intros v. unfold found. rewrite filter_In. simpl. rewrite String.eqb_eq. reflexivity. }
  assert (Hfound' : forall s, In s found' <->
                              In s (rows (students st)) /\ Student.registry_id s = Some r).
  { intros s. unfold found'. rewrite filter_In.
    destruct (Student.registry_id s) as [x|]; simpl.
    - rewrite String.eqb_eq. split; intros [? ?]; split; congruence.
    - split; intros [? ?]; discriminate. }
  clearbody found found'.
  assert (Hfree : ~ email_taken ->
                  match found with
                  | [] => True
                  | first :: _ => negb (opt_eqb Z.eqb (User.id first) (Some U)) = false
                  end).
  { intros Hnot. destruct found as [|first rest]; [exact I|].
    destruct (User.id first) as [i|] eqn:Hid; simpl.
    - destruct (Z.eqb_spec i U) as [->|Hne]; [reflexivity|].
      exfalso. apply Hnot. exists first.
      destruct (proj1 (Hfound first)) as [Hin Hem]; [left; reflexivity|].
      repeat split; [exact Hin | exact Hem | congruence].
    - exfalso. apply Hnot. exists first.
      destruct (proj1 (Hfound first)) as [Hin Hem]; [left; reflexivity|].
      repeat split; [exact Hin | exact Hem | congruence]. }
  assert (Hfree' : ~ registry_taken ->
                   match found' with
                   | [] => True
                   | first :: _ =>
                       negb (opt_eqb Z.eqb (Some (Student.user first)) (Some U)) = false
                   end).
  { intros Hnot. destruct found' as [|first rest]; [exact I|]. simpl.
    destruct (Z.eqb_spec (Student.user first) U) as [Heq|Hne]; [reflexivity|].
    exfalso. apply Hnot. exists first.
    destruct (proj1 (Hfound' first)) as [Hin Hreg]; [left; reflexivity|].
    repeat split; assumption. }
  split; [|split; [|split; [|split]]].
  - intros (v & Hv & Hem & Hid).
    assert (Hvf : In v found) by (apply Hfound; split; assumption).
    destruct found as [|first rest]; [destruct Hvf|].
    assert (first = v).
    { destruct (proj1 (Hfound first)) as [Hin Hem']; [left; reflexivity|].
      apply (Store_ok_emails st Hok); [exact Hin | exact Hv | congruence]. }
    subst first. destruct (User.id v) as [i|]; simpl.
    + destruct (Z.eqb_spec i U) as [->|Hne]; [congruence | reflexivity].
    + reflexivity.
  - intros Hnot (s & Hs & Hreg & Howner).
    specialize (Hfree Hnot).
    assert (Hsf : In s found') by (apply Hfound'; split; assumption).
    assert (Hreject : match found' with
                      | [] => False
                      | first :: _ =>
                          negb (opt_eqb Z.eqb (Some (Student.user first)) (Some U)) = true
                      end).
    { destruct found' as [|first rest]; [destruct Hsf|].
      assert (first = s).
      { destruct (proj1 (Hfound' first)) as [Hin Hreg']; [left; reflexivity|].
        apply (Store_ok_registry_ids st Hok first s r); assumption. }
      subst first. simpl.
      destruct (Z.eqb_spec (Student.user s) U); [contradiction | reflexivity]. }
    destruct found as [|first rest]; [|rewrite Hfree];
      (destruct found' as [|first' rest']; [destruct Hreject|];
       rewrite Hreject; reflexivity).
  - intros Hnot Hnot'. specialize (Hfree Hnot). specialize (Hfree' Hnot').
    destruct found as [|first rest]; [|rewrite Hfree];
      (destruct found' as [|first' rest']; [reflexivity|];
       rewrite Hfree'; reflexivity).
  - intros u Hu Hid Hem (v & Hv & Hem' & Hid').
    apply Hid'. rewrite <- Hid. f_equal.
    apply (Store_ok_emails st Hok); [exact Hv | exact Hu | congruence].
  - intros s Hs Howner Hreg (s' & Hs' & Hreg' & Howner').
    apply Howner'. rewrite <- Howner. f_equal.
    apply (Store_ok_registry_ids st Hok s' s r); assumption.
Qed.

Lemma student_update_uniqueness_witness :
  StudentUpdateForm.clean
    (StudentUpdateForm.mk (F:=option) (Some 1) (Some 10) (Some "Ann") (Some "Lee")
       (Some "R-100") (Some 2020) (Some "bob@uni.example"))
    Sample.campus
  = (Raise (ValidationError "This email is used by another user." "email_exists"),
     Sample.campus).
Proof.
  apply (student_update_uniqueness _ Sample.campus 1 "bob@uni.example" "R-100");
    try reflexivity.
  exists Sample.bob. split; [simpl; right; left; reflexivity|].
  split; [reflexivity | discriminate].
Defined.

(** C4 as stated fails when both the email and the registry id belong to
    someone else: Bob's student row holds the submitted registry id and is
    not owned by user 1, yet the error raised is [email_exists]. *)
Lemma student_update_both_taken_counterexample :
  (In Sample.bob_profile (rows (students Sample.campus))
   /\ Student.registry_id Sample.bob_profile = Some "R-200"
   /\ Student.user Sample.bob_profile <> 1)
  /\ StudentUpdateForm.clean
       (StudentUpdateForm.mk (F:=option) (Some 1) (Some 10) (Some "Ann") (Some "Lee")
          (Some "R-200") (Some 2020) (Some "bob@uni.example"))
       Sample.campus
     = (Raise (ValidationError "This email is used by another user." "email_exists"),
        Sample.campus)
  /\ fst (StudentUpdateForm.clean
            (StudentUpdateForm.mk (F:=option) (Some 1) (Some 10) (Some "Ann")
               (Some "Lee") (Some "R-200") (Some 2020) (Some "bob@uni.example"))
            Sample.campus)
     <> Raise (ValidationError "A student with this registry id already exists."
                               "registry_id_exists").
Proof.
  split; [split; [simpl; right; left; reflexivity | split; [reflexivity | discriminate]]|].
  split; [reflexivity | discriminate].
Qed.

(** ** Stepping through a computation *)

Lemma bind_ok {A B : Type} (m : M A) (f : A -> M B) (st st' : Store) (a : A) :
  m st = (Ok a, st') -> bind m f st = f a st'.
Proof. unfold bind. intros ->. reflexivity. Qed.

Lemma bind_raise {A B : Type} (m : M A) (f : A -> M B) (st st' : Store)
      (e : Exception) :
  m st = (Raise e, st') -> bind m f st = (Raise e, st').
Proof. unfold bind. intros ->. reflexivity. Qed.

Lemma atomic_raise {A : Type} (m : M A) (st st' : Store) (e : Exception) :
  m st = (Raise e, st') -> atomic m st = (Raise e, st).
Proof. unfold atomic. intros ->. reflexivity. Qed.

(** ** The managers *)

Section ManagerFacts.
Context {A : Type} `{Model A}.

Lemma pk_is_true (i : option Z) (a : A) :
  pk_is i a = true -> pk a = i.
Proof.
  unfold pk_is. destruct i as [x|]; [|discriminate].
  destruct (pk a) as [y|]; [|discriminate].
  intros Heq. apply Z.eqb_eq in Heq. congruence.
Qed.

Lemma pk_is_refl (a : A) (i : Z) : pk a = Some i -> pk_is (Some i) a = true.
Proof. unfold pk_is. intros ->. apply Z.eqb_refl. Qed.

Lemma objects_get_none (p : A -> bool) (st : Store) :
  filter p (rows (table st)) = [] ->
  objects_get p st = (Raise (DoesNotExist model_name), st).
Proof.
  intros Hf. unfold objects_get, bind, objects_filter. rewrite Hf. reflexivity.
Qed.

Lemma objects_get_one (p : A -> bool) (st : Store) (a : A) :
  filter p (rows (table st)) = [a] ->
  objects_get p st = (Ok a, st).
Proof.
  intros Hf. unfold objects_get, bind, objects_filter. rewrite Hf. reflexivity.
Qed.

(** [get] reads: whatever it returns, the store is the same. *)
Lemma objects_get_reads (p : A -> bool) (st : Store) :
  snd (objects_get p st) = st.
Proof.
  unfold objects_get, bind, objects_filter.
  destruct (filter p (rows (table st))) as [|a [|b rest]]; reflexivity.
Qed.

Lemma objects_get_ok (p : A -> bool) (st st' : Store) (a : A) :
  objects_get p st = (Ok a, st') ->
  st' = st /\ filter p (rows (table st)) = [a].
Proof.
  unfold objects_get, bind, objects_filter.
  destruct (filter p (rows (table st))) as [|b [|c rest]]; cbv [ret raise];
    intros Heq; inversion Heq; subst; split; reflexivity.
Qed.

Lemma unique_ok_intro (others : list A) (a : A) :
  (forall b, In b others -> pk_is (pk a) b = true \/ conflicts a b = false) ->
  unique_ok others a = true.
Proof.
  intros Hall. unfold unique_ok. apply forallb_forall. intros b Hb.
  destruct (Hall b Hb) as [-> | ->]; [reflexivity | apply orb_true_r].
Qed.

Lemma Model_save_insert (a : A) (st : Store) :
  pk a = None ->
  unique_ok (rows (table st)) (with_pk (next_pk (table st)) a) = true ->
  Model_save a st
  = (Ok (with_pk (next_pk (table st)) a),
     set_table (mkTable (rows (table st) ++ [with_pk (next_pk (table st)) a])
                        (next_pk (table st) + 1)) st).
Proof.
  intros Hpk Hu. unfold Model_save. rewrite Hpk. cbv zeta. rewrite Hu. reflexivity.
Qed.

Lemma Model_save_update (a : A) (st : Store) (i : Z) :
  pk a = Some i ->
  unique_ok (rows (table st)) a = true ->
  existsb (pk_is (Some i)) (rows (table st)) = true ->
  Model_save a st
  = (Ok a,
     set_table (mkTable (map (fun b => if pk_is (Some i) b then a else b)
                             (rows (table st)))
                        (next_pk (table st))) st).
Proof.
  intros Hpk Hu Hex. unfold Model_save. rewrite Hpk. cbv zeta. rewrite Hu, Hex.
  reflexivity.
Qed.

(** In a table with distinct values in a column, at most one row holds a
    given value. *)
Lemma distinct_filter {K : Type} (eqb : K -> K -> bool) (key : A -> option K)
      (l : list A) (p : A -> bool) (k : K) :
  (forall x, eqb x x = true) ->
  distinct eqb (keys key l) = true ->
  (forall a, p a = true -> key a = Some k) ->
  filter p l = [] \/ exists a, filter p l = [a].
Proof.
  intros Hrefl Hd Hp. induction l as [|x l IH]; [left; reflexivity|].
  assert (Htail : distinct eqb (keys key l) = true).
  { simpl in Hd. destruct (key x); simpl in Hd.
    - apply andb_true_iff in Hd. apply Hd.
    - exact Hd. }
  simpl. destruct (p x) eqn:Hpx.
  - right. exists x. f_equal.
    apply Hp in Hpx.
    assert (Hnone : forall c, In c l -> p c = false).
    { intros c Hc. destruct (p c) eqn:Hpc; [|reflexivity]. exfalso.
      apply Hp in Hpc. simpl in Hd. rewrite Hpx in Hd. simpl in Hd.
      apply andb_true_iff in Hd. destruct Hd as [Hd _].
      rewrite (existsb_keys eqb key l c k Hrefl Hc Hpc) in Hd. discriminate. }
    clear -Hnone. induction l as [|y l IHl]; [reflexivity|].
    simpl. rewrite (Hnone y) by (left; reflexivity).
    apply IHl. intros c Hc. apply Hnone. right. exact Hc.
  - exact (IH Htail).
Qed.

Lemma Table_ok_pk (t : Table A) (a : A) :
  Table_ok t = true -> In a (rows t) ->
  exists i, pk a = Some i /\ i < next_pk t.
Proof.
  unfold Table_ok. rewrite andb_true_iff. intros [Hall _] Ha.
  rewrite forallb_forall in Hall. specialize (Hall a Ha).
  destruct (pk a) as [i|]; [|discriminate].
  exists i. split; [reflexivity|]. apply Z.ltb_lt. exact Hall.
Qed.

Lemma Table_ok_distinct (t : Table A) :
  Table_ok t = true -> distinct Z.eqb (keys pk (rows t)) = true.
Proof. unfold Table_ok. rewrite andb_true_iff. intros [_ Hd]. exact Hd. Qed.

(** No stored row holds the key the sequence hands out next. *)
Lemma Table_ok_fresh (t : Table A) (a : A) :
  Table_ok t = true -> In a (rows t) -> pk_is (Some (next_pk t)) a = false.
Proof.
  intros Hok Ha. destruct (Table_ok_pk t a Hok Ha) as (i & Hi & Hlt).
  unfold pk_is. rewrite Hi. apply Z.eqb_neq. lia.
Qed.

(** A key lookup in a keyed table finds one row or none. *)
Lemma Table_ok_get (t : Table A) (i : option Z) :
  Table_ok t = true ->
  filter (pk_is i) (rows t) = [] \/ exists a, filter (pk_is i) (rows t) = [a].
Proof.
  intros Hok. destruct i as [i|].
  - apply (distinct_filter Z.eqb pk (rows t) (pk_is (Some i)) i).
    + apply Z.eqb_refl.
    + apply Table_ok_distinct. exact Hok.
    + intros a Ha. apply pk_is_true. exact Ha.
  - left. induction (rows t) as [|x l IH]; [reflexivity|]. simpl. exact IH.
Qed.

(** Overwriting by key touches the rows of that key only. *)
Lemma map_overwrite_other (l : list A) (i : Z) (a : A) :
  (forall b, In b l -> pk_is (Some i) b = false) ->
  map (fun b => if pk_is (Some i) b then a else b) l = l.
Proof.
  intros Hno. induction l as [|x l IH]; [reflexivity|]. cbn [map].
  rewrite (Hno x) by (left; reflexivity). f_equal.
  apply IH. intros b Hb. apply Hno. right. exact Hb.
Qed.
End ManagerFacts.

Lemma Store_ok_inv (st : Store) :
  Store_ok st = true ->
  Table_ok (users st) = true /\ Table_ok (students st) = true
  /\ Table_ok (teachers st) = true /\ Table_ok (deptadmins st) = true
  /\ Table_ok (department_students st) = true
  /\ Table_ok (department_teachers st) = true
  /\ distinct Z.eqb (keys (fun s => Some (Student.user s)) (rows (students st))) = true
  /\ distinct Z.eqb (keys (fun s => Some (Teacher.user s)) (rows (teachers st))) = true
  /\ distinct Z.eqb (keys (fun s => Some (Deptadmin.user s)) (rows (deptadmins st))) = true
  /\ distinct Z.eqb (keys (fun s => Some (DepartmentStudents.user_id s))
                          (rows (department_students st))) = true
  /\ distinct Z.eqb (keys (fun s => Some (DepartmentTeachers.user_id s))
                          (rows (department_teachers st))) = true.
Proof.
  unfold Store_ok. rewrite !andb_true_iff. intros Hok. decompose [and] Hok.
  repeat split; assumption.
Qed.

Lemma filter_nil_false {A : Type} (p : A -> bool) (l : list A) (b : A) :
  filter p l = [] -> In b l -> p b = false.
Proof.
  intros Hf Hb. destruct (p b) eqn:Hpb; [|reflexivity].
  assert (Hin : In b (filter p l)) by (apply filter_In; split; assumption).
  rewrite Hf in Hin. destruct Hin.
Qed.

(** ** Signup *)

Lemma validate_unique_passes (e : string) (st : Store) :
  passes (UserCreationForm_validate_unique e) st = true ->
  forall b, In b (rows (users st)) -> String.eqb (User.email b) e = false.
Proof.
  unfold passes, UserCreationForm_validate_unique, bind, objects_filter.
  cbn [table User_Model].
  destruct (filter _ (rows (users st))) as [|x l] eqn:Hf; [|discriminate].
  intros _ b Hb. exact (filter_nil_false _ _ b Hf Hb).
Qed.

Lemma StudentSignupForm_clean_passes (cd : StudentSignupForm.cleaned_data) (st : Store) :
  passes (StudentSignupForm.clean cd) st = true ->
  forall b, In b (rows (students st)) ->
            opt_eqb String.eqb (Student.registry_id b)
                    (StudentSignupForm.registry_id cd) = false.
Proof.
  unfold passes, StudentSignupForm.clean, bind, objects_filter.
  cbn [table Student_Model].
  destruct (filter _ (rows (students st))) as [|x l] eqn:Hf; [|discriminate].
  intros _ b Hb. exact (filter_nil_false _ _ b Hf Hb).
Qed.

(** The user row a signup stores obeys the email constraint as soon as the
    form's uniqueness validation passed. *)
Lemma new_user_unique_ok (u : User.t) (st : Store) :
  passes (UserCreationForm_validate_unique (User.email u)) st = true ->
  unique_ok (rows (users st)) u = true.
Proof.
  intros Hv. apply unique_ok_intro. intros b Hb. right. cbn [conflicts User_Model].
  rewrite String.eqb_sym. exact (validate_unique_passes _ st Hv b Hb).
Qed.

(** C2.  A valid student signup, in a consistent store, appends exactly one
    user row with [is_student] set and [is_accepted] false, one student row
    owned by that user and carrying the submitted registry id, and one
    membership row pointing at the submitted department; the other tables
    are as before; the created user is returned.  The save is one
    transaction: if it raises, the store is the one it started from. *)
Theorem student_signup_creates `{Env}
  (d : StudentSignupForm.valid_data) (st : Store) :
  (forall e, fst (StudentSignupForm.save d st) = Raise e ->
             snd (StudentSignupForm.save d st) = st)
  /\ (Store_ok st = true ->
      StudentSignupForm.is_valid d st = true ->
      let uid := next_pk (users st) in
      let user :=
        User.mk (Some uid) (StudentSignupForm.email d)
                (make_password (StudentSignupForm.password1 d))
                true false false false false default_is_active in
      let student :=
        Student.mk (Some (next_pk (students st))) uid
                   (Some (StudentSignupForm.registry_id d))
                   (Some (StudentSignupForm.first_name d))
                   (Some (StudentSignupForm.last_name d))
                   (Some (StudentSignupForm.admission_year d)) in
      let membership :=
        DepartmentStudents.mk (Some (next_pk (department_students st)))
                              (StudentSignupForm.department d) uid in
      StudentSignupForm.save d st
      = (Ok user,
         mkStore (mkTable (rows (users st) ++ [user]) (uid + 1))
                 (mkTable (rows (students st) ++ [student])
                          (next_pk (students st) + 1))
                 (teachers st) (deptadmins st)
                 (mkTable (rows (department_students st) ++ [membership])
                          (next_pk (department_students st) + 1))
                 (department_teachers st))).
Proof.
  split; [intros e; apply atomic_rollback|].
  intros Hok Hvalid uid user student membership.
  apply andb_true_iff in Hvalid. destruct Hvalid as [Hclean Hunique].
  destruct (Store_ok_inv st Hok) as (_ & Hstudents & _).
  unfold StudentSignupForm.save. apply atomic_commit. cbv zeta.
  erewrite bind_ok;
    [| apply Model_save_insert; [reflexivity | apply new_user_unique_ok; exact Hunique]].
  cbn [table set_table with_pk pk User_Model].
  erewrite bind_ok by reflexivity.
  unfold objects_create.
  erewrite bind_ok;
    [| apply Model_save_insert;
       [reflexivity | apply unique_ok_intro; intros b _; right; reflexivity]].
  cbn [table set_table with_pk pk Student_Model students users teachers deptadmins
       department_students department_teachers rows next_pk Student.with_id
       Student.id Student.user].
  assert (Hold : forall b, In b (rows (students st)) ->
                 pk_is (Some (next_pk (students st))) b = false).
  { intros b Hb. apply (Table_ok_fresh (students st)); assumption. }
  erewrite bind_ok; cycle 1.
  { apply (Model_save_update _ _ (next_pk (students st))); [reflexivity | | ];
      cbn [table set_table Student_Model students rows].
    - apply unique_ok_intro. intros b Hb. apply in_app_or in Hb.
      destruct Hb as [Hb | [<- | []]].
      + right. cbn [conflicts Student_Model Student.registry_id].
        pose proof (StudentSignupForm_clean_passes _ st Hclean b Hb) as Hfree.
        cbn [StudentSignupForm.as_cleaned StudentSignupForm.registry_id] in Hfree.
        destruct (Student.registry_id b) as [x|]; [|reflexivity].
        rewrite String.eqb_sym. exact Hfree.
      + left. apply pk_is_refl. reflexivity.
    - rewrite existsb_app. apply orb_true_iff. right.
      cbn [existsb]. rewrite (pk_is_refl (A:=Student.t)) by reflexivity. reflexivity. }
  cbn [table set_table Student_Model students users teachers deptadmins
       department_students department_teachers rows next_pk].
  rewrite map_app, (map_overwrite_other (A:=Student.t)) by exact Hold.
  cbn [map]. rewrite (pk_is_refl (A:=Student.t)) by reflexivity.
  erewrite bind_ok;
    [| apply Model_save_insert;
       [reflexivity | apply unique_ok_intro; intros b _; right; reflexivity]].
  reflexivity.
Qed.

Lemma student_signup_creates_witness :
  @StudentSignupForm.save Sample.env
    (StudentSignupForm.mk (F:=present) 10 "cy@uni.example" "Cy" "Orr" "R-300" 2022
       "pw12345678" "pw12345678")
    Sample.campus
  = (Ok (User.mk (Some 3) "cy@uni.example" "hash$pw12345678"
                 true false false false false true),
     mkStore (mkTable [Sample.ann; Sample.bob;
                       User.mk (Some 3) "cy@uni.example" "hash$pw12345678"
                               true false false false false true] 4)
             (mkTable [Sample.ann_profile; Sample.bob_profile;
                       Student.mk (Some 3) 3 (Some "R-300") (Some "Cy")
                                  (Some "Orr") (Some 2022)] 4)
             (mkTable [] 1) (mkTable [] 1)
             (mkTable [DepartmentStudents.mk (Some 1) 10 1;
                       DepartmentStudents.mk (Some 2) 20 2;
                       DepartmentStudents.mk (Some 3) 10 3] 4)
             (mkTable [] 1)).
Proof.
  apply (proj2 (@student_signup_creates Sample.env
                  (StudentSignupForm.mk (F:=present) 10 "cy@uni.example" "Cy" "Orr"
                     "R-300" 2022 "pw12345678" "pw12345678")
                  Sample.campus)); reflexivity.
Defined.

(** C8.  A valid deptadmin signup, in a consistent store, appends one user
    row with [is_deptadmin] and [is_staff] set and one deptadmin row that
    holds the submitted department itself; no membership row is created. *)
Theorem deptadmin_signup_creates `{Env}
  (d : DeptadminSignupForm.valid_data) (st : Store) :
  Store_ok st = true ->
  DeptadminSignupForm.is_valid d st = true ->
  let uid := next_pk (users st) in
  let user :=
    User.mk (Some uid) (DeptadminSignupForm.email d)
            (make_password (DeptadminSignupForm.password1 d))
            false false true true false default_is_active in
  let deptadmin :=
    Deptadmin.mk (Some (next_pk (deptadmins st))) uid
                 (DeptadminSignupForm.department d) in
  DeptadminSignupForm.save d st
  = (Ok user,
     mkStore (mkTable (rows (users st) ++ [user]) (uid + 1))
             (students st) (teachers st)
             (mkTable (rows (deptadmins st) ++ [deptadmin])
                      (next_pk (deptadmins st) + 1))
             (department_students st) (department_teachers st))
  /\ User.is_deptadmin user = true
  /\ User.is_staff user = true
  /\ Deptadmin.department deptadmin = DeptadminSignupForm.department d.
Proof.
  intros Hok Hvalid uid user deptadmin.
  split; [|repeat split].
  destruct (Store_ok_inv st Hok) as (_ & _ & _ & Hdeptadmins & _).
  unfold DeptadminSignupForm.is_valid in Hvalid.
  unfold DeptadminSignupForm.save. apply atomic_commit. cbv zeta.
  erewrite bind_ok;
    [| apply Model_save_insert; [reflexivity | apply new_user_unique_ok; exact Hvalid]].
  cbn [table set_table with_pk pk User_Model].
  erewrite bind_ok by reflexivity.
  unfold objects_create.
  erewrite bind_ok;
    [| apply Model_save_insert;
       [reflexivity | apply unique_ok_intro; intros b _; right; reflexivity]].
  cbn [table set_table with_pk pk Deptadmin_Model students users teachers deptadmins
       department_students department_teachers rows next_pk Deptadmin.with_id
       Deptadmin.id Deptadmin.user].
  assert (Hold : forall b, In b (rows (deptadmins st)) ->
                 pk_is (Some (next_pk (deptadmins st))) b = false).
  { intros b Hb. apply (Table_ok_fresh (deptadmins st)); assumption. }
  erewrite bind_ok; cycle 1.
  { apply (Model_save_update _ _ (next_pk (deptadmins st))); [reflexivity | | ];
      cbn [table set_table Deptadmin_Model deptadmins rows].
    - apply unique_ok_intro. intros b _. right. reflexivity.
    - rewrite existsb_app. apply orb_true_iff. right.
      cbn [existsb]. rewrite (pk_is_refl (A:=Deptadmin.t)) by reflexivity. reflexivity. }
  cbn [table set_table Deptadmin_Model students users teachers deptadmins
       department_students department_teachers rows next_pk].
  rewrite map_app, (map_overwrite_other (A:=Deptadmin.t)) by exact Hold.
  cbn [map]. rewrite (pk_is_refl (A:=Deptadmin.t)) by reflexivity.
  reflexivity.
Qed.

Lemma deptadmin_signup_creates_witness :
  @DeptadminSignupForm.save Sample.env
    (DeptadminSignupForm.mk (F:=present) 20 "dean@uni.example" "pw12345678" "pw12345678")
    Sample.campus
  = (Ok (User.mk (Some 3) "dean@uni.example" "hash$pw12345678"
                 false false true true false true),
     mkStore (mkTable [Sample.ann; Sample.bob;
                       User.mk (Some 3) "dean@uni.example" "hash$pw12345678"
                               false false true true false true] 4)
             (students Sample.campus) (teachers Sample.campus)
             (mkTable [Deptadmin.mk (Some 1) 3 20] 2)
             (department_students Sample.campus)
             (department_teachers Sample.campus)).
Proof.
  apply (@deptadmin_signup_creates Sample.env
           (DeptadminSignupForm.mk (F:=present) 20 "dean@uni.example" "pw12345678"
              "pw12345678")
           Sample.campus); reflexivity.
Defined.

(** ** StudentUpdateForm.save *)

Lemma existsb_in {A : Type} (p : A -> bool) (l : list A) (a : A) :
  In a l -> p a = true -> existsb p l = true.
Proof. intros Ha Hp. apply existsb_exists. exists a. split; assumption. Qed.

Lemma filter_one_in {A : Type} (p : A -> bool) (l : list A) (a : A) :
  filter p l = [a] -> In a l /\ p a = true.
Proof.
  intros Hf. apply filter_In. rewrite Hf. left. reflexivity.
Qed.

(** A passing [clean] leaves the submitted email free for user [U]. *)
Lemma StudentUpdateForm_valid_email (d : StudentUpdateForm.valid_data) (st : Store) :
  Store_ok st = true ->
  StudentUpdateForm.is_valid d st = true ->
  forall b, In b (rows (users st)) ->
            User.email b = StudentUpdateForm.email d ->
            User.id b = Some (StudentUpdateForm.user_id d).
Proof.
  intros Hok Hvalid b Hb Hem.
  unfold StudentUpdateForm.is_valid, passes in Hvalid.
  rewrite StudentUpdateForm_clean_eq in Hvalid.
  cbn [StudentUpdateForm.as_cleaned StudentUpdateForm.email
       StudentUpdateForm.user_id StudentUpdateForm.registry_id] in Hvalid.
  set (found := filter _ (rows (users st))) in Hvalid.
  assert (Hbf : In b found).
  { apply filter_In. split; [exact Hb|]. simpl. apply String.eqb_eq. exact Hem. }
  assert (Hfound : forall v, In v found -> In v (rows (users st)) /\ User.email v = User.email b).
  { intros v Hv. apply filter_In in Hv. destruct Hv as [Hv Hvm]. split; [exact Hv|].
    simpl in Hvm. apply String.eqb_eq in Hvm. congruence. }
  clearbody found. destruct found as [|first rest]; [destruct Hbf|].
  destruct (Hfound first (or_introl eq_refl)) as [Hfirst Hsame].
  assert (first = b) by (apply (Store_ok_emails st Hok); assumption). subst first.
  destruct (User.id b) as [i|]; simpl in Hvalid.
  - destruct (Z.eqb_spec i (StudentUpdateForm.user_id d)) as [Heq|Hne];
      [exact (f_equal Some Heq) | discriminate].
  - discriminate.
Qed.

(** A passing [clean] leaves the submitted registry id to the students of
    user [U]. *)
Lemma StudentUpdateForm_valid_registry_id
      (d : StudentUpdateForm.valid_data) (st : Store) :
  Store_ok st = true ->
  StudentUpdateForm.is_valid d st = true ->
  forall b, In b (rows (students st)) ->
            Student.registry_id b = Some (StudentUpdateForm.registry_id d) ->
            Student.user b = StudentUpdateForm.user_id d.
Proof.
  intros Hok Hvalid b Hb Hreg.
  unfold StudentUpdateForm.is_valid, passes in Hvalid.
  rewrite StudentUpdateForm_clean_eq in Hvalid.
  cbn [StudentUpdateForm.as_cleaned StudentUpdateForm.email
       StudentUpdateForm.user_id StudentUpdateForm.registry_id] in Hvalid.
  set (found' := filter _ (rows (students st))) in Hvalid.
  assert (Hbf : In b found').
  { apply filter_In. split; [exact Hb|]. rewrite Hreg. simpl. apply String.eqb_refl. }
  assert (Hfound : forall v, In v found' ->
                             In v (rows (students st))
                             /\ Student.registry_id v
                                = Some (StudentUpdateForm.registry_id d)).
  { intros v Hv. apply filter_In in Hv. destruct Hv as [Hv Hvm]. split; [exact Hv|].
    destruct (Student.registry_id v) as [x|]; simpl in Hvm; [|discriminate].
    apply String.eqb_eq in Hvm. exact (f_equal Some Hvm). }
  clearbody found'.
  assert (Hcheck : match found' with
                   | [] => True
                   | first' :: _ =>
                       negb (opt_eqb Z.eqb (Some (Student.user first'))
                                     (Some (StudentUpdateForm.user_id d))) = false
                   end).
  { destruct (filter _ (rows (users st))) as [|first rest].
    - destruct found' as [|first' rest']; [exact I|].
      destruct (negb _); [discriminate | reflexivity].
    - destruct (negb (opt_eqb Z.eqb (User.id first) _)); [discriminate|].
      destruct found' as [|first' rest']; [exact I|].
      destruct (negb _); [discriminate | reflexivity]. }
  destruct found' as [|first' rest']; [destruct Hbf|].
  destruct (Hfound first' (or_introl eq_refl)) as [Hfirst Hsame].
  assert (first' = b)
    by (apply (Store_ok_registry_ids st Hok first' b (StudentUpdateForm.registry_id d));
        assumption).
  subst first'. simpl in Hcheck.
  destruct (Z.eqb_spec (Student.user b) (StudentUpdateForm.user_id d));
    [assumption | discriminate].
Qed.

Lemma Store_ok_student_owner (st : Store) :
  Store_ok st = true ->
  forall a b, In a (rows (students st)) -> In b (rows (students st)) ->
              Student.user a = Student.user b -> a = b.
Proof.
  intros Hok a b Ha Hb Hab.
  destruct (Store_ok_inv st Hok) as (_ & _ & _ & _ & _ & _ & Hd & _).
  apply (distinct_keys_inj Z.eqb (fun s => Some (Student.user s)) (rows (students st))
                           Z.eqb_refl Hd a b (Student.user a)); auto.
  rewrite Hab. reflexivity.
Qed.

(** What [save] does, lookup by lookup, once [clean] has passed. *)
Lemma StudentUpdateForm_save_eq (d : StudentUpdateForm.valid_data) (st : Store) :
  Store_ok st = true ->
  StudentUpdateForm.is_valid d st = true ->
  StudentUpdateForm.save d st =
  match filter (pk_is (Some (StudentUpdateForm.user_id d))) (rows (users st)) with
  | [] => (Raise (DoesNotExist "User"), st)
  | [u] =>
      let user := User.set_email (StudentUpdateForm.email d) u in
      match filter (fun s => owned_by user (Student.user s)) (rows (students st)) with
      | [] => (Raise (DoesNotExist "Student"), st)
      | [s] =>
          let student :=
            Student.mk (Student.id s) (Student.user s)
                       (Some (StudentUpdateForm.registry_id d))
                       (Some (StudentUpdateForm.first_name d))
                       (Some (StudentUpdateForm.last_name d))
                       (Some (StudentUpdateForm.admission_year d)) in
          match filter (fun m => owned_by user (DepartmentStudents.user_id m))
                       (rows (department_students st)) with
          | [] => (Raise (DoesNotExist "DepartmentStudents"), st)
          | [m] =>
              let dept :=
                DepartmentStudents.mk (DepartmentStudents.id m)
                                      (StudentUpdateForm.department d)
                                      (DepartmentStudents.user_id m) in
              (Ok user,
               mkStore
                 (mkTable (map (fun b => if pk_is (User.id u) b then user else b)
                               (rows (users st)))
                          (next_pk (users st)))
                 (mkTable (map (fun b => if pk_is (Student.id s) b then student else b)
                               (rows (students st)))
                          (next_pk (students st)))
                 (teachers st) (deptadmins st)
                 (mkTable (map (fun b => if pk_is (DepartmentStudents.id m) b
                                         then dept else b)
                               (rows (department_students st)))
                          (next_pk (department_students st)))
                 (department_teachers st))
          | _ :: _ :: _ =>
              (Raise (MultipleObjectsReturned "DepartmentStudents"), st)
          end
      | _ :: _ :: _ => (Raise (MultipleObjectsReturned "Student"), st)
      end
  | _ :: _ :: _ => (Raise (MultipleObjectsReturned "User"), st)
  end.
Proof.
  intros Hok Hvalid.
  destruct (Store_ok_inv st Hok) as (Husers & Hstudents & _ & _ & Hmembers & _).
  unfold StudentUpdateForm.save.
  destruct (filter (pk_is _) (rows (users st))) as [|u [|u2 urest]] eqn:Hu.
  - eapply atomic_raise. apply bind_raise. exact (objects_get_none (A:=User.t) _ st Hu).
  - destruct (filter_one_in _ _ _ Hu) as [Hin Hpk]. apply pk_is_true in Hpk.
    cbn [pk User_Model] in Hpk.
    set (body := bind _ _).
    assert (Hbody : body st =
      bind (objects_get (fun s => owned_by (User.set_email (StudentUpdateForm.email d) u)
                                           (Student.user s)))
           (fun student =>
              Model_save (Student.mk (Student.id student) (Student.user student)
                            (Some (StudentUpdateForm.registry_id d))
                            (Some (StudentUpdateForm.first_name d))
                            (Some (StudentUpdateForm.last_name d))
                            (Some (StudentUpdateForm.admission_year d))) ;;;
              dept <- objects_get (fun m => owned_by (User.set_email (StudentUpdateForm.email d) u)
                                                     (DepartmentStudents.user_id m)) ;;
              Model_save (DepartmentStudents.mk (DepartmentStudents.id dept)
                            (StudentUpdateForm.department d)
                            (DepartmentStudents.user_id dept)) ;;;
              ret (User.set_email (StudentUpdateForm.email d) u))
           (mkStore (mkTable (map (fun b => if pk_is (User.id u) b
                                            then User.set_email (StudentUpdateForm.email d) u
                                            else b) (rows (users st)))
                             (next_pk (users st)))
                    (students st) (teachers st) (deptadmins st)
                    (department_students st) (department_teachers st))).
    { unfold body.
      erewrite bind_ok by (exact (objects_get_one (A:=User.t) _ st u Hu)).
      erewrite bind_ok; cycle 1.
      { apply (Model_save_update (A:=User.t) _ _ (StudentUpdateForm.user_id d)).
        - exact Hpk.
        - apply unique_ok_intro. intros b Hb. cbn [conflicts User_Model User.set_email User.email].
          destruct (String.eqb_spec (StudentUpdateForm.email d) (User.email b)) as [Heq|Hne];
            [left | right; reflexivity].
          cbn [pk User_Model User.set_email User.id]. rewrite Hpk.
          apply pk_is_refl.
          apply (StudentUpdateForm_valid_email d st Hok Hvalid b Hb). symmetry. exact Heq.
        - apply (existsb_in _ _ u Hin). apply pk_is_refl. exact Hpk. }
      cbn [table set_table User_Model]. rewrite Hpk. reflexivity. }
    clearbody body. cbv zeta.
    set (user := User.set_email (StudentUpdateForm.email d) u) in *.
    set (st1 := mkStore _ (students st) _ _ _ _) in Hbody.
    assert (Howner : forall x, owned_by user x = true -> x = StudentUpdateForm.user_id d).
    { intros x Hx. unfold owned_by, user in Hx. cbn [User.set_email User.id] in Hx.
      rewrite Hpk in Hx. simpl in Hx. apply Z.eqb_eq in Hx. symmetry. exact Hx. }
    destruct (filter _ (rows (students st))) as [|s [|s2 srest]] eqn:Hs.
    + eapply atomic_raise. rewrite Hbody. apply bind_raise.
      exact (objects_get_none (A:=Student.t) _ st1 Hs).
    + destruct (filter_one_in _ _ _ Hs) as [Hsin Hsown]. apply Howner in Hsown.
      destruct (Table_ok_pk (students st) s Hstudents Hsin) as (j & Hj & _).
      cbn [pk Student_Model] in Hj.
      erewrite bind_ok in Hbody by (exact (objects_get_one (A:=Student.t) _ st1 s Hs)).
      erewrite bind_ok in Hbody; cycle 1.
      { apply (Model_save_update (A:=Student.t) _ _ j).
        - exact Hj.
        - apply unique_ok_intro. intros b Hb.
          cbn [conflicts Student_Model Student.registry_id pk Student.id].
          destruct (Student.registry_id b) as [x|] eqn:Hx; [|right; reflexivity].
          destruct (String.eqb_spec (StudentUpdateForm.registry_id d) x) as [Heq|Hne];
            [left | right; reflexivity].
          assert (b = s).
          { apply (Store_ok_student_owner st Hok); [exact Hb | exact Hsin |].
            rewrite Hsown.
            apply (StudentUpdateForm_valid_registry_id d st Hok Hvalid b Hb).
            rewrite Hx. exact (f_equal Some (eq_sym Heq)). }
          subst b. rewrite Hj. apply pk_is_refl. exact Hj.
        - apply (existsb_in _ _ s Hsin). apply pk_is_refl. exact Hj. }
      cbn [table set_table Student_Model students users teachers deptadmins
           department_students department_teachers rows next_pk st1] in Hbody.
      set (st2 := mkStore _ _ _ _ _ _) in Hbody.
      destruct (filter _ (rows (department_students st))) as [|m [|m2 mrest]] eqn:Hm.
      * eapply atomic_raise. rewrite Hbody. apply bind_raise.
        exact (objects_get_none (A:=DepartmentStudents.t) _ st2 Hm).
      * destruct (filter_one_in _ _ _ Hm) as [Hmin _].
        destruct (Table_ok_pk (department_students st) m Hmembers Hmin) as (k & Hk & _).
        cbn [pk DepartmentStudents_Model] in Hk.
        apply atomic_commit. rewrite Hbody.
        erewrite bind_ok
          by (exact (objects_get_one (A:=DepartmentStudents.t) _ st2 m Hm)).
        erewrite bind_ok; cycle 1.
        { apply (Model_save_update (A:=DepartmentStudents.t) _ _ k).
          - exact Hk.
          - apply unique_ok_intro. intros b _. right. reflexivity.
          - apply (existsb_in _ _ m Hmin). apply pk_is_refl. exact Hk. }
        cbn [table set_table DepartmentStudents_Model students users teachers deptadmins
             department_students department_teachers rows next_pk st2].
        rewrite Hj, Hk. reflexivity.
      * eapply atomic_raise. rewrite Hbody. apply bind_raise.
        unfold objects_get. erewrite bind_ok by (unfold objects_filter; reflexivity).
        cbn [table DepartmentStudents_Model department_students st2].
        rewrite Hm. reflexivity.
    + eapply atomic_raise. rewrite Hbody. apply bind_raise.
      unfold objects_get. erewrite bind_ok by (unfold objects_filter; reflexivity).
      cbn [table Student_Model students st1]. rewrite Hs. reflexivity.
  - eapply atomic_raise. apply bind_raise.
    unfold objects_get. erewrite bind_ok by (unfold objects_filter; reflexivity).
    cbn [table User_Model]. rewrite Hu. reflexivity.
Qed.

Lemma owned_by_eqb (user : User.t) (U x : Z) :
  User.id user = Some U -> owned_by user x = (x =? U).
Proof.
  intros Hid. unfold owned_by. rewrite Hid. simpl. apply Z.eqb_sym.
Qed.

(** C6.  After a passing [clean], in a consistent store: when [save]
    returns, the membership table has the rows it had, the one row of the
    referenced user now pointing at the submitted department (nothing is
    inserted); when the user has no membership row, [save] raises a
    [DoesNotExist] (NotFound) and the store is the one it started from,
    the writes to the user and student rows undone; and when the user, the
    profile and the membership row are all there, [save] does return. *)
Theorem student_update_membership
  (d : StudentUpdateForm.valid_data) (st : Store) :
  Store_ok st = true ->
  StudentUpdateForm.is_valid d st = true ->
  let U := StudentUpdateForm.user_id d in
  let members :=
    filter (fun m => DepartmentStudents.user_id m =? U)
           (rows (department_students st)) in
  (forall user st',
      StudentUpdateForm.save d st = (Ok user, st') ->
      exists m,
        members = [m]
        /\ rows (department_students st')
           = map (fun b => if pk_is (DepartmentStudents.id m) b
                           then DepartmentStudents.mk
                                  (DepartmentStudents.id m)
                                  (StudentUpdateForm.department d)
                                  (DepartmentStudents.user_id m)
                           else b)
                 (rows (department_students st))
        /\ List.length (rows (department_students st'))
           = List.length (rows (department_students st))
        /\ next_pk (department_students st') = next_pk (department_students st))
  /\ (members = [] ->
      exists model,
        StudentUpdateForm.save d st = (Raise (DoesNotExist model), st)
        /\ is_NotFound (DoesNotExist model) = true)
  /\ (forall u s m,
        filter (pk_is (Some U)) (rows (users st)) = [u] ->
        filter (fun x => Student.user x =? U) (rows (students st)) = [s] ->
        members = [m] ->
        exists st', StudentUpdateForm.save d st
                    = (Ok (User.set_email (StudentUpdateForm.email d) u), st')).
Proof.
  intros Hok Hvalid U members.
  rewrite (StudentUpdateForm_save_eq d st Hok Hvalid). fold U.
  destruct (Store_ok_inv st Hok) as (Husers & _ & _ & _ & _ & _ & Howners & _).
  assert (Hext : forall u, In u (filter (pk_is (Some U)) (rows (users st))) ->
            filter (fun s => owned_by (User.set_email (StudentUpdateForm.email d) u)
                                      (Student.user s)) (rows (students st))
            = filter (fun x => Student.user x =? U) (rows (students st))
            /\ filter (fun m => owned_by (User.set_email (StudentUpdateForm.email d) u)
                                         (DepartmentStudents.user_id m))
                      (rows (department_students st))
               = members).
  { intros u Hu. apply filter_In in Hu. destruct Hu as [_ Hu].
    apply pk_is_true in Hu. cbn [pk User_Model] in Hu.
    split; apply filter_ext; intros x; apply owned_by_eqb; exact Hu. }
  assert (Hone : filter (fun x => Student.user x =? U) (rows (students st)) = []
                 \/ exists s, filter (fun x => Student.user x =? U) (rows (students st)) = [s]).
  { apply (distinct_filter Z.eqb (fun s => Some (Student.user s)) _ _ U Z.eqb_refl Howners).
    intros a Ha. apply Z.eqb_eq in Ha. rewrite Ha. reflexivity. }
  destruct (Table_ok_get (users st) (Some U) Husers) as [Hu | (u & Hu)]; rewrite Hu.
  - split; [intros ? ? Heq; discriminate|].
    split; [intros _; exists "User"; split; reflexivity|].
    intros ? ? ? Heq; discriminate.
  - destruct (Hext u) as [Hs Hm]; [rewrite Hu; left; reflexivity|].
    cbv zeta. rewrite Hs, Hm. clear Hext Hs Hm.
    destruct Hone as [Hs | (s & Hs)]; rewrite Hs.
    + split; [intros ? ? Heq; discriminate|].
      split; [intros _; exists "Student"; split; reflexivity|].
      intros ? ? ? _ Heq; discriminate.
    + destruct members as [|m [|m2 mrest]].
      * split; [intros ? ? Heq; discriminate|].
        split; [intros _; exists "DepartmentStudents"; split; reflexivity|].
        intros ? ? ? _ _ Heq; discriminate.
      * split; [|split; [intros Heq; discriminate|]].
        -- intros user st' Heq. inversion Heq; subst. exists m.
           cbn [department_students rows next_pk]. rewrite List.length_map.
           repeat split; reflexivity.
        -- intros u0 s0 m0 Hu0 Hs0 Hm0. inversion Hu0; inversion Hs0; inversion Hm0; subst.
           eexists. reflexivity.
      * split; [intros ? ? Heq; discriminate|].
        split; [intros Heq; discriminate|].
        intros ? ? ? _ _ Heq; discriminate.
Qed.

Lemma student_update_membership_witness :
  (exists model,
      StudentUpdateForm.save
        (StudentUpdateForm.mk (F:=present) 1 20 "Ann" "Lee" "R-100" 2020
           "ann@uni.example")
        Sample.campus_no_membership
      = (Raise (DoesNotExist model), Sample.campus_no_membership)
      /\ is_NotFound (DoesNotExist model) = true).
Proof.
  apply (student_update_membership
           (StudentUpdateForm.mk (F:=present) 1 20 "Ann" "Lee" "R-100" 2020
              "ann@uni.example")
           Sample.campus_no_membership); reflexivity.
Defined.

(** ** The user table under each operation *)

Lemma keeps_ret {A : Type} (a : A) : keeps_users (ret a).
Proof. intros st. reflexivity. Qed.

Lemma keeps_raise {A : Type} (e : Exception) : keeps_users (raise (A:=A) e).
Proof. intros st. reflexivity. Qed.

Lemma keeps_raise_if (c : bool) (e : Exception) : keeps_users (raise_if c e).
Proof. intros st. destruct c; reflexivity. Qed.

Lemma keeps_bind {A B : Type} (m : M A) (f : A -> M B) :
  keeps_users m -> (forall a, keeps_users (f a)) -> keeps_users (bind m f).
Proof.
  intros Hm Hf st. unfold bind. specialize (Hm st).
  destruct (m st) as [[a|e] st1]; simpl in *.
  - rewrite (Hf a st1). exact Hm.
  - exact Hm.
Qed.

Lemma keeps_objects_filter {A : Type} `{Model A} (p : A -> bool) :
  keeps_users (objects_filter p).
Proof. intros st. reflexivity. Qed.

Lemma keeps_objects_get {A : Type} `{Model A} (p : A -> bool) :
  keeps_users (objects_get p).
Proof. intros st. rewrite objects_get_reads. reflexivity. Qed.

Lemma keeps_require_pk {A : Type} `{Model A} (a : A) : keeps_users (require_pk a).
Proof. intros st. unfold require_pk. destruct (pk a); reflexivity. Qed.

(** Saving a row of another table leaves the user table alone. *)
Lemma keeps_Model_save {A : Type} `{Model A} (a : A) :
  (forall t st, users (set_table t st) = users st) ->
  keeps_users (Model_save a).
Proof.
  intros Hframe st. unfold Model_save.
  destruct (pk a) as [i|]; cbv zeta.
  - destruct (unique_ok _ a); [|reflexivity].
    destruct (existsb _ _); simpl; apply Hframe.
  - destruct (unique_ok _ _); [|reflexivity]. simpl. apply Hframe.
Qed.

Ltac keeps_users_tac :=
  repeat first
    [ apply keeps_ret
    | apply keeps_raise
    | apply keeps_raise_if
    | apply keeps_objects_get
    | apply keeps_objects_filter
    | apply keeps_require_pk
    | (apply keeps_Model_save; intros ? ?; reflexivity)
    | (unfold objects_create; apply keeps_Model_save; intros ? ?; reflexivity)
    | (apply keeps_bind; [|intros ?]) ].

Lemma atomic_users {A : Type} (m : M A) (st : Store) :
  users (snd (atomic m st)) = users st
  \/ users (snd (atomic m st)) = users (snd (m st)).
Proof.
  unfold atomic. destruct (m st) as [[a|e] st1]; simpl; [right | left]; reflexivity.
Qed.

(** Look a user up by key, assign, save, go on with other tables: the user
    table is as before, or has the one row of that key overwritten. *)
Lemma write_pattern {B : Type} (i : option Z) (f : User.t -> User.t)
      (rest : User.t -> M B) (st : Store) :
  (forall u, User.id (f u) = User.id u) ->
  (forall u, keeps_users (rest u)) ->
  let m := user <- objects_get (pk_is i) ;; user' <- Model_save (f user) ;; rest user' in
  users (snd (m st)) = users st
  \/ exists u,
       filter (pk_is i) (rows (users st)) = [u]
       /\ users (snd (m st))
          = mkTable (map (fun b => if pk_is i b then f u else b) (rows (users st)))
                    (next_pk (users st)).
Proof.
  intros Hid Hrest m. subst m. unfold bind.
  destruct (objects_get (A:=User.t) (pk_is i) st) as [[u|e] st1] eqn:Hget.
  - apply objects_get_ok in Hget. destruct Hget as [-> Hu].
    cbn [table User_Model] in Hu.
    destruct (filter_one_in _ _ _ Hu) as [Hin Hpk].
    pose proof (pk_is_true _ _ Hpk) as Hkey. cbn [pk User_Model] in Hkey.
    unfold bind, Model_save. cbn [pk User_Model table set_table].
    rewrite Hid, Hkey.
    destruct i as [x|]; [|discriminate Hpk].
    destruct (unique_ok _ _); [|left; reflexivity].
    rewrite (existsb_in _ _ u Hin Hpk).
    right. exists u. split; [exact Hu|].
    exact (Hrest _ _).
  - left. pose proof (objects_get_reads (A:=User.t) (pk_is i) st) as Hr.
    rewrite Hget in Hr. simpl in *. rewrite Hr. reflexivity.
Qed.

(** Save a fresh user, go on with other tables: the user table is as
    before, or has that one row appended under the next key. *)
Lemma insert_pattern {B : Type} (u0 : User.t) (rest : User.t -> M B) (st : Store) :
  User.id u0 = None ->
  (forall u, keeps_users (rest u)) ->
  let m := user <- Model_save u0 ;; rest user in
  users (snd (m st)) = users st
  \/ users (snd (m st))
     = mkTable (rows (users st) ++ [User.with_id (next_pk (users st)) u0])
               (next_pk (users st) + 1).
Proof.
  intros Hid Hrest m. subst m. unfold bind, Model_save.
  cbn [pk User_Model table set_table with_pk]. rewrite Hid.
  destruct (unique_ok _ _); [|left; reflexivity].
  right.
  exact (Hrest _ _).
Qed.

Lemma delete_users (p : User.t -> bool) (st : Store) :
  exists q,
    users (snd (User_objects_delete p st))
    = mkTable (filter q (rows (users st))) (next_pk (users st)).
Proof.
  unfold User_objects_delete, bind, objects_filter, remove_rows. simpl.
  eexists. reflexivity.
Qed.

Lemma keeps_authenticate `{Env} (username password : option string) :
  keeps_users (authenticate username password).
Proof. intros st. rewrite authenticate_reads. reflexivity. Qed.

Lemma keeps_SigninForm_clean `{Env} (cd : SigninForm.cleaned_data) :
  keeps_users (SigninForm.clean cd).
Proof.
  unfold SigninForm.clean. cbv zeta.
  destruct (truthy _ && truthy _); [|apply keeps_ret].
  apply keeps_bind; [apply keeps_authenticate|]. intros [user|]; [|apply keeps_raise].
  apply keeps_bind; [|intros; apply keeps_ret].
  unfold SigninForm.confirm_login_allowed.
  destruct (negb _); [apply keeps_raise | apply keeps_ret].
Qed.

Lemma atomic_write_pattern {B : Type} (i : option Z) (f : User.t -> User.t)
      (rest : User.t -> M B) (st : Store) :
  (forall u, User.id (f u) = User.id u) ->
  (forall u, keeps_users (rest u)) ->
  let m := atomic (user <- objects_get (pk_is i) ;;
                   user' <- Model_save (f user) ;; rest user') in
  users (snd (m st)) = users st
  \/ exists u,
       filter (pk_is i) (rows (users st)) = [u]
       /\ users (snd (m st))
          = mkTable (map (fun b => if pk_is i b then f u else b) (rows (users st)))
                    (next_pk (users st)).
Proof.
  intros Hid Hrest m. subst m.
  match goal with
  | |- context [atomic ?body st] =>
      destruct (atomic_users body st) as [Hsame | Hbody];
        [left; exact Hsame | rewrite Hbody]
  end.
  apply write_pattern; assumption.
Qed.

Lemma atomic_insert_pattern {B : Type} (u0 : User.t) (rest : User.t -> M B)
      (st : Store) :
  User.id u0 = None ->
  (forall u, keeps_users (rest u)) ->
  let m := atomic (user <- Model_save u0 ;; rest user) in
  users (snd (m st)) = users st
  \/ users (snd (m st))
     = mkTable (rows (users st) ++ [User.with_id (next_pk (users st)) u0])
               (next_pk (users st) + 1).
Proof.
  intros Hid Hrest m. subst m.
  match goal with
  | |- context [atomic ?body st] =>
      destruct (atomic_users body st) as [Hsame | Hbody];
        [left; exact Hsame | rewrite Hbody]
  end.
  apply insert_pattern; assumption.
Qed.

(** The user table after an update form's [save]. *)
Ltac update_case :=
  cbv zeta;
  match goal with
  | |- context [atomic (bind (objects_get (pk_is ?i))
                             (fun user => bind (Model_save (@?g user)) ?rest)) ?st] =>
      let u := fresh "u" in
      let Hu := fresh "Hu" in
      let Hw := fresh "Hw" in
      let Hsame := fresh "Hsame" in
      destruct (atomic_write_pattern i g rest st) as [Hsame | (u & Hu & Hw)];
      [ reflexivity
      | intros ?; keeps_users_tac
      | left; exact Hsame
      | right; left; exists i, g, u; repeat split; [exact Hu | exact Hw] ]
  end.

(** The user table after a signup form's [save]. *)
Ltac signup_case :=
  cbv zeta;
  match goal with
  | |- context [atomic (bind (Model_save ?u0) ?rest) ?st] =>
      let Hi := fresh "Hi" in
      let Hsame := fresh "Hsame" in
      destruct (atomic_insert_pattern u0 rest st) as [Hsame | Hi];
      [ reflexivity
      | intros ?; keeps_users_tac
      | left; exact Hsame
      | right; right; left; exists u0; split; [reflexivity | exact Hi] ]
  end.

(** The four ways an operation can leave the user table: untouched; one
    row, found by key, overwritten with the operation's assignment; the
    signup's user appended under the next key; rows removed by Delete. *)
Lemma run_users `{Env} (op : Operation) (st : Store) :
  users (run op st) = users st
  \/ (exists i f u,
         written_by op = Some (i, f)
         /\ filter (pk_is i) (rows (users st)) = [u]
         /\ users (run op st)
            = mkTable (map (fun b => if pk_is i b then f u else b)
                           (rows (users st)))
                      (next_pk (users st)))
  \/ (exists u0,
         created_by op = Some u0
         /\ users (run op st)
            = mkTable (rows (users st) ++ [User.with_id (next_pk (users st)) u0])
                      (next_pk (users st) + 1))
  \/ (exists cd q,
         op = Delete cd
         /\ users (run op st)
            = mkTable (filter q (rows (users st))) (next_pk (users st))).
Proof.
  destruct op as [cd|cd|cd|cd|cd|cd|d|cd|d|d|cd|d|d|cd|d]; cbn [run].
  - left. apply keeps_SigninForm_clean.
  - destruct (write_pattern (UserActionForm.user_id cd) (User.set_is_accepted true)
                (fun _ => ret tt) st) as [Hsame | (u & Hu & Hw)];
      [reflexivity | intros; apply keeps_ret | left; exact Hsame |].
    right. left. exists (UserActionForm.user_id cd), (User.set_is_accepted true), u.
    repeat split; [exact Hu | exact Hw].
  - right. right. right. destruct (delete_users (pk_is (UserActionForm.user_id cd)) st) as [q Hq].
    exists cd, q. split; [reflexivity | exact Hq].
  - destruct (write_pattern (UserActionForm.user_id cd) (User.set_is_active true)
                (fun _ => ret tt) st) as [Hsame | (u & Hu & Hw)];
      [reflexivity | intros; apply keeps_ret | left; exact Hsame |].
    right. left. exists (UserActionForm.user_id cd), (User.set_is_active true), u.
    repeat split; [exact Hu | exact Hw].
  - destruct (write_pattern (UserActionForm.user_id cd) (User.set_is_active false)
                (fun _ => ret tt) st) as [Hsame | (u & Hu & Hw)];
      [reflexivity | intros; apply keeps_ret | left; exact Hsame |].
    right. left. exists (UserActionForm.user_id cd), (User.set_is_active false), u.
    repeat split; [exact Hu | exact Hw].
  - left.
    assert (Hk : keeps_users (StudentSignupForm.clean cd))
      by (unfold StudentSignupForm.clean; cbv zeta; keeps_users_tac).
    apply Hk.
  - unfold StudentSignupForm.save. signup_case.
  - left.
    assert (Hk : keeps_users (StudentUpdateForm.clean cd))
      by (unfold StudentUpdateForm.clean; cbv zeta; keeps_users_tac).
    apply Hk.
  - unfold StudentUpdateForm.save. update_case.
  - unfold TeacherSignupForm.save. signup_case.
  - left.
    assert (Hk : keeps_users (TeacherUpdateForm.clean cd))
      by (unfold TeacherUpdateForm.clean; cbv zeta; keeps_users_tac).
    apply Hk.
  - unfold TeacherUpdateForm.save. update_case.
  - unfold DeptadminSignupForm.save. signup_case.
  - left.
    assert (Hk : keeps_users (DeptadminUpdateForm.clean cd))
      by (unfold DeptadminUpdateForm.clean; cbv zeta; keeps_users_tac).
    apply Hk.
  - unfold DeptadminUpdateForm.save. update_case.
Qed.

(** ** Role flags and acceptance across operations *)

(** What the assignment of an overwriting operation keeps: the key and the
    role flags always, and [is_accepted] unless the operation is Accept. *)
Lemma written_by_keeps (op : Operation) (i : option Z) (f : User.t -> User.t) :
  written_by op = Some (i, f) ->
  (forall u, User.id (f u) = User.id u)
  /\ (forall u, User.role_flags (f u) = User.role_flags u)
  /\ ((forall u, User.is_accepted (f u) = User.is_accepted u)
      \/ (exists cd, op = Accept cd /\ i = UserActionForm.user_id cd
                     /\ forall u, User.is_accepted (f u) = true)).
Proof.
  destruct op; cbn [written_by]; intros Hw; inversion Hw; subst;
    (split; [intros u; reflexivity|]);
    (split; [intros u; reflexivity|]);
    try (left; intros u; reflexivity).
  right. exists cd. repeat split.
Qed.

(** The user a signup hands to [save] is not accepted. *)
Lemma created_by_not_accepted `{Env} (op : Operation) (u0 : User.t) :
  created_by op = Some u0 -> User.is_accepted u0 = false.
Proof.
  destruct op; cbn [created_by]; intros Hc; inversion Hc; reflexivity.
Qed.

Lemma overwritten_row (i : option Z) (l : list User.t) (u v b : User.t) :
  filter (pk_is i) l = [u] ->
  In b (map (fun x => if pk_is i x then v else x) l) ->
  (In b l /\ pk_is i b = false) \/ b = v.
Proof.
  intros Hu Hb. apply in_map_iff in Hb. destruct Hb as (x & Hx & Hin).
  destruct (pk_is i x) eqn:Hpk.
  - right. symmetry. exact Hx.
  - left. subst b. split; assumption.
Qed.

Lemma user_flags_overwritten (i : option Z) (f : User.t -> User.t)
      (l : list User.t) (u : User.t) :
  filter (pk_is i) l = [u] ->
  User.id (f u) = User.id u ->
  User.role_flags (f u) = User.role_flags u ->
  map (fun x => (User.id x, User.role_flags x))
      (map (fun x => if pk_is i x then f u else x) l)
  = map (fun x => (User.id x, User.role_flags x)) l.
Proof.
  intros Hu Hid Hflags. rewrite map_map. apply map_ext_in. intros x Hx.
  destruct (pk_is i x) eqn:Hpk; [|reflexivity].
  assert (Hin : In x (filter (pk_is i) l)) by (apply filter_In; split; assumption).
  rewrite Hu in Hin. destruct Hin as [<- | []]. rewrite Hid, Hflags. reflexivity.
Qed.

(** Every operation leaves the key and role flags of the stored users as
    they were; a signup may append one user, Delete may remove users. *)
Lemma run_user_flags `{Env} (op : Operation) (st : Store) :
  match op with
  | StudentSignup _ | TeacherSignup _ | DeptadminSignup _ =>
      user_flags (run op st) = user_flags st
      \/ exists new, user_flags (run op st) = user_flags st ++ [new]
  | Delete _ =>
      exists q,
        user_flags (run op st)
        = map (fun u => (User.id u, User.role_flags u))
              (filter q (rows (users st)))
  | _ => user_flags (run op st) = user_flags st
  end.
Proof.
  unfold user_flags.
  destruct (run_users op st)
    as [Hsame | [(i & f & u & Hw & Hu & Hrun) | [(u0 & Hc & Hrun) | (cd & q & Hop & Hrun)]]].
  - rewrite Hsame. destruct op; try reflexivity; try (left; reflexivity).
    exists (fun _ => true). rewrite filter_all by reflexivity. reflexivity.
  - rewrite Hrun. cbn [rows].
    destruct (written_by_keeps op i f Hw) as (Hid & Hflags & _).
    rewrite (user_flags_overwritten i f _ u Hu (Hid u) (Hflags u)).
    destruct op; try reflexivity; discriminate Hw.
  - rewrite Hrun. cbn [rows]. rewrite map_app. cbn [map].
    destruct op; try discriminate Hc; right; eexists; reflexivity.
  - subst op. rewrite Hrun. exists q. reflexivity.
Qed.

(** C9.  The [save] of the student, teacher and deptadmin update forms,
    whether it returns or raises, leaves the key and the four role flags of
    every stored user as they were; and so does every other operation of
    the module, a signup only appending its new user and Delete only
    removing users. *)
Theorem role_flags_never_change `{Env} :
  (forall d st, user_flags (snd (StudentUpdateForm.save d st)) = user_flags st)
  /\ (forall d st, user_flags (snd (TeacherUpdateForm.save d st)) = user_flags st)
  /\ (forall d st, user_flags (snd (DeptadminUpdateForm.save d st)) = user_flags st)
  /\ (forall op st,
         user_flags (run op st) = user_flags st
         \/ (exists new, user_flags (run op st) = user_flags st ++ [new])
         \/ (exists q,
                user_flags (run op st)
                = map (fun u => (User.id u, User.role_flags u))
                      (filter q (rows (users st))))).
Proof.
  split; [|split; [|split]].
  - intros d st. exact (run_user_flags (StudentUpdate d) st).
  - intros d st. exact (run_user_flags (TeacherUpdate d) st).
  - intros d st. exact (run_user_flags (DeptadminUpdate d) st).
  - intros op st. pose proof (run_user_flags op st) as Hrun.
    destruct op; try (left; exact Hrun);
      try (destruct Hrun as [Hrun | Hrun]; [left; exact Hrun | right; left; exact Hrun]).
    right. right. exact Hrun.
Qed.

Lemma forallb_map_filter {A B : Type} (P : B -> bool) (f : A -> B)
      (q : A -> bool) (l : list A) :
  forallb P (map f (filter q l)) = true
  <-> (forall a, In a l -> q a = true -> P (f a) = true).
Proof.
  rewrite forallb_forall. split.
  - intros Hall a Ha Hq. apply Hall. apply in_map. apply filter_In. split; assumption.
  - intros Hall b Hb. apply in_map_iff in Hb. destruct Hb as (a & <- & Ha).
    apply filter_In in Ha. destruct Ha as [Ha Hq]. exact (Hall a Ha Hq).
Qed.

(** One operation that is not Accept on key [i] leaves the rows of that key
    not accepted, if they all were. *)
Lemma run_keeps_not_accepted `{Env} (op : Operation) (st : Store) (i : Z) :
  accepts i op = false ->
  (forall u, In u (rows (users st)) -> pk_is (Some i) u = true ->
             User.is_accepted u = false) ->
  forall u, In u (rows (users (run op st))) -> pk_is (Some i) u = true ->
            User.is_accepted u = false.
Proof.
  intros Hop Hold u Hu Hkey.
  destruct (run_users op st)
    as [Hsame | [(j & f & u0 & Hw & Hu0 & Hrun) | [(u0 & Hc & Hrun) | (cd & q & _ & Hrun)]]].
  - rewrite Hsame in Hu. exact (Hold u Hu Hkey).
  - rewrite Hrun in Hu. cbn [rows] in Hu.
    destruct (overwritten_row j _ u0 (f u0) u Hu0 Hu) as [[Hin _] | ->];
      [exact (Hold u Hin Hkey)|].
    destruct (written_by_keeps op j f Hw) as (Hid & _ & Hacc).
    destruct (filter_one_in _ _ _ Hu0) as [Hin0 Hj].
    assert (Hkey0 : pk_is (Some i) u0 = true).
    { unfold pk_is in *. cbn [pk User_Model] in *. rewrite Hid in Hkey. exact Hkey. }
    destruct Hacc as [Hsame | (cd & -> & -> & _)].
    + rewrite Hsame. exact (Hold u0 Hin0 Hkey0).
    + exfalso. cbn [accepts] in Hop.
      apply pk_is_true in Hj. apply pk_is_true in Hkey0.
      rewrite <- Hj, Hkey0 in Hop. simpl in Hop. rewrite Z.eqb_refl in Hop.
      discriminate.
  - rewrite Hrun in Hu. cbn [rows] in Hu. apply in_app_or in Hu.
    destruct Hu as [Hu | [<- | []]]; [exact (Hold u Hu Hkey)|].
    exact (created_by_not_accepted op u0 Hc).
  - rewrite Hrun in Hu. cbn [rows] in Hu. apply filter_In in Hu.
    exact (Hold u (proj1 Hu) Hkey).
Qed.

(** No operation takes acceptance away from a key the sequence has already
    handed out, nor brings the sequence back below it. *)
Lemma run_keeps_accepted `{Env} (op : Operation) (st : Store) (i : Z) :
  i < next_pk (users st) ->
  (forall u, In u (rows (users st)) -> pk_is (Some i) u = true ->
             User.is_accepted u = true) ->
  i < next_pk (users (run op st))
  /\ forall u, In u (rows (users (run op st))) -> pk_is (Some i) u = true ->
               User.is_accepted u = true.
Proof.
  intros Hlt Hold.
  destruct (run_users op st)
    as [Hsame | [(j & f & u0 & Hw & Hu0 & Hrun) | [(u0 & Hc & Hrun) | (cd & q & _ & Hrun)]]];
    rewrite ?Hsame, ?Hrun; cbn [rows next_pk].
  - split; assumption.
  - split; [exact Hlt|]. intros u Hu Hkey.
    destruct (overwritten_row j _ u0 (f u0) u Hu0 Hu) as [[Hin _] | ->];
      [exact (Hold u Hin Hkey)|].
    destruct (written_by_keeps op j f Hw) as (Hid & _ & Hacc).
    destruct (filter_one_in _ _ _ Hu0) as [Hin0 Hj].
    assert (Hkey0 : pk_is (Some i) u0 = true).
    { unfold pk_is in *. cbn [pk User_Model] in *. rewrite Hid in Hkey. exact Hkey. }
    destruct Hacc as [Hsame | (cd & _ & _ & Htrue)].
    + rewrite Hsame. exact (Hold u0 Hin0 Hkey0).
    + apply Htrue.
  - split; [lia|]. intros u Hu Hkey. apply in_app_or in Hu.
    destruct Hu as [Hu | [<- | []]]; [exact (Hold u Hu Hkey)|].
    exfalso. unfold pk_is in Hkey. cbn [pk User_Model User.with_id User.id] in Hkey.
    apply Z.eqb_eq in Hkey. lia.
  - split; [exact Hlt|]. intros u Hu Hkey. apply filter_In in Hu.
    exact (Hold u (proj1 Hu) Hkey).
Qed.

(** C10.  Over any sequence of operations of the module: if no row of key
    [i] is accepted at the start (or no such row exists yet) and the
    sequence holds no Accept on [i], no row of key [i] is accepted at the
    end, so acceptance comes from Accept alone, signups creating their user
    not accepted; and if the rows of an already handed-out key [i] are
    accepted at the start, they are at the end: nothing sets the flag back. *)
Theorem is_accepted_only_by_accept `{Env} (ops : list Operation) (st : Store) (i : Z) :
  (forallb negb (accepted_flags i st) = true ->
   existsb (accepts i) ops = false ->
   forallb negb (accepted_flags i (run_all ops st)) = true)
  /\ (i < next_pk (users st) ->
      forallb (fun b => b) (accepted_flags i st) = true ->
      forallb (fun b => b) (accepted_flags i (run_all ops st)) = true).
Proof.
  unfold accepted_flags, run_all. split.
  - revert st. induction ops as [|op ops IH]; intros st Hst Hops; [exact Hst|].
    cbn [existsb] in Hops. apply orb_false_iff in Hops. destruct Hops as [Hop Hops].
    cbn [fold_left]. apply IH; [|exact Hops].
    apply forallb_map_filter. intros u Hu Hkey. apply negb_true_iff.
    apply (run_keeps_not_accepted op st i Hop); [|exact Hu | exact Hkey].
    intros v Hv Hkv. apply negb_true_iff.
    exact (proj1 (forallb_map_filter negb User.is_accepted _ _) Hst v Hv Hkv).
  - revert st. induction ops as [|op ops IH]; intros st Hlt Hst; [exact Hst|].
    cbn [fold_left].
    destruct (run_keeps_accepted op st i Hlt) as [Hlt' Hkeep].
    { exact (proj1 (forallb_map_filter (fun b => b) User.is_accepted _ _) Hst). }
    apply IH; [exact Hlt'|].
    apply forallb_map_filter. exact Hkeep.
Qed.

Lemma is_accepted_only_by_accept_witness :
  forallb negb
    (accepted_flags 1
       (@run_all Sample.env
          [StudentUpdate (StudentUpdateForm.mk (F:=present) 1 20 "Ann" "Lee" "R-100"
                            2020 "ann@campus.example");
           Deactivate (UserActionForm.mk (Some 1));
           Accept (UserActionForm.mk (Some 2));
           StudentSignup (StudentSignupForm.mk (F:=present) 10 "cy@uni.example" "Cy"
                            "Orr" "R-300" 2022 "pw12345678" "pw12345678")]
          Sample.campus)) = true
  /\ forallb (fun b => b)
       (accepted_flags 2
          (@run_all Sample.env
             [Deactivate (UserActionForm.mk (Some 2));
              StudentUpdate (StudentUpdateForm.mk (F:=present) 2 10 "Bob" "Ray"
                               "R-200" 2021 "bob@campus.example");
              Delete (UserActionForm.mk (Some 1))]
             Sample.campus)) = true.
Proof.
  split.
  - apply (@is_accepted_only_by_accept Sample.env); reflexivity.
  - apply (@is_accepted_only_by_accept Sample.env); reflexivity.
Defined.

(** ** Runs on the sample data *)

(** A student update that goes through: the three rows of user 1 are
    overwritten in place and no table grows. *)
Example student_update_on_campus :
  StudentUpdateForm.save
    (StudentUpdateForm.mk (F:=present) 1 20 "Anna" "Lee" "R-101" 2021
       "anna@uni.example")
    Sample.campus
  = (Ok (User.mk (Some 1) "anna@uni.example" "hash$s3cret" true false false false
                 false true),
     mkStore (mkTable [User.mk (Some 1) "anna@uni.example" "hash$s3cret"
                               true false false false false true;
                       Sample.bob] 3)
             (mkTable [Student.mk (Some 1) 1 (Some "R-101") (Some "Anna")
                                  (Some "Lee") (Some 2021);
                       Sample.bob_profile] 3)
             (mkTable [] 1) (mkTable [] 1)
             (mkTable [DepartmentStudents.mk (Some 1) 20 1;
                       DepartmentStudents.mk (Some 2) 20 2] 3)
             (mkTable [] 1)).
Proof. reflexivity. Qed.

(** Accept sets the flag of the one user and nothing else. *)
Example accept_on_campus :
  UserActionForm.accept (UserActionForm.mk (Some 1)) Sample.campus
  = (Ok tt,
     mkStore (mkTable [User.set_is_accepted true Sample.ann; Sample.bob] 3)
             (students Sample.campus) (teachers Sample.campus)
             (deptadmins Sample.campus) (department_students Sample.campus)
             (department_teachers Sample.campus)).
Proof. reflexivity. Qed.

(** Delete removes the user together with the profile and membership rows
    that point at it. *)
Example delete_on_campus :
  UserActionForm.delete (UserActionForm.mk (Some 1)) Sample.campus
  = (Ok tt,
     mkStore (mkTable [Sample.bob] 3)
             (mkTable [Sample.bob_profile] 3)
             (mkTable [] 1) (mkTable [] 1)
             (mkTable [DepartmentStudents.mk (Some 2) 20 2] 3)
             (mkTable [] 1)).
Proof. reflexivity. Qed.

(** A signup whose email is in use: the insert violates the constraint and
    the transaction leaves the store as it was. *)
Example signup_with_used_email :
  @StudentSignupForm.save Sample.env
    (StudentSignupForm.mk (F:=present) 10 "ann@uni.example" "Cy" "Orr" "R-300" 2022
       "pw12345678" "pw12345678")
    Sample.campus
  = (Raise (IntegrityError "User"), Sample.campus).
Proof. reflexivity. Qed.

(** The sample stores satisfy the invariants of the data model. *)
Example sample_stores_ok :
  Store_ok Sample.empty = true
  /\ Store_ok Sample.campus = true
  /\ Store_ok Sample.campus_no_membership = true.
Proof. repeat split. Qed.

(** The sample campus is what two student signups and one Accept make of
    the empty store. *)
Example campus_is_reachable :
  @run_all Sample.env
    [StudentSignup (StudentSignupForm.mk (F:=present) 10 "ann@uni.example" "Ann"
                      "Lee" "R-100" 2020 "s3cret" "s3cret");
     StudentSignup (StudentSignupForm.mk (F:=present) 20 "bob@uni.example" "Bob"
                      "Ray" "R-200" 2021 "hunter2" "hunter2");
     Accept (UserActionForm.mk (Some 2))]
    Sample.empty
  = Sample.campus.
Proof. reflexivity. Qed.

(** An accepted user signs in and is returned; the store is not written. *)
Example signin_on_campus :
  @SigninForm.clean Sample.env
    (SigninForm.mk (Some "bob@uni.example") (Some "hunter2")) Sample.campus
  = (Ok (SigninForm.mk (Some "bob@uni.example") (Some "hunter2"), Some Sample.bob),
     Sample.campus).
Proof. reflexivity. Qed.


(** * Further properties of the forms *)

(** ** Columns with distinct values under insert, overwrite and removal *)

Section DistinctColumns.
Context {A K : Type} (eqb : K -> K -> bool) (key : A -> option K).
Hypothesis eqb_spec : forall x y, eqb x y = true <-> x = y.

Lemma eqb_refl_of_spec (x : K) : eqb x x = true.
Proof. apply eqb_spec. reflexivity. Qed.

Lemma existsb_keys_false (l : list A) (k : K) :
  existsb (eqb k) (keys key l) = false <-> (forall a, In a l -> key a <> Some k).
Proof.
  split.
  - intros Hno a Ha Hk.
    rewrite (existsb_keys eqb key l a k eqb_refl_of_spec Ha Hk) in Hno. discriminate.
  - intros Hall. destruct (existsb (eqb k) (keys key l)) eqn:Hex; [|reflexivity].
    exfalso. apply existsb_exists in Hex. destruct Hex as (x & Hx & Hkx).
    apply eqb_spec in Hkx. subst x. unfold keys in Hx. apply in_flat_map in Hx.
    destruct Hx as (a & Ha & Hin). apply (Hall a Ha).
    destruct (key a) as [y|]; [|destruct Hin].
    destruct Hin as [-> | []]. reflexivity.
Qed.

Lemma keys_app (l l' : list A) : keys key (l ++ l') = keys key l ++ keys key l'.
Proof. unfold keys. apply flat_map_app. Qed.

Lemma distinct_cons (x : A) (l : list A) :
  distinct eqb (keys key (x :: l)) = true
  <-> (forall k, key x = Some k -> forall a, In a l -> key a <> Some k)
      /\ distinct eqb (keys key l) = true.
Proof.
  unfold keys at 1. cbn [flat_map]. fold (keys key l).
  destruct (key x) as [k|]; cbn [app distinct].
  - rewrite andb_true_iff, negb_true_iff, existsb_keys_false. split.
    + intros [Hno Hd]. split; [|exact Hd]. intros k' Hk'. inversion Hk'; subst. exact Hno.
    + intros [Hno Hd]. split; [|exact Hd]. apply Hno. reflexivity.
  - split; [intros Hd; split; [intros k Hk; discriminate | exact Hd] | intros [_ Hd]; exact Hd].
Qed.

(** Appending a row whose value no stored row holds. *)
Lemma distinct_append (l : list A) (a : A) :
  distinct eqb (keys key l) = true ->
  (forall k, key a = Some k -> forall b, In b l -> key b <> Some k) ->
  distinct eqb (keys key (l ++ [a])) = true.
Proof.
  intros Hd Hnew. induction l as [|x l IH]; cbn [app].
  - apply distinct_cons. split; [intros k _ b []|reflexivity].
  - apply distinct_cons in Hd. destruct Hd as [Hx Hd].
    apply distinct_cons. split.
    + intros k Hk b Hb. apply in_app_or in Hb. destruct Hb as [Hb | [<- | []]].
      * exact (Hx k Hk b Hb).
      * intros Hak. exact (Hnew k Hak x (or_introl eq_refl) Hk).
    + apply IH; [exact Hd|]. intros k Hk b Hb. apply (Hnew k Hk). right. exact Hb.
Qed.

(** Removing rows. *)
Lemma distinct_remove (q : A -> bool) (l : list A) :
  distinct eqb (keys key l) = true ->
  distinct eqb (keys key (filter q l)) = true.
Proof.
  induction l as [|x l IH]; intros Hd; [reflexivity|].
  apply distinct_cons in Hd. destruct Hd as [Hx Hd]. cbn [filter].
  destruct (q x); [|exact (IH Hd)].
  apply distinct_cons. split; [|exact (IH Hd)].
  intros k Hk a Ha. apply filter_In in Ha. exact (Hx k Hk a (proj1 Ha)).
Qed.

(** Overwriting the rows selected by [p] with [v], when at most the rows
    selected hold the value of [v]. *)
Lemma distinct_overwrite (p : A -> bool) (v : A) (l : list A) (u : A) :
  distinct eqb (keys key l) = true ->
  filter p l = [u] ->
  (forall k, key v = Some k -> forall b, In b l -> p b = false -> key b <> Some k) ->
  distinct eqb (keys key (map (fun b => if p b then v else b) l)) = true.
Proof.
  revert u. induction l as [|x l IH]; intros u Hd Hu Hfree; [reflexivity|].
  apply distinct_cons in Hd. destruct Hd as [Hx Hd]. cbn [map filter] in *.
  destruct (p x) eqn:Hpx.
  - inversion Hu as [[Hux Hrest]]. subst x.
    assert (Hnone : forall b, In b l -> p b = false)
      by (intros b Hb; exact (filter_nil_false p l b Hrest Hb)).
    rewrite (map_ext_in _ (fun b => b) l), map_id
      by (intros b Hb; rewrite (Hnone b Hb); reflexivity).
    apply distinct_cons. split; [|exact Hd].
    intros k Hk b Hb. apply (Hfree k Hk b (or_intror Hb) (Hnone b Hb)).
  - apply distinct_cons. split.
    + intros k Hk b Hb. apply in_map_iff in Hb. destruct Hb as (c & Hc & Hin).
      destruct (p c) eqn:Hpc.
      * subst b. intros Hv. exact (Hfree k Hv x (or_introl eq_refl) Hpx Hk).
      * subst b. exact (Hx k Hk c Hin).
    + apply (IH u Hd Hu). intros k Hk b Hb Hpb. apply (Hfree k Hk b (or_intror Hb) Hpb).
Qed.

(** Overwriting rows with a row of the same value leaves the column. *)
Lemma keys_overwrite_same (p : A -> bool) (v : A) (l : list A) :
  (forall b, In b l -> p b = true -> key v = key b) ->
  keys key (map (fun b => if p b then v else b) l) = keys key l.
Proof.
  intros Hsame. induction l as [|x l IH]; [reflexivity|].
  unfold keys in *. cbn [map flat_map]. rewrite IH by (intros b Hb; apply Hsame; right; exact Hb).
  destruct (p x) eqn:Hpx; [|reflexivity].
  rewrite (Hsame x (or_introl eq_refl) Hpx). reflexivity.
Qed.
End DistinctColumns.

Lemma Z_eqb_spec_iff (x y : Z) : Z.eqb x y = true <-> x = y.
Proof. apply Z.eqb_eq. Qed.

Lemma String_eqb_spec_iff (x y : string) : String.eqb x y = true <-> x = y.
Proof. apply String.eqb_eq. Qed.

(** ** Keyed tables under insert, overwrite and removal *)

Section TableFacts.
Context {A : Type} `{Model A}.

Lemma Table_ok_intro (t : Table A) :
  (forall a, In a (rows t) -> exists i, pk a = Some i /\ i < next_pk t) ->
  distinct Z.eqb (keys pk (rows t)) = true ->
  Table_ok t = true.
Proof.
  intros Hall Hd. unfold Table_ok. rewrite Hd, andb_true_r.
  apply forallb_forall. intros a Ha. destruct (Hall a Ha) as (i & -> & Hlt).
  apply Z.ltb_lt. exact Hlt.
Qed.

Lemma Table_ok_append (t : Table A) (a : A) :
  Table_ok t = true ->
  pk a = Some (next_pk t) ->
  Table_ok (mkTable (rows t ++ [a]) (next_pk t + 1)) = true.
Proof.
  intros Hok Hpk. apply Table_ok_intro; cbn [rows next_pk].
  - intros b Hb. apply in_app_or in Hb. destruct Hb as [Hb | [<- | []]].
    + destruct (Table_ok_pk t b Hok Hb) as (i & Hi & Hlt). exists i. split; [exact Hi | lia].
    + exists (next_pk t). split; [exact Hpk | lia].
  - apply (distinct_append Z.eqb pk Z_eqb_spec_iff); [apply Table_ok_distinct; exact Hok|].
    intros k Hk b Hb Hbk. destruct (Table_ok_pk t b Hok Hb) as (i & Hi & Hlt).
    rewrite Hpk in Hk. inversion Hk. subst k. rewrite Hi in Hbk. inversion Hbk. lia.
Qed.

Lemma Table_ok_overwrite (t : Table A) (i : Z) (v : A) :
  Table_ok t = true ->
  pk v = Some i ->
  Table_ok (mkTable (map (fun b => if pk_is (Some i) b then v else b) (rows t))
                    (next_pk t)) = true.
Proof.
  intros Hok Hpk. unfold Table_ok in *. cbn [rows next_pk].
  apply andb_true_iff in Hok. destruct Hok as [Hall Hd].
  rewrite (keys_overwrite_same pk)
    by (intros b _ Hb; rewrite Hpk; symmetry; apply pk_is_true; exact Hb).
  rewrite Hd, andb_true_r. rewrite forallb_forall in *.
  intros b Hb. apply in_map_iff in Hb. destruct Hb as (c & Hc & Hin).
  destruct (pk_is (Some i) c) eqn:Hpc.
  - subst b. apply pk_is_true in Hpc. specialize (Hall c Hin).
    rewrite Hpc in Hall. rewrite Hpk. exact Hall.
  - subst b. exact (Hall c Hin).
Qed.

Lemma Table_ok_remove (t : Table A) (q : A -> bool) :
  Table_ok t = true ->
  Table_ok (mkTable (filter q (rows t)) (next_pk t)) = true.
Proof.
  intros Hok. unfold Table_ok in *. cbn [rows next_pk].
  apply andb_true_iff in Hok. destruct Hok as [Hall Hd].
  rewrite (distinct_remove Z.eqb pk Z_eqb_spec_iff q _ Hd), andb_true_r.
  rewrite forallb_forall in *. intros b Hb. apply filter_In in Hb. exact (Hall b (proj1 Hb)).
Qed.

(** In a keyed table, a stored row is the one its key finds. *)
Lemma Table_ok_find (t : Table A) (a : A) :
  Table_ok t = true -> In a (rows t) ->
  filter (pk_is (pk a)) (rows t) = [a].
Proof.
  intros Hok Ha. destruct (Table_ok_pk t a Hok Ha) as (i & Hi & _).
  destruct (Table_ok_get t (pk a) Hok) as [Hnone | (b & Hb)].
  - exfalso. assert (Hin : In a (filter (pk_is (pk a)) (rows t))).
    { apply filter_In. split; [exact Ha|]. rewrite Hi. apply pk_is_refl. exact Hi. }
    rewrite Hnone in Hin. destruct Hin.
  - assert (Hin : In a (filter (pk_is (pk a)) (rows t))).
    { apply filter_In. split; [exact Ha|]. rewrite Hi. apply pk_is_refl. exact Hi. }
    rewrite Hb in Hin. destruct Hin as [-> | []]. exact Hb.
Qed.
End TableFacts.

(** ** Field and form validation *)

Lemma opt_eqb_spec {K : Type} (eqb : K -> K -> bool) (x y : option K) :
  (forall a b, eqb a b = true <-> a = b) ->
  (opt_eqb eqb x y = true <-> x = y).
Proof.
  intros Hspec. destruct x as [a|], y as [b|]; simpl.
  - rewrite Hspec. split; [intros ->; reflexivity | intros Heq; inversion Heq; reflexivity].
  - split; discriminate.
  - split; discriminate.
  - split; reflexivity.
Qed.

(** X1.  The admission-year field of both student forms accepts a
    submission exactly when it is a year between 2000 and the year the
    module was imported in; an empty submission gets [required], a year
    below 2000 [min_value], a year above the bound [max_value]. *)
Theorem admission_year_field_accepts_iff (year_at_import : Z) (value : option Z) :
  let signup := StudentSignupForm.admission_year_field year_at_import in
  let update := StudentUpdateForm.admission_year_field year_at_import in
  IntegerField.clean update value = IntegerField.clean signup value
  /\ (forall cleaned,
         IntegerField.clean signup value = inl cleaned
         <-> exists n, value = Some n /\ cleaned = Some n
                       /\ 2000 <= n <= year_at_import)
  /\ (value = None ->
      IntegerField.clean signup value
      = inr [ValidationError "This field is required." "required"])
  /\ (forall n, value = Some n -> n < 2000 -> n <= year_at_import ->
      IntegerField.clean signup value
      = inr [ValidationError
               "Ensure this value is greater than or equal to %(limit_value)s."
               "min_value"])
  /\ (forall n, value = Some n -> year_at_import < n -> 2000 <= n ->
      IntegerField.clean signup value
      = inr [ValidationError
               "Ensure this value is less than or equal to %(limit_value)s."
               "max_value"]).
Proof.
  cbv zeta. split; [reflexivity|].
  unfold StudentSignupForm.admission_year_field, IntegerField.clean,
    IntegerField.run_validators. cbn [IntegerField.required IntegerField.min_value
                                      IntegerField.max_value].
  split; [|split; [|split]].
  - intros cleaned. destruct value as [n|].
    + destruct (Z.gtb_spec n year_at_import); destruct (Z.ltb_spec n 2000); cbn [app];
        split; try discriminate;
        try (intros (m & Hm & _ & Hlo & Hhi); inversion Hm; subst; lia).
      * intros Heq. inversion Heq. exists n. repeat split; lia.
      * intros (m & Hm & -> & _). inversion Hm. reflexivity.
    + split; [discriminate | intros (m & Hm & _); discriminate].
  - intros ->. reflexivity.
  - intros n -> Hlo Hhi.
    destruct (Z.gtb_spec n year_at_import); [lia|].
    destruct (Z.ltb_spec n 2000); [reflexivity | lia].
  - intros n -> Hhi Hlo.
    destruct (Z.gtb_spec n year_at_import); [|lia].
    destruct (Z.ltb_spec n 2000); [lia | reflexivity].
Qed.

Lemma admission_year_field_accepts_iff_witness :
  IntegerField.clean (StudentSignupForm.admission_year_field 2024) (Some 1999)
  = inr [ValidationError
           "Ensure this value is greater than or equal to %(limit_value)s."
           "min_value"].
Proof.
  destruct (admission_year_field_accepts_iff 2024 (Some 1999)) as (_ & _ & _ & Hmin & _).
  apply (Hmin 1999); [reflexivity | lia | lia].
Defined.

(** X2.  [StudentSignupForm.clean] writes nothing, returns [cleaned_data]
    as it got it when no student holds the submitted registry id, and
    raises [registry_id_exists] when one does.  A submission whose registry
    id did not pass its field is compared as the unset value. *)
Theorem student_signup_clean_iff (cd : StudentSignupForm.cleaned_data) (st : Store) :
  snd (StudentSignupForm.clean cd st) = st
  /\ ((forall s, In s (rows (students st)) ->
                 Student.registry_id s <> StudentSignupForm.registry_id cd) ->
      StudentSignupForm.clean cd st = (Ok cd, st))
  /\ ((exists s, In s (rows (students st))
                 /\ Student.registry_id s = StudentSignupForm.registry_id cd) ->
      StudentSignupForm.clean cd st
      = (Raise (ValidationError "A student with this registry id already exists."
                                "registry_id_exists"), st)).
Proof.
  unfold StudentSignupForm.clean, bind, objects_filter, raise_if. cbn [table Student_Model].
  set (found := filter _ (rows (students st))).
  assert (Hfound : forall s, In s found <->
                             In s (rows (students st))
                             /\ Student.registry_id s = StudentSignupForm.registry_id cd).
  { intros s. unfold found. rewrite filter_In.
    rewrite (opt_eqb_spec String.eqb _ _ String_eqb_spec_iff). reflexivity. }
  clearbody found. split; [|split].
  - destruct found; reflexivity.
  - intros Hfree. destruct found as [|s rest]; [reflexivity|]. exfalso.
    destruct (proj1 (Hfound s) (or_introl eq_refl)) as [Hin Hreg].
    exact (Hfree s Hin Hreg).
  - intros (s & Hin & Hreg). destruct found as [|s0 rest]; [|reflexivity]. exfalso.
    exact (proj2 (Hfound s) (conj Hin Hreg)).
Qed.

Lemma student_signup_clean_iff_witness :
  StudentSignupForm.clean
    (StudentSignupForm.mk (F:=option) (Some 10) (Some "cy@uni.example") (Some "Cy")
       (Some "Orr") (Some "R-300") (Some 2022) (Some "pw12345678") (Some "pw12345678"))
    Sample.campus
  = (Ok (StudentSignupForm.mk (F:=option) (Some 10) (Some "cy@uni.example") (Some "Cy")
           (Some "Orr") (Some "R-300") (Some 2022) (Some "pw12345678")
           (Some "pw12345678")),
     Sample.campus).
Proof.
  apply (student_signup_clean_iff _ Sample.campus).
  intros s [<- | [<- | []]]; discriminate.
Defined.

(** The email check the three update forms share: in a consistent store the
    first row found for the email belongs to someone else exactly when
    some other user holds the email. *)
Lemma email_check (st : Store) (email : option string) (uid : option Z) :
  Store_ok st = true ->
  let found := filter (fun u => opt_eqb String.eqb (Some (User.email u)) email)
                      (rows (users st)) in
  let taken := exists v, In v (rows (users st))
                         /\ Some (User.email v) = email /\ User.id v <> uid in
  (taken ->
   match found with
   | [] => false
   | first :: _ => negb (opt_eqb Z.eqb (User.id first) uid)
   end = true)
  /\ (~ taken ->
      match found with
      | [] => false
      | first :: _ => negb (opt_eqb Z.eqb (User.id first) uid)
      end = false).
Proof.
  intros Hok found taken.
  assert (Hfound : forall v, In v found <->
                             In v (rows (users st)) /\ Some (User.email v) = email).
  { intros v. unfold found. rewrite filter_In.
    rewrite (opt_eqb_spec String.eqb _ _ String_eqb_spec_iff). reflexivity. }
  clearbody found. split.
  - intros (v & Hv & Hem & Hid).
    destruct found as [|first rest]; [exfalso; exact (proj2 (Hfound v) (conj Hv Hem))|].
    destruct (proj1 (Hfound first) (or_introl eq_refl)) as [Hfirst Hem'].
    assert (first = v).
    { apply (Store_ok_emails st Hok); [exact Hfirst | exact Hv |].
      rewrite <- Hem in Hem'. inversion Hem'. reflexivity. }
    subst first. apply negb_true_iff.
    destruct (opt_eqb Z.eqb (User.id v) uid) eqn:Heq; [|reflexivity].
    apply (opt_eqb_spec Z.eqb _ _ Z_eqb_spec_iff) in Heq. contradiction.
  - intros Hnot. destruct found as [|first rest]; [reflexivity|].
    destruct (proj1 (Hfound first) (or_introl eq_refl)) as [Hfirst Hem].
    apply negb_false_iff. apply (opt_eqb_spec Z.eqb _ _ Z_eqb_spec_iff).
    destruct (opt_eqb Z.eqb (User.id first) uid) eqn:Heq.
    + apply (opt_eqb_spec Z.eqb _ _ Z_eqb_spec_iff). exact Heq.
    + exfalso. apply Hnot. exists first. repeat split; [exact Hfirst | exact Hem |].
      intros Hid. rewrite Hid in Heq.
      rewrite (proj2 (opt_eqb_spec Z.eqb uid uid Z_eqb_spec_iff) eq_refl) in Heq.
      discriminate.
Qed.

(** X3.  In a consistent store, [TeacherUpdateForm.clean] raises
    [email_exists] exactly when a user other than the one being updated
    holds the submitted email, and otherwise returns [cleaned_data]; the
    user's own email passes, and so does a missing email.  It never writes. *)
Theorem teacher_update_clean_iff (cd : TeacherUpdateForm.cleaned_data) (st : Store) :
  Store_ok st = true ->
  let taken := exists v, In v (rows (users st))
                         /\ Some (User.email v) = TeacherUpdateForm.email cd
                         /\ User.id v <> TeacherUpdateForm.user_id cd in
  (taken ->
   TeacherUpdateForm.clean cd st
   = (Raise (ValidationError "This email is used by another user." "email_exists"),
      st))
  /\ (~ taken -> TeacherUpdateForm.clean cd st = (Ok cd, st)).
Proof.
  intros Hok taken.
  destruct (email_check st (TeacherUpdateForm.email cd) (TeacherUpdateForm.user_id cd) Hok)
    as [Hyes Hno].
  unfold TeacherUpdateForm.clean, bind, objects_filter, raise_if. cbn [table User_Model].
  split; intros Ht; [rewrite (Hyes Ht) | rewrite (Hno Ht)]; reflexivity.
Qed.

Lemma teacher_update_clean_iff_witness :
  TeacherUpdateForm.clean
    (TeacherUpdateForm.mk (F:=option) (Some 1) (Some 10) (Some "Ann") (Some "Lee")
       (Some "Lecturer") (Some "bob@uni.example"))
    Sample.campus
  = (Raise (ValidationError "This email is used by another user." "email_exists"),
     Sample.campus).
Proof.
  apply (teacher_update_clean_iff _ Sample.campus); [reflexivity|].
  exists Sample.bob. split; [simpl; right; left; reflexivity|].
  split; [reflexivity | discriminate].
Defined.

(** X4.  The same for [DeptadminUpdateForm.clean]. *)
Theorem deptadmin_update_clean_iff (cd : DeptadminUpdateForm.cleaned_data) (st : Store) :
  Store_ok st = true ->
  let taken := exists v, In v (rows (users st))
                         /\ Some (User.email v) = DeptadminUpdateForm.email cd
                         /\ User.id v <> DeptadminUpdateForm.user_id cd in
  (taken ->
   DeptadminUpdateForm.clean cd st
   = (Raise (ValidationError "This email is used by another user." "email_exists"),
      st))
  /\ (~ taken -> DeptadminUpdateForm.clean cd st = (Ok cd, st)).
Proof.
  intros Hok taken.
  destruct (email_check st (DeptadminUpdateForm.email cd)
                        (DeptadminUpdateForm.user_id cd) Hok) as [Hyes Hno].
  unfold DeptadminUpdateForm.clean, bind, objects_filter, raise_if. cbn [table User_Model].
  split; intros Ht; [rewrite (Hyes Ht) | rewrite (Hno Ht)]; reflexivity.
Qed.

Lemma deptadmin_update_clean_iff_witness :
  DeptadminUpdateForm.clean
    (DeptadminUpdateForm.mk (F:=option) (Some 2) (Some 10) (Some "bob@uni.example"))
    Sample.campus
  = (Ok (DeptadminUpdateForm.mk (F:=option) (Some 2) (Some 10) (Some "bob@uni.example")),
     Sample.campus).
Proof.
  apply (deptadmin_update_clean_iff _ Sample.campus); [reflexivity|].
  intros (v & [<- | [<- | []]] & Hem & Hid);
    [discriminate Hem | apply Hid; reflexivity].
Defined.

(** ** Account actions on a stored user *)

Lemma filter_overwrite {A : Type} (p : A -> bool) (v u : A) (l : list A) :
  filter p l = [u] -> p v = true ->
  filter p (map (fun b => if p b then v else b) l) = [v].
Proof.
  revert u. induction l as [|x l IH]; intros u Hu Hv; [discriminate|].
  cbn [filter map] in *. destruct (p x) eqn:Hpx.
  - rewrite Hv. inversion Hu as [[Hx Hrest]]. f_equal.
    rewrite (map_ext_in _ (fun b => b) l), map_id
      by (intros b Hb; rewrite (filter_nil_false p l b Hrest Hb); reflexivity).
    first [exact Hrest | reflexivity].
  - rewrite Hpx. exact (IH u Hu Hv).
Qed.

Lemma map_overwrite_by_row {A : Type} (p : A -> bool) (f : A -> A) (u : A) (l : list A) :
  filter p l = [u] ->
  map (fun b => if p b then f u else b) l = map (fun b => if p b then f b else b) l.
Proof.
  intros Hu. apply map_ext_in. intros b Hb. destruct (p b) eqn:Hpb; [|reflexivity].
  assert (Hin : In b (filter p l)) by (apply filter_In; split; assumption).
  rewrite Hu in Hin. destruct Hin as [<- | []]. reflexivity.
Qed.

(** Replacing the user table by one that is keyed and has distinct emails
    keeps the store consistent. *)
Lemma Store_ok_users (st : Store) (t : Table User.t) :
  Store_ok st = true ->
  Table_ok t = true ->
  distinct String.eqb (keys (fun u => Some (User.email u)) (rows t)) = true ->
  Store_ok (set_table t st) = true.
Proof.
  unfold Store_ok. cbn [set_table User_Model users students teachers deptadmins
                        department_students department_teachers].
  rewrite !andb_true_iff. intros Hok Ht Hd. decompose [and] Hok.
  repeat split; assumption.
Qed.

(** Look a user up by key, set a flag, save: in a consistent store the row
    of that key is overwritten in place and everything else stays. *)
Lemma flag_write_eq (i : Z) (f : User.t -> User.t) (u : User.t) (st : Store) :
  Store_ok st = true ->
  filter (pk_is (Some i)) (rows (users st)) = [u] ->
  (forall x, User.id (f x) = User.id x) ->
  (forall x, User.email (f x) = User.email x) ->
  let st' := set_table
               (mkTable (map (fun b => if pk_is (Some i) b then f b else b)
                             (rows (users st)))
                        (next_pk (users st))) st in
  (user <- objects_get (pk_is (Some i)) ;; Model_save (f user) ;;; ret tt) st
  = (Ok tt, st')
  /\ Store_ok st' = true
  /\ filter (pk_is (Some i)) (rows (users st')) = [f u].
Proof.
  intros Hok Hu Hid Hem st'.
  destruct (filter_one_in _ _ _ Hu) as [Hin Hpk].
  pose proof (pk_is_true _ _ Hpk) as Hkey. cbn [pk User_Model] in Hkey.
  assert (Hfkey : pk_is (Some i) (f u) = true).
  { apply pk_is_refl. cbn [pk User_Model]. rewrite Hid. exact Hkey. }
  subst st'. rewrite <- (map_overwrite_by_row (pk_is (Some i)) f u _ Hu).
  split; [|split].
  - assert (Hsave : Model_save (f u) st
                    = (Ok (f u),
                       set_table
                         (mkTable (map (fun b => if pk_is (Some i) b then f u else b)
                                       (rows (users st)))
                                  (next_pk (users st))) st)).
    { pose proof (Model_save_update (A:=User.t) (f u) st i) as Hs.
      cbn [table User_Model] in Hs. apply Hs; clear Hs.
      - cbn [pk User_Model]. rewrite Hid. exact Hkey.
      - apply unique_ok_intro. intros b Hb. cbn [conflicts User_Model pk].
        rewrite Hid, Hem, Hkey.
        destruct (String.eqb_spec (User.email u) (User.email b)) as [Heq|Hne];
          [left | right; reflexivity].
        rewrite <- (Store_ok_emails st Hok u b Hin Hb Heq). exact Hpk.
      - exact (existsb_in _ _ u Hin Hpk). }
    erewrite bind_ok by (exact (objects_get_one (A:=User.t) _ st u Hu)).
    erewrite bind_ok by (exact Hsave). reflexivity.
  - destruct (Store_ok_inv st Hok) as (Husers & _).
    apply Store_ok_users; [exact Hok | | cbn [rows]].
    + apply Table_ok_overwrite; [exact Husers|]. cbn [pk User_Model]. rewrite Hid. exact Hkey.
    + rewrite (keys_overwrite_same (fun x => Some (User.email x))).
      * unfold Store_ok in Hok. rewrite !andb_true_iff in Hok. decompose [and] Hok. assumption.
      * intros b Hb Hpb. rewrite Hem. f_equal. f_equal.
        assert (Hbin : In b (filter (pk_is (Some i)) (rows (users st))))
          by (apply filter_In; split; assumption).
        rewrite Hu in Hbin. destruct Hbin as [<- | []]. reflexivity.
  - cbn [set_table User_Model users rows]. apply (filter_overwrite _ _ u); assumption.
Qed.

(** Writing twice through the same key is writing the composition. *)
Lemma flag_write_twice (i : Z) (f g : User.t -> User.t) (l : list User.t) :
  (forall x, User.id (f x) = User.id x) ->
  map (fun b => if pk_is (Some i) b then g b else b)
      (map (fun b => if pk_is (Some i) b then f b else b) l)
  = map (fun b => if pk_is (Some i) b then g (f b) else b) l.
Proof.
  intros Hid. rewrite map_map. apply map_ext. intros b.
  destruct (pk_is (Some i) b) eqn:Hpb; [|rewrite Hpb; reflexivity].
  assert (Hfb : pk_is (Some i) (f b) = true).
  { unfold pk_is in *. cbn [pk User_Model] in *. rewrite Hid. exact Hpb. }
  rewrite Hfb. reflexivity.
Qed.

Lemma Table_ok_stored (st : Store) (u : User.t) (i : Z) :
  Store_ok st = true -> In u (rows (users st)) -> User.id u = Some i ->
  filter (pk_is (Some i)) (rows (users st)) = [u].
Proof.
  intros Hok Hin Hid. destruct (Store_ok_inv st Hok) as (Husers & _).
  pose proof (Table_ok_find (users st) u Husers Hin) as Hfind.
  cbn [pk User_Model] in Hfind. rewrite Hid in Hfind. exact Hfind.
Qed.

(** X5.  Accept on a stored user, in a consistent store, returns, sets
    [is_accepted] on the row of that key and changes nothing else in the
    store; the store stays consistent; accepting again changes nothing. *)
Theorem accept_stored_user (st : Store) (u : User.t) (i : Z) :
  Store_ok st = true ->
  In u (rows (users st)) ->
  User.id u = Some i ->
  let cd := UserActionForm.mk (Some i) in
  let st' := set_table
               (mkTable (map (fun b => if pk_is (Some i) b
                                       then User.set_is_accepted true b else b)
                             (rows (users st)))
                        (next_pk (users st))) st in
  UserActionForm.accept cd st = (Ok tt, st')
  /\ Store_ok st' = true
  /\ UserActionForm.accept cd st' = (Ok tt, st').
Proof.
  intros Hok Hin Hid cd st'.
  pose proof (Table_ok_stored st u i Hok Hin Hid) as Hu.
  destruct (flag_write_eq i (User.set_is_accepted true) u st Hok Hu)
    as (Hrun & Hok' & Hu'); [reflexivity | reflexivity |].
  fold st' in Hrun, Hok', Hu'.
  split; [exact Hrun | split; [exact Hok'|]].
  destruct (flag_write_eq i (User.set_is_accepted true) _ st' Hok' Hu')
    as (Hrun' & _ & _); [reflexivity | reflexivity |].
  change (UserActionForm.accept cd st') with
    ((user <- objects_get (pk_is (Some i)) ;;
      Model_save (User.set_is_accepted true user) ;;; ret tt) st').
  rewrite Hrun'. f_equal. subst st'.
  cbn [set_table User_Model users rows next_pk students teachers deptadmins
       department_students department_teachers].
  rewrite flag_write_twice by reflexivity. reflexivity.
Qed.

Lemma accept_stored_user_witness :
  UserActionForm.accept (UserActionForm.mk (Some 1)) Sample.campus
  = (Ok tt,
     set_table (mkTable [User.set_is_accepted true Sample.ann; Sample.bob] 3)
               Sample.campus).
Proof.
  apply (accept_stored_user Sample.campus Sample.ann 1);
    [reflexivity | simpl; left; reflexivity | reflexivity].
Defined.

Lemma set_table_users_eta (st : Store) :
  set_table (A:=User.t) (mkTable (rows (users st)) (next_pk (users st))) st = st.
Proof. destruct st as [[r n] ? ? ? ? ?]. reflexivity. Qed.

Lemma map_overwrite_fixed (i : Z) (f : User.t -> User.t) (l : list User.t) :
  (forall b, In b l -> pk_is (Some i) b = true -> f b = b) ->
  map (fun b => if pk_is (Some i) b then f b else b) l = l.
Proof.
  intros Hfix. rewrite (map_ext_in _ (fun b => b)), map_id; [reflexivity|].
  intros b Hb. destruct (pk_is (Some i) b) eqn:Hpb; [|reflexivity].
  exact (Hfix b Hb Hpb).
Qed.

(** X6.  Activate and Deactivate on a stored user, in a consistent store,
    return and set [is_active] on the row of that key, leaving every other
    field and row; the later of the two wins whatever came before; and on a
    user who is already active, Activate leaves the store exactly as it
    was, so Deactivate followed by Activate gives the store back. *)
Theorem activate_deactivate_stored_user (st : Store) (u : User.t) (i : Z) :
  Store_ok st = true ->
  In u (rows (users st)) ->
  User.id u = Some i ->
  let cd := UserActionForm.mk (Some i) in
  let set_to (flag : bool) :=
    set_table
      (mkTable (map (fun b => if pk_is (Some i) b
                              then User.set_is_active flag b else b)
                    (rows (users st)))
               (next_pk (users st))) st in
  UserActionForm.activate cd st = (Ok tt, set_to true)
  /\ UserActionForm.deactivate cd st = (Ok tt, set_to false)
  /\ UserActionForm.activate cd (set_to false) = (Ok tt, set_to true)
  /\ UserActionForm.deactivate cd (set_to true) = (Ok tt, set_to false)
  /\ (User.is_active u = true -> set_to true = st).
Proof.
  intros Hok Hin Hid cd set_to.
  pose proof (Table_ok_stored st u i Hok Hin Hid) as Hu.
  assert (Hwrite : forall flag,
             (user <- objects_get (pk_is (Some i)) ;;
              Model_save (User.set_is_active flag user) ;;; ret tt) st
             = (Ok tt, set_to flag)
             /\ forall flag',
                 (user <- objects_get (pk_is (Some i)) ;;
                  Model_save (User.set_is_active flag' user) ;;; ret tt) (set_to flag)
                 = (Ok tt, set_to flag')).
  { intros flag.
    destruct (flag_write_eq i (User.set_is_active flag) u st Hok Hu)
      as (Hrun & Hok' & Hu'); [reflexivity | reflexivity |].
    split; [exact Hrun|]. intros flag'.
    destruct (flag_write_eq i (User.set_is_active flag') _ _ Hok' Hu')
      as (Hrun' & _ & _); [reflexivity | reflexivity |].
    unfold set_to. rewrite Hrun'. f_equal.
    cbn [set_table User_Model users rows next_pk students teachers deptadmins
         department_students department_teachers].
    rewrite flag_write_twice by reflexivity. reflexivity. }
  split; [exact (proj1 (Hwrite true))|].
  split; [exact (proj1 (Hwrite false))|].
  split; [exact (proj2 (Hwrite false) true)|].
  split; [exact (proj2 (Hwrite true) false)|].
  intros Hactive. unfold set_to. rewrite map_overwrite_fixed; [apply set_table_users_eta|].
  intros b Hb Hpb.
  assert (Hbin : In b (filter (pk_is (Some i)) (rows (users st))))
    by (apply filter_In; split; assumption).
  rewrite Hu in Hbin. destruct Hbin as [<- | []].
  destruct u; cbn in *. subst. reflexivity.
Qed.

Lemma activate_deactivate_stored_user_witness :
  UserActionForm.deactivate (UserActionForm.mk (Some 2)) Sample.campus
  = (Ok tt,
     set_table (mkTable [Sample.ann; User.set_is_active false Sample.bob] 3)
               Sample.campus)
  /\ UserActionForm.activate (UserActionForm.mk (Some 2))
       (set_table (mkTable [Sample.ann; User.set_is_active false Sample.bob] 3)
                  Sample.campus)
     = (Ok tt, Sample.campus).
Proof.
  destruct (activate_deactivate_stored_user Sample.campus Sample.bob 2)
    as (_ & Hoff & Hon & _ & Hsame);
    [reflexivity | simpl; right; left; reflexivity | reflexivity |].
  split; [exact Hoff|]. rewrite <- (Hsame eq_refl) at 2. exact Hon.
Defined.

(** X7.  Acceptance and activity are independent: on a stored user, in a
    consistent store, Accept then Deactivate and Deactivate then Accept
    both return and leave the same store, in which the user is accepted
    and inactive. *)
Theorem accept_deactivate_commute (st : Store) (u : User.t) (i : Z) :
  Store_ok st = true ->
  In u (rows (users st)) ->
  User.id u = Some i ->
  let cd := UserActionForm.mk (Some i) in
  let st' := set_table
               (mkTable (map (fun b => if pk_is (Some i) b
                                       then User.set_is_active false
                                              (User.set_is_accepted true b)
                                       else b)
                             (rows (users st)))
                        (next_pk (users st))) st in
  UserActionForm.deactivate cd (snd (UserActionForm.accept cd st)) = (Ok tt, st')
  /\ UserActionForm.accept cd (snd (UserActionForm.deactivate cd st)) = (Ok tt, st').
Proof.
  intros Hok Hin Hid cd st'.
  pose proof (Table_ok_stored st u i Hok Hin Hid) as Hu.
  destruct (flag_write_eq i (User.set_is_accepted true) u st Hok Hu)
    as (Hacc & Hok1 & Hu1); [reflexivity | reflexivity |].
  destruct (flag_write_eq i (User.set_is_active false) u st Hok Hu)
    as (Hoff & Hok2 & Hu2); [reflexivity | reflexivity |].
  destruct (flag_write_eq i (User.set_is_active false) _ _ Hok1 Hu1)
    as (Hoff1 & _ & _); [reflexivity | reflexivity |].
  destruct (flag_write_eq i (User.set_is_accepted true) _ _ Hok2 Hu2)
    as (Hacc2 & _ & _); [reflexivity | reflexivity |].
  split.
  - change (UserActionForm.accept cd st) with
      ((user <- objects_get (pk_is (Some i)) ;;
        Model_save (User.set_is_accepted true user) ;;; ret tt) st).
    rewrite Hacc. cbn [snd].
    change (UserActionForm.deactivate cd) with
      (user <- objects_get (pk_is (Some i)) ;;
       Model_save (User.set_is_active false user) ;;; ret tt).
    rewrite Hoff1. f_equal. subst st'.
    cbn [set_table User_Model users rows next_pk students teachers deptadmins
         department_students department_teachers].
    rewrite flag_write_twice by reflexivity. reflexivity.
  - change (UserActionForm.deactivate cd st) with
      ((user <- objects_get (pk_is (Some i)) ;;
        Model_save (User.set_is_active false user) ;;; ret tt) st).
    rewrite Hoff. cbn [snd].
    change (UserActionForm.accept cd) with
      (user <- objects_get (pk_is (Some i)) ;;
       Model_save (User.set_is_accepted true user) ;;; ret tt).
    rewrite Hacc2. f_equal. subst st'.
    cbn [set_table User_Model users rows next_pk students teachers deptadmins
         department_students department_teachers].
    rewrite flag_write_twice by reflexivity. reflexivity.
Qed.

Lemma accept_deactivate_commute_witness :
  UserActionForm.deactivate (UserActionForm.mk (Some 1))
    (snd (UserActionForm.accept (UserActionForm.mk (Some 1)) Sample.campus))
  = UserActionForm.accept (UserActionForm.mk (Some 1))
      (snd (UserActionForm.deactivate (UserActionForm.mk (Some 1)) Sample.campus)).
Proof.
  destruct (accept_deactivate_commute Sample.campus Sample.ann 1) as [Hl Hr];
    [reflexivity | simpl; left; reflexivity | reflexivity |].
  rewrite Hl, Hr. reflexivity.
Defined.

(** What [QuerySet.delete()] leaves of the user table: the rows the
    selection does not match, in order. *)
Lemma delete_users_eq (i : option Z) (st : Store) :
  fst (User_objects_delete (pk_is i) st) = Ok tt
  /\ users (snd (User_objects_delete (pk_is i) st))
     = mkTable (filter (fun u => negb (pk_is i u)) (rows (users st)))
               (next_pk (users st)).
Proof.
  unfold User_objects_delete, bind, objects_filter, remove_rows.
  cbn [table set_table User_Model Student_Model Teacher_Model Deptadmin_Model
       DepartmentStudents_Model DepartmentTeachers_Model users students teachers
       deptadmins department_students department_teachers rows next_pk fst snd].
  split; [reflexivity|]. f_equal.
  apply filter_ext_in. intros u Hu. f_equal.
  destruct (User.id u) as [j|] eqn:Hj.
  - destruct (pk_is i u) eqn:Hpu.
    + apply (existsb_in _ _ u).
      * apply filter_In. split; assumption.
      * unfold owned_by. rewrite Hj. simpl. apply Z.eqb_refl.
    + destruct (existsb _ _) eqn:Hex; [|reflexivity]. exfalso.
      apply existsb_exists in Hex. destruct Hex as (d & Hd & Hown).
      apply filter_In in Hd. destruct Hd as [_ Hpd].
      apply pk_is_true in Hpd. cbn [pk User_Model] in Hpd.
      unfold owned_by in Hown. rewrite Hpd in Hown.
      destruct i as [x|]; [|discriminate]. simpl in Hown. apply Z.eqb_eq in Hown.
      subst x. unfold pk_is in Hpu. cbn [pk User_Model] in Hpu. rewrite Hj in Hpu.
      rewrite Z.eqb_refl in Hpu. discriminate.
  - unfold pk_is. cbn [pk User_Model]. rewrite Hj. destruct i; reflexivity.
Qed.

(** A delete that selects nothing is a no-op on the whole store. *)
Lemma delete_selects_nothing (i : option Z) (st : Store) :
  filter (pk_is i) (rows (users st)) = [] ->
  User_objects_delete (pk_is i) st = (Ok tt, st).
Proof.
  intros Hnone. unfold User_objects_delete, bind, objects_filter.
  simpl in *. rewrite Hnone. unfold remove_rows. simpl.
  rewrite !filter_all
    by (intros a _; try destruct (User.id a); reflexivity).
  rewrite !Table_eta, Store_eta. reflexivity.
Qed.

Lemma filter_negb_none {A : Type} (p : A -> bool) (l : list A) :
  filter p (filter (fun a => negb (p a)) l) = [].
Proof.
  induction l as [|x l IH]; [reflexivity|]. cbn [filter].
  destruct (p x) eqn:Hpx; cbn [negb filter]; [exact IH|].
  rewrite Hpx. exact IH.
Qed.

(** X8.  Delete always returns; it removes from the user table exactly
    the rows of the submitted key and keeps the others in order; deleting
    again is a no-op on the whole store; and Accept, Activate and
    Deactivate on the deleted key then raise [User.DoesNotExist] without
    writing. *)
Theorem delete_then (cd : UserActionForm.cleaned_data) (st : Store) :
  let i := UserActionForm.user_id cd in
  let st' := snd (UserActionForm.delete cd st) in
  fst (UserActionForm.delete cd st) = Ok tt
  /\ users st' = mkTable (filter (fun u => negb (pk_is i u)) (rows (users st)))
                         (next_pk (users st))
  /\ UserActionForm.delete cd st' = (Ok tt, st')
  /\ UserActionForm.accept cd st' = (Raise (DoesNotExist "User"), st')
  /\ UserActionForm.activate cd st' = (Raise (DoesNotExist "User"), st')
  /\ UserActionForm.deactivate cd st' = (Raise (DoesNotExist "User"), st').
Proof.
  intros i st'. unfold UserActionForm.delete in *. cbv zeta in *. fold i in st' |- *.
  destruct (delete_users_eq i st) as [Hret Husers]. fold st' in Husers.
  assert (Hnone : filter (pk_is i) (rows (users st')) = []).
  { rewrite Husers. cbn [rows]. apply filter_negb_none. }
  assert (Hget : objects_get (A:=User.t) (pk_is i) st' = (Raise (DoesNotExist "User"), st'))
    by exact (objects_get_none (A:=User.t) _ st' Hnone).
  split; [exact Hret|]. split; [exact Husers|].
  split; [exact (delete_selects_nothing i st' Hnone)|].
  unfold UserActionForm.accept, UserActionForm.activate, UserActionForm.deactivate.
  cbv zeta. fold i.
  repeat split; apply bind_raise; exact Hget.
Qed.

(** ** Teacher and deptadmin forms *)

(** The store a valid teacher signup leaves, row by row. *)
Lemma TeacherSignupForm_save_eq `{Env}
      (d : TeacherSignupForm.valid_data) (st : Store) :
  Store_ok st = true ->
  TeacherSignupForm.is_valid d st = true ->
  TeacherSignupForm.save d st
  = (Ok (User.mk (Some (next_pk (users st))) (TeacherSignupForm.email d)
                 (make_password (TeacherSignupForm.password1 d))
                 false true false false false default_is_active),
     mkStore
       (mkTable (rows (users st)
                 ++ [User.mk (Some (next_pk (users st))) (TeacherSignupForm.email d)
                             (make_password (TeacherSignupForm.password1 d))
                             false true false false false default_is_active])
                (next_pk (users st) + 1))
       (students st)
       (mkTable (rows (teachers st)
                 ++ [Teacher.mk (Some (next_pk (teachers st))) (next_pk (users st))
                                (Some (TeacherSignupForm.first_name d))
                                (Some (TeacherSignupForm.last_name d))
                                (Some (TeacherSignupForm.rank d))])
                (next_pk (teachers st) + 1))
       (deptadmins st) (department_students st)
       (mkTable (rows (department_teachers st)
                 ++ [DepartmentTeachers.mk (Some (next_pk (department_teachers st)))
                                           (TeacherSignupForm.department d)
                                           (next_pk (users st))])
                (next_pk (department_teachers st) + 1))).
Proof.
  intros Hok Hvalid.
  unfold TeacherSignupForm.is_valid in Hvalid.
  destruct (Store_ok_inv st Hok) as (_ & _ & Hteachers & _).
  unfold TeacherSignupForm.save. apply atomic_commit. cbv zeta.
  erewrite bind_ok;
    [| apply Model_save_insert; [reflexivity | apply new_user_unique_ok; exact Hvalid]].
  cbn [table set_table with_pk pk User_Model].
  erewrite bind_ok by reflexivity.
  unfold objects_create.
  erewrite bind_ok;
    [| apply Model_save_insert;
       [reflexivity | apply unique_ok_intro; intros b _; right; reflexivity]].
  cbn [table set_table with_pk pk Teacher_Model students users teachers deptadmins
       department_students department_teachers rows next_pk Teacher.with_id
       Teacher.id Teacher.user].
  assert (Hold : forall b, In b (rows (teachers st)) ->
                 pk_is (Some (next_pk (teachers st))) b = false).
  { intros b Hb. apply (Table_ok_fresh (teachers st)); assumption. }
  erewrite bind_ok; cycle 1.
  { apply (Model_save_update _ _ (next_pk (teachers st))); [reflexivity | | ];
      cbn [table set_table Teacher_Model teachers rows].
    - apply unique_ok_intro. intros b _. right. reflexivity.
    - rewrite existsb_app. apply orb_true_iff. right.
      cbn [existsb]. rewrite (pk_is_refl (A:=Teacher.t)) by reflexivity. reflexivity. }
  cbn [table set_table Teacher_Model students users teachers deptadmins
       department_students department_teachers rows next_pk].
  rewrite map_app, (map_overwrite_other (A:=Teacher.t)) by exact Hold.
  cbn [map]. rewrite (pk_is_refl (A:=Teacher.t)) by reflexivity.
  erewrite bind_ok;
    [| apply Model_save_insert;
       [reflexivity | apply unique_ok_intro; intros b _; right; reflexivity]].
  reflexivity.
Qed.


(** X9.  A valid teacher signup, in a consistent store, appends exactly one
    user row with [is_teacher] set and [is_accepted] false, one teacher row
    owned by that user with the submitted names and rank, and one
    [DepartmentTeachers] row pointing at the submitted department; the
    other tables are as before and the created user is returned.  If the
    save raises, the store is the one it started from. *)
Theorem teacher_signup_creates `{Env}
  (d : TeacherSignupForm.valid_data) (st : Store) :
  (forall e, fst (TeacherSignupForm.save d st) = Raise e ->
             snd (TeacherSignupForm.save d st) = st)
  /\ (Store_ok st = true ->
      TeacherSignupForm.is_valid d st = true ->
      let uid := next_pk (users st) in
      let user :=
        User.mk (Some uid) (TeacherSignupForm.email d)
                (make_password (TeacherSignupForm.password1 d))
                false true false false false default_is_active in
      let teacher :=
        Teacher.mk (Some (next_pk (teachers st))) uid
                   (Some (TeacherSignupForm.first_name d))
                   (Some (TeacherSignupForm.last_name d))
                   (Some (TeacherSignupForm.rank d)) in
      let membership :=
        DepartmentTeachers.mk (Some (next_pk (department_teachers st)))
                              (TeacherSignupForm.department d) uid in
      TeacherSignupForm.save d st
      = (Ok user,
         mkStore (mkTable (rows (users st) ++ [user]) (uid + 1))
                 (students st)
                 (mkTable (rows (teachers st) ++ [teacher])
                          (next_pk (teachers st) + 1))
                 (deptadmins st) (department_students st)
                 (mkTable (rows (department_teachers st) ++ [membership])
                          (next_pk (department_teachers st) + 1)))).
Proof.
  split; [intros e; apply atomic_rollback|].
  intros Hok Hvalid uid user teacher membership.
  exact (TeacherSignupForm_save_eq d st Hok Hvalid).
Qed.

Lemma teacher_signup_creates_witness :
  @TeacherSignupForm.save Sample.env
    (TeacherSignupForm.mk (F:=present) 20 "eve@uni.example" "Eve" "Moss" "Lecturer"
       "pw12345678" "pw12345678")
    Sample.campus
  = (Ok (User.mk (Some 3) "eve@uni.example" "hash$pw12345678"
                 false true false false false true),
     mkStore (mkTable [Sample.ann; Sample.bob;
                       User.mk (Some 3) "eve@uni.example" "hash$pw12345678"
                               false true false false false true] 4)
             (students Sample.campus)
             (mkTable [Teacher.mk (Some 1) 3 (Some "Eve") (Some "Moss")
                                  (Some "Lecturer")] 2)
             (deptadmins Sample.campus) (department_students Sample.campus)
             (mkTable [DepartmentTeachers.mk (Some 1) 20 3] 2)).
Proof.
  apply (proj2 (@teacher_signup_creates Sample.env
                  (TeacherSignupForm.mk (F:=present) 20 "eve@uni.example" "Eve" "Moss"
                     "Lecturer" "pw12345678" "pw12345678")
                  Sample.campus)); reflexivity.
Defined.

(** ** Steps of an update *)

Lemma get_step {A B : Type} `{Model A} (p : A -> bool) (k : A -> M B)
      (st : Store) (a : A) :
  filter p (rows (table st)) = [a] ->
  bind (objects_get p) k st = k a st.
Proof. intros Hf. apply bind_ok. apply objects_get_one. exact Hf. Qed.

Lemma get_step_none {A B : Type} `{Model A} (p : A -> bool) (k : A -> M B)
      (st : Store) :
  filter p (rows (table st)) = [] ->
  bind (objects_get p) k st = (Raise (DoesNotExist model_name), st).
Proof. intros Hf. apply bind_raise. apply objects_get_none. exact Hf. Qed.

(** Saving a modified copy of a stored row of a keyed table overwrites that
    row in place, provided the copy breaks no uniqueness constraint. *)
Lemma Model_save_overwrite {A : Type} `{Model A} (a v : A) (st : Store) :
  Table_ok (table st) = true ->
  In a (rows (table st)) ->
  pk v = pk a ->
  unique_ok (rows (table st)) v = true ->
  Model_save v st
  = (Ok v,
     set_table (mkTable (map (fun b => if pk_is (pk a) b then v else b)
                             (rows (table st)))
                        (next_pk (table st))) st).
Proof.
  intros Hok Hin Hpk Hu.
  destruct (Table_ok_pk (table st) a Hok Hin) as (i & Hi & _).
  rewrite Hi. apply Model_save_update; [congruence | exact Hu |].
  apply (existsb_in _ _ a Hin). apply pk_is_refl. exact Hi.
Qed.

(** A passing email check frees the submitted email for the user. *)
Lemma email_check_passes (st : Store) (e : string) (U : Z) :
  Store_ok st = true ->
  match filter (fun u => opt_eqb String.eqb (Some (User.email u)) (Some e))
               (rows (users st)) with
  | [] => false
  | first :: _ => negb (opt_eqb Z.eqb (User.id first) (Some U))
  end = false ->
  forall b, In b (rows (users st)) -> User.email b = e -> User.id b = Some U.
Proof.
  intros Hok Hpass b Hb Hem.
  destruct (email_check st (Some e) (Some U) Hok) as [Hyes _].
  destruct (opt_eqb Z.eqb (User.id b) (Some U)) eqn:Heq.
  - apply (opt_eqb_spec Z.eqb _ _ Z_eqb_spec_iff). exact Heq.
  - exfalso. cbv zeta in Hyes. rewrite Hyes in Hpass; [discriminate|].
    exists b. repeat split; [exact Hb | rewrite Hem; reflexivity |].
    intros Hid. rewrite Hid in Heq.
    rewrite (proj2 (opt_eqb_spec Z.eqb _ _ Z_eqb_spec_iff) eq_refl) in Heq. discriminate.
Qed.

(** The first two steps of every update form: the user row is found and
    its email overwritten. *)
Lemma user_email_step (st : Store) (U : Z) (e : string) (u : User.t) :
  Store_ok st = true ->
  filter (pk_is (Some U)) (rows (users st)) = [u] ->
  (forall b, In b (rows (users st)) -> User.email b = e -> User.id b = Some U) ->
  Model_save (User.set_email e u) st
  = (Ok (User.set_email e u),
     set_table (mkTable (map (fun b => if pk_is (Some U) b then User.set_email e u else b)
                             (rows (users st)))
                        (next_pk (users st))) st).
Proof.
  intros Hok Hu Hfree.
  destruct (filter_one_in _ _ _ Hu) as [Hin Hpk].
  pose proof (pk_is_true _ _ Hpk) as Hkey. cbn [pk User_Model] in Hkey.
  pose proof (Model_save_update (A:=User.t) (User.set_email e u) st U) as Hs.
  cbn [table User_Model] in Hs. apply Hs; clear Hs.
  - exact Hkey.
  - apply unique_ok_intro. intros b Hb. cbn [conflicts User_Model User.set_email User.email pk User.id].
    destruct (String.eqb_spec e (User.email b)) as [Heq|Hne]; [left | right; reflexivity].
    rewrite Hkey. apply pk_is_refl. apply (Hfree b Hb). symmetry. exact Heq.
  - exact (existsb_in _ _ u Hin Hpk).
Qed.

Lemma TeacherUpdateForm_valid_email (d : TeacherUpdateForm.valid_data) (st : Store) :
  Store_ok st = true ->
  TeacherUpdateForm.is_valid d st = true ->
  forall b, In b (rows (users st)) ->
            User.email b = TeacherUpdateForm.email d ->
            User.id b = Some (TeacherUpdateForm.user_id d).
Proof.
  intros Hok Hvalid. apply (email_check_passes st _ _ Hok).
  unfold TeacherUpdateForm.is_valid, passes, TeacherUpdateForm.clean, bind,
    objects_filter, raise_if in Hvalid.
  cbn [table User_Model TeacherUpdateForm.as_cleaned TeacherUpdateForm.email
       TeacherUpdateForm.user_id] in Hvalid.
  destruct (match filter _ (rows (users st)) with [] => false | _ :: _ => _ end);
    [discriminate | reflexivity].
Qed.

Lemma DeptadminUpdateForm_valid_email (d : DeptadminUpdateForm.valid_data) (st : Store) :
  Store_ok st = true ->
  DeptadminUpdateForm.is_valid d st = true ->
  forall b, In b (rows (users st)) ->
            User.email b = DeptadminUpdateForm.email d ->
            User.id b = Some (DeptadminUpdateForm.user_id d).
Proof.
  intros Hok Hvalid. apply (email_check_passes st _ _ Hok).
  unfold DeptadminUpdateForm.is_valid, passes, DeptadminUpdateForm.clean, bind,
    objects_filter, raise_if in Hvalid.
  cbn [table User_Model DeptadminUpdateForm.as_cleaned DeptadminUpdateForm.email
       DeptadminUpdateForm.user_id] in Hvalid.
  destruct (match filter _ (rows (users st)) with [] => false | _ :: _ => _ end);
    [discriminate | reflexivity].
Qed.

Lemma TeacherUpdateForm_save_cases (d : TeacherUpdateForm.valid_data) (st : Store) :
  Store_ok st = true ->
  TeacherUpdateForm.is_valid d st = true ->
  let U := TeacherUpdateForm.user_id d in
  let found_user := filter (pk_is (Some U)) (rows (users st)) in
  let found_teacher := filter (fun x => Teacher.user x =? U) (rows (teachers st)) in
  let found_member :=
    filter (fun x => DepartmentTeachers.user_id x =? U)
           (rows (department_teachers st)) in
  (found_user = [] ->
   TeacherUpdateForm.save d st = (Raise (DoesNotExist "User"), st))
  /\ (forall u, found_user = [u] -> found_teacher = [] ->
      TeacherUpdateForm.save d st = (Raise (DoesNotExist "Teacher"), st))
  /\ (forall u t, found_user = [u] -> found_teacher = [t] -> found_member = [] ->
      TeacherUpdateForm.save d st
      = (Raise (DoesNotExist "DepartmentTeachers"), st))
  /\ (forall u t m,
         found_user = [u] -> found_teacher = [t] -> found_member = [m] ->
         let user := User.set_email (TeacherUpdateForm.email d) u in
         let teacher :=
           Teacher.mk (Teacher.id t) (Teacher.user t)
                      (Some (TeacherUpdateForm.first_name d))
                      (Some (TeacherUpdateForm.last_name d))
                      (Some (TeacherUpdateForm.rank d)) in
         let dept :=
           DepartmentTeachers.mk (DepartmentTeachers.id m)
                                 (TeacherUpdateForm.department d)
                                 (DepartmentTeachers.user_id m) in
         TeacherUpdateForm.save d st
         = (Ok user,
            mkStore
              (mkTable (map (fun b => if pk_is (Some U) b then user else b)
                            (rows (users st)))
                       (next_pk (users st)))
              (students st)
              (mkTable (map (fun b => if pk_is (Teacher.id t) b then teacher else b)
                            (rows (teachers st)))
                       (next_pk (teachers st)))
              (deptadmins st) (department_students st)
              (mkTable (map (fun b => if pk_is (DepartmentTeachers.id m) b
                                      then dept else b)
                            (rows (department_teachers st)))
                       (next_pk (department_teachers st))))).
Proof.
  intros Hok Hvalid U found_user found_teacher found_member.
  destruct (Store_ok_inv st Hok) as (_ & _ & Hteachers & _ & _ & Hmembers & _).
  pose proof (TeacherUpdateForm_valid_email d st Hok Hvalid) as Hfree.
  fold U in Hfree. subst found_user found_teacher found_member.
  unfold TeacherUpdateForm.save.
  split; [intros Hu; eapply atomic_raise;
          exact (get_step_none (H:=User_Model) (pk_is (Some U)) _ st Hu)|].
  assert (Hprefix : forall u, filter (pk_is (Some U)) (rows (users st)) = [u] ->
            let user := User.set_email (TeacherUpdateForm.email d) u in
            exists st1,
              Model_save user st = (Ok user, st1)
              /\ users st1 = mkTable (map (fun b => if pk_is (Some U) b then user else b)
                                          (rows (users st))) (next_pk (users st))
              /\ students st1 = students st /\ teachers st1 = teachers st
              /\ deptadmins st1 = deptadmins st
              /\ department_students st1 = department_students st
              /\ department_teachers st1 = department_teachers st
              /\ filter (fun s => owned_by user (Teacher.user s)) (rows (teachers st))
                 = filter (fun x => Teacher.user x =? U) (rows (teachers st))
              /\ filter (fun s => owned_by user (DepartmentTeachers.user_id s))
                        (rows (department_teachers st))
                 = filter (fun x => DepartmentTeachers.user_id x =? U)
                          (rows (department_teachers st))).
  { intros u Hu user. eexists. split; [exact (user_email_step st U _ u Hok Hu Hfree)|].
    destruct (filter_one_in _ _ _ Hu) as [_ Hpk]. apply pk_is_true in Hpk.
    cbn [pk User_Model] in Hpk.
    repeat split; apply filter_ext; intros x; apply owned_by_eqb; exact Hpk. }
  split; [|split].
  - intros u Hu Ht. destruct (Hprefix u Hu) as (st1 & Hsave & _ & _ & Hts & _ & _ & _ & Hft & _).
    eapply atomic_raise. rewrite (get_step (H:=User_Model) (pk_is (Some U)) _ st u Hu). cbv zeta.
    erewrite bind_ok by exact Hsave.
    apply (get_step_none (H:=Teacher_Model)). cbn [table Teacher_Model].
    rewrite Hts, Hft. exact Ht.
  - intros u t Hu Ht Hm.
    destruct (Hprefix u Hu) as (st1 & Hsave & _ & _ & Hts & _ & _ & Hms & Hft & Hfm).
    eapply atomic_raise. rewrite (get_step (H:=User_Model) (pk_is (Some U)) _ st u Hu). cbv zeta.
    erewrite bind_ok by exact Hsave.
    rewrite (get_step (H:=Teacher_Model) _ _ st1 t)
      by (cbn [table Teacher_Model]; rewrite Hts, Hft; exact Ht).
    destruct (filter_one_in _ _ _ Ht) as [Htin _].
    erewrite bind_ok; cycle 1.
    { apply (Model_save_overwrite (H:=Teacher_Model) t); cbn [table Teacher_Model];
        rewrite ?Hts; [exact Hteachers | exact Htin | reflexivity |].
      apply unique_ok_intro. intros b _. right. reflexivity. }
    refine (get_step_none (H:=DepartmentTeachers_Model) _ _ _ _).
    cbn [table set_table DepartmentTeachers_Model Teacher_Model department_teachers].
    rewrite Hms, Hfm. exact Hm.
  - intros u t m Hu Ht Hm.
    destruct (Hprefix u Hu) as (st1 & Hsave & Hus & Hss & Hts & Hds & Hdss & Hms & Hft & Hfm).
    apply atomic_commit. rewrite (get_step (H:=User_Model) (pk_is (Some U)) _ st u Hu). cbv zeta.
    erewrite bind_ok by exact Hsave.
    rewrite (get_step (H:=Teacher_Model) _ _ st1 t)
      by (cbn [table Teacher_Model]; rewrite Hts, Hft; exact Ht).
    destruct (filter_one_in _ _ _ Ht) as [Htin _].
    destruct (filter_one_in _ _ _ Hm) as [Hmin _].
    erewrite bind_ok; cycle 1.
    { apply (Model_save_overwrite (H:=Teacher_Model) t); cbn [table Teacher_Model];
        rewrite ?Hts; [exact Hteachers | exact Htin | reflexivity |].
      apply unique_ok_intro. intros b _. right. reflexivity. }
    rewrite (get_step (H:=DepartmentTeachers_Model) _ _ _ m)
      by (cbn [table set_table DepartmentTeachers_Model Teacher_Model department_teachers];
          rewrite Hms, Hfm; exact Hm).
    erewrite bind_ok; cycle 1.
    { apply (Model_save_overwrite (H:=DepartmentTeachers_Model) m);
        cbn [table set_table DepartmentTeachers_Model Teacher_Model department_teachers];
        rewrite ?Hms; [exact Hmembers | exact Hmin | reflexivity |].
      apply unique_ok_intro. intros b _. right. reflexivity. }
    cbv [ret]. f_equal.
    cbn [table set_table DepartmentTeachers_Model Teacher_Model users students teachers
         deptadmins department_students department_teachers pk].
    rewrite Hus, Hss, Hts, Hds, Hdss, Hms. reflexivity.
Qed.

(** X10.  After a passing [clean], in a consistent store,
    [TeacherUpdateForm.save] looks up the user, the teacher profile and the
    membership row of the submitted [user_id] in that order: the first one
    missing makes it raise that model's [DoesNotExist] and leave the store
    as it was; with all three there it returns the user with the new email
    and has overwritten those three rows in place, every other row and
    table untouched.  In such a store each lookup finds no row or exactly
    one, so these cases are all there are. *)
Theorem teacher_update_save (d : TeacherUpdateForm.valid_data) (st : Store) :
  Store_ok st = true ->
  TeacherUpdateForm.is_valid d st = true ->
  let U := TeacherUpdateForm.user_id d in
  let found_user := filter (pk_is (Some U)) (rows (users st)) in
  let found_teacher := filter (fun x => Teacher.user x =? U) (rows (teachers st)) in
  let found_member :=
    filter (fun x => DepartmentTeachers.user_id x =? U)
           (rows (department_teachers st)) in
  (found_user = [] ->
   TeacherUpdateForm.save d st = (Raise (DoesNotExist "User"), st))
  /\ (forall u, found_user = [u] -> found_teacher = [] ->
      TeacherUpdateForm.save d st = (Raise (DoesNotExist "Teacher"), st))
  /\ (forall u t, found_user = [u] -> found_teacher = [t] -> found_member = [] ->
      TeacherUpdateForm.save d st
      = (Raise (DoesNotExist "DepartmentTeachers"), st))
  /\ (forall u t m,
         found_user = [u] -> found_teacher = [t] -> found_member = [m] ->
         let user := User.set_email (TeacherUpdateForm.email d) u in
         let teacher :=
           Teacher.mk (Teacher.id t) (Teacher.user t)
                      (Some (TeacherUpdateForm.first_name d))
                      (Some (TeacherUpdateForm.last_name d))
                      (Some (TeacherUpdateForm.rank d)) in
         let dept :=
           DepartmentTeachers.mk (DepartmentTeachers.id m)
                                 (TeacherUpdateForm.department d)
                                 (DepartmentTeachers.user_id m) in
         TeacherUpdateForm.save d st
         = (Ok user,
            mkStore
              (mkTable (map (fun b => if pk_is (Some U) b then user else b)
                            (rows (users st)))
                       (next_pk (users st)))
              (students st)
              (mkTable (map (fun b => if pk_is (Teacher.id t) b then teacher else b)
                            (rows (teachers st)))
                       (next_pk (teachers st)))
              (deptadmins st) (department_students st)
              (mkTable (map (fun b => if pk_is (DepartmentTeachers.id m) b
                                      then dept else b)
                            (rows (department_teachers st)))
                       (next_pk (department_teachers st)))))
  /\ ((found_user = [] \/ exists u, found_user = [u])
      /\ (found_teacher = [] \/ exists t, found_teacher = [t])
      /\ (found_member = [] \/ exists m, found_member = [m])).
Proof.
  intros Hok Hvalid U found_user found_teacher found_member.
  destruct (TeacherUpdateForm_save_cases d st Hok Hvalid) as (Hu & Ht & Hm & Hall).
  repeat split; try assumption.
  - destruct (Store_ok_inv st Hok) as (Husers & _).
    exact (Table_ok_get (users st) (Some U) Husers).
  - destruct (Store_ok_inv st Hok) as (_ & _ & _ & _ & _ & _ & _ & Hd & _).
    apply (distinct_filter Z.eqb (fun s => Some (Teacher.user s)) _ _ U Z.eqb_refl Hd).
    intros a Ha. apply Z.eqb_eq in Ha. rewrite Ha. reflexivity.
  - destruct (Store_ok_inv st Hok) as (_ & _ & _ & _ & _ & _ & _ & _ & _ & _ & Hd).
    apply (distinct_filter Z.eqb (fun s => Some (DepartmentTeachers.user_id s)) _ _ U
                           Z.eqb_refl Hd).
    intros a Ha. apply Z.eqb_eq in Ha. rewrite Ha. reflexivity.
Qed.


Lemma teacher_update_save_witness :
  TeacherUpdateForm.save
    (TeacherUpdateForm.mk (F:=present) 3 10 "Eve" "Moss-Lee" "Professor"
       "eve@campus.example")
    SampleStaff.faculty
  = (Ok (User.set_email "eve@campus.example" SampleStaff.eve),
     mkStore (mkTable [Sample.ann; Sample.bob;
                       User.set_email "eve@campus.example" SampleStaff.eve;
                       SampleStaff.dan] 5)
             (students SampleStaff.faculty)
             (mkTable [Teacher.mk (Some 1) 3 (Some "Eve") (Some "Moss-Lee")
                                  (Some "Professor")] 2)
             (deptadmins SampleStaff.faculty)
             (department_students SampleStaff.faculty)
             (mkTable [DepartmentTeachers.mk (Some 1) 10 3] 2)).
Proof.
  destruct (teacher_update_save
              (TeacherUpdateForm.mk (F:=present) 3 10 "Eve" "Moss-Lee" "Professor"
                 "eve@campus.example")
              SampleStaff.faculty) as (_ & _ & _ & Hsave & _);
    [reflexivity | reflexivity |].
  apply (Hsave SampleStaff.eve SampleStaff.eve_profile
               (DepartmentTeachers.mk (Some 1) 20 3)); reflexivity.
Defined.

Lemma DeptadminUpdateForm_save_cases (d : DeptadminUpdateForm.valid_data) (st : Store) :
  Store_ok st = true ->
  DeptadminUpdateForm.is_valid d st = true ->
  let U := DeptadminUpdateForm.user_id d in
  let found_user := filter (pk_is (Some U)) (rows (users st)) in
  let found_admin := filter (fun x => Deptadmin.user x =? U) (rows (deptadmins st)) in
  (found_user = [] ->
   DeptadminUpdateForm.save d st = (Raise (DoesNotExist "User"), st))
  /\ (forall u, found_user = [u] -> found_admin = [] ->
      DeptadminUpdateForm.save d st = (Raise (DoesNotExist "Deptadmin"), st))
  /\ (forall u a,
         found_user = [u] -> found_admin = [a] ->
         let user := User.set_email (DeptadminUpdateForm.email d) u in
         let deptadmin :=
           Deptadmin.mk (Deptadmin.id a) (Deptadmin.user a)
                        (DeptadminUpdateForm.department d) in
         DeptadminUpdateForm.save d st
         = (Ok user,
            mkStore
              (mkTable (map (fun b => if pk_is (Some U) b then user else b)
                            (rows (users st)))
                       (next_pk (users st)))
              (students st) (teachers st)
              (mkTable (map (fun b => if pk_is (Deptadmin.id a) b then deptadmin else b)
                            (rows (deptadmins st)))
                       (next_pk (deptadmins st)))
              (department_students st) (department_teachers st))).
Proof.
  intros Hok Hvalid U found_user found_admin.
  destruct (Store_ok_inv st Hok) as (_ & _ & _ & Hadmins & _).
  pose proof (DeptadminUpdateForm_valid_email d st Hok Hvalid) as Hfree.
  fold U in Hfree. subst found_user found_admin.
  unfold DeptadminUpdateForm.save.
  split; [intros Hu; eapply atomic_raise;
          exact (get_step_none (H:=User_Model) (pk_is (Some U)) _ st Hu)|].
  assert (Hprefix : forall u, filter (pk_is (Some U)) (rows (users st)) = [u] ->
            let user := User.set_email (DeptadminUpdateForm.email d) u in
            exists st1,
              Model_save user st = (Ok user, st1)
              /\ users st1 = mkTable (map (fun b => if pk_is (Some U) b then user else b)
                                          (rows (users st))) (next_pk (users st))
              /\ students st1 = students st /\ teachers st1 = teachers st
              /\ deptadmins st1 = deptadmins st
              /\ department_students st1 = department_students st
              /\ department_teachers st1 = department_teachers st
              /\ filter (fun s => owned_by user (Deptadmin.user s)) (rows (deptadmins st))
                 = filter (fun x => Deptadmin.user x =? U) (rows (deptadmins st))).
  { intros u Hu user. eexists. split; [exact (user_email_step st U _ u Hok Hu Hfree)|].
    destruct (filter_one_in _ _ _ Hu) as [_ Hpk]. apply pk_is_true in Hpk.
    cbn [pk User_Model] in Hpk.
    repeat split; apply filter_ext; intros x; apply owned_by_eqb; exact Hpk. }
  split.
  - intros u Hu Ha. destruct (Hprefix u Hu) as (st1 & Hsave & _ & _ & _ & Has & _ & _ & Hfa).
    eapply atomic_raise. rewrite (get_step (H:=User_Model) (pk_is (Some U)) _ st u Hu).
    cbv zeta. erewrite bind_ok by exact Hsave.
    refine (get_step_none (H:=Deptadmin_Model) _ _ _ _). cbn [table Deptadmin_Model].
    rewrite Has, Hfa. exact Ha.
  - intros u a Hu Ha.
    destruct (Hprefix u Hu) as (st1 & Hsave & Hus & Hss & Hts & Has & Hdss & Hms & Hfa).
    apply atomic_commit. rewrite (get_step (H:=User_Model) (pk_is (Some U)) _ st u Hu).
    cbv zeta. erewrite bind_ok by exact Hsave.
    rewrite (get_step (H:=Deptadmin_Model) _ _ st1 a)
      by (cbn [table Deptadmin_Model]; rewrite Has, Hfa; exact Ha).
    destruct (filter_one_in _ _ _ Ha) as [Hain _].
    erewrite bind_ok; cycle 1.
    { apply (Model_save_overwrite (H:=Deptadmin_Model) a); cbn [table Deptadmin_Model];
        rewrite ?Has; [exact Hadmins | exact Hain | reflexivity |].
      apply unique_ok_intro. intros b _. right. reflexivity. }
    cbv [ret]. f_equal.
    cbn [table set_table Deptadmin_Model users students teachers
         deptadmins department_students department_teachers pk].
    rewrite Hus, Hss, Hts, Has, Hdss, Hms. reflexivity.
Qed.

(** X11.  After a passing [clean], in a consistent store,
    [DeptadminUpdateForm.save] raises [User.DoesNotExist] or
    [Deptadmin.DoesNotExist] and leaves the store as it was when the user
    or the deptadmin row of the submitted [user_id] is missing; otherwise
    it returns the user with the new email, having overwritten the user row
    and the department held by the deptadmin row and nothing else: no
    membership table is read or written.  In such a store each lookup
    finds no row or exactly one, so these cases are all there are. *)
Theorem deptadmin_update_save (d : DeptadminUpdateForm.valid_data) (st : Store) :
  Store_ok st = true ->
  DeptadminUpdateForm.is_valid d st = true ->
  let U := DeptadminUpdateForm.user_id d in
  let found_user := filter (pk_is (Some U)) (rows (users st)) in
  let found_admin := filter (fun x => Deptadmin.user x =? U) (rows (deptadmins st)) in
  (found_user = [] ->
   DeptadminUpdateForm.save d st = (Raise (DoesNotExist "User"), st))
  /\ (forall u, found_user = [u] -> found_admin = [] ->
      DeptadminUpdateForm.save d st = (Raise (DoesNotExist "Deptadmin"), st))
  /\ (forall u a,
         found_user = [u] -> found_admin = [a] ->
         let user := User.set_email (DeptadminUpdateForm.email d) u in
         let deptadmin :=
           Deptadmin.mk (Deptadmin.id a) (Deptadmin.user a)
                        (DeptadminUpdateForm.department d) in
         DeptadminUpdateForm.save d st
         = (Ok user,
            mkStore
              (mkTable (map (fun b => if pk_is (Some U) b then user else b)
                            (rows (users st)))
                       (next_pk (users st)))
              (students st) (teachers st)
              (mkTable (map (fun b => if pk_is (Deptadmin.id a) b then deptadmin else b)
                            (rows (deptadmins st)))
                       (next_pk (deptadmins st)))
              (department_students st) (department_teachers st)))
  /\ ((found_user = [] \/ exists u, found_user = [u])
      /\ (found_admin = [] \/ exists a, found_admin = [a])).
Proof.
  intros Hok Hvalid U found_user found_admin.
  destruct (DeptadminUpdateForm_save_cases d st Hok Hvalid) as (Hu & Ha & Hall).
  repeat split; try assumption.
  - destruct (Store_ok_inv st Hok) as (Husers & _).
    exact (Table_ok_get (users st) (Some U) Husers).
  - destruct (Store_ok_inv st Hok) as (_ & _ & _ & _ & _ & _ & _ & _ & Hd & _).
    apply (distinct_filter Z.eqb (fun s => Some (Deptadmin.user s)) _ _ U Z.eqb_refl Hd).
    intros a Hain. apply Z.eqb_eq in Hain. rewrite Hain. reflexivity.
Qed.


Lemma deptadmin_update_save_witness :
  DeptadminUpdateForm.save
    (DeptadminUpdateForm.mk (F:=present) 4 20 "dan@campus.example")
    SampleStaff.faculty
  = (Ok (User.set_email "dan@campus.example" SampleStaff.dan),
     mkStore (mkTable [Sample.ann; Sample.bob; SampleStaff.eve;
                       User.set_email "dan@campus.example" SampleStaff.dan] 5)
             (students SampleStaff.faculty) (teachers SampleStaff.faculty)
             (mkTable [Deptadmin.mk (Some 1) 4 20] 2)
             (department_students SampleStaff.faculty)
             (department_teachers SampleStaff.faculty)).
Proof.
  destruct (deptadmin_update_save
              (DeptadminUpdateForm.mk (F:=present) 4 20 "dan@campus.example")
              SampleStaff.faculty) as (_ & _ & Hsave & _);
    [reflexivity | reflexivity |].
  apply (Hsave SampleStaff.dan (Deptadmin.mk (Some 1) 4 10)); reflexivity.
Defined.

(** ** Signup followed by other operations *)

Lemma filter_none {A : Type} (p : A -> bool) (l : list A) :
  (forall a, In a l -> p a = false) -> filter p l = [].
Proof.
  intros Hno. induction l as [|x l IH]; [reflexivity|]. cbn [filter].
  rewrite (Hno x) by (left; reflexivity). apply IH. intros a Ha. apply Hno. right. exact Ha.
Qed.

(** The store a valid student signup leaves, row by row. *)
Lemma StudentSignupForm_save_eq `{Env}
      (d : StudentSignupForm.valid_data) (st : Store) :
  Store_ok st = true ->
  StudentSignupForm.is_valid d st = true ->
  StudentSignupForm.save d st
  = (Ok (User.mk (Some (next_pk (users st))) (StudentSignupForm.email d)
                 (make_password (StudentSignupForm.password1 d))
                 true false false false false default_is_active),
     mkStore
       (mkTable (rows (users st)
                 ++ [User.mk (Some (next_pk (users st))) (StudentSignupForm.email d)
                             (make_password (StudentSignupForm.password1 d))
                             true false false false false default_is_active])
                (next_pk (users st) + 1))
       (mkTable (rows (students st)
                 ++ [Student.mk (Some (next_pk (students st))) (next_pk (users st))
                                (Some (StudentSignupForm.registry_id d))
                                (Some (StudentSignupForm.first_name d))
                                (Some (StudentSignupForm.last_name d))
                                (Some (StudentSignupForm.admission_year d))])
                (next_pk (students st) + 1))
       (teachers st) (deptadmins st)
       (mkTable (rows (department_students st)
                 ++ [DepartmentStudents.mk (Some (next_pk (department_students st)))
                                           (StudentSignupForm.department d)
                                           (next_pk (users st))])
                (next_pk (department_students st) + 1))
       (department_teachers st)).
Proof.
  intros Hok Hvalid.
  apply andb_true_iff in Hvalid. destruct Hvalid as [Hclean Hunique].
  destruct (Store_ok_inv st Hok) as (_ & Hstudents & _).
  unfold StudentSignupForm.save. apply atomic_commit. cbv zeta.
  erewrite bind_ok;
    [| apply Model_save_insert; [reflexivity | apply new_user_unique_ok; exact Hunique]].
  cbn [table set_table with_pk pk User_Model].
  erewrite bind_ok by reflexivity.
  unfold objects_create.
  erewrite bind_ok;
    [| apply Model_save_insert;
       [reflexivity | apply unique_ok_intro; intros b _; right; reflexivity]].
  cbn [table set_table with_pk pk Student_Model students users teachers deptadmins
       department_students department_teachers rows next_pk Student.with_id
       Student.id Student.user].
  assert (Hold : forall b, In b (rows (students st)) ->
                 pk_is (Some (next_pk (students st))) b = false).
  { intros b Hb. apply (Table_ok_fresh (students st)); assumption. }
  erewrite bind_ok; cycle 1.
  { apply (Model_save_update _ _ (next_pk (students st))); [reflexivity | | ];
      cbn [table set_table Student_Model students rows].
    - apply unique_ok_intro. intros b Hb. apply in_app_or in Hb.
      destruct Hb as [Hb | [<- | []]].
      + right. cbn [conflicts Student_Model Student.registry_id].
        pose proof (StudentSignupForm_clean_passes _ st Hclean b Hb) as Hfree.
        cbn [StudentSignupForm.as_cleaned StudentSignupForm.registry_id] in Hfree.
        destruct (Student.registry_id b) as [x|]; [|reflexivity].
        rewrite String.eqb_sym. exact Hfree.
      + left. apply pk_is_refl. reflexivity.
    - rewrite existsb_app. apply orb_true_iff. right.
      cbn [existsb]. rewrite (pk_is_refl (A:=Student.t)) by reflexivity. reflexivity. }
  cbn [table set_table Student_Model students users teachers deptadmins
       department_students department_teachers rows next_pk].
  rewrite map_app, (map_overwrite_other (A:=Student.t)) by exact Hold.
  cbn [map]. rewrite (pk_is_refl (A:=Student.t)) by reflexivity.
  erewrite bind_ok;
    [| apply Model_save_insert;
       [reflexivity | apply unique_ok_intro; intros b _; right; reflexivity]].
  reflexivity.
Qed.

(** X12.  Sign up, then sign in.  After a valid student signup in a
    consistent store, with a hasher that verifies the hashes it makes,
    signing in with the submitted email and password is refused with
    [disabled] as long as the account is not accepted; once Accept has run
    on the new user's key, the same signin returns that user, now
    accepted.  Neither signin writes. *)
Theorem signup_accept_signin `{Env} (d : StudentSignupForm.valid_data) (st : Store) :
  Store_ok st = true ->
  StudentSignupForm.is_valid d st = true ->
  check_password (StudentSignupForm.password1 d)
                 (make_password (StudentSignupForm.password1 d)) = true ->
  truthy (Some (StudentSignupForm.email d)) = true ->
  truthy (Some (StudentSignupForm.password1 d)) = true ->
  let uid := next_pk (users st) in
  let user :=
    User.mk (Some uid) (StudentSignupForm.email d)
            (make_password (StudentSignupForm.password1 d))
            true false false false false default_is_active in
  let cd := SigninForm.mk (Some (StudentSignupForm.email d))
                          (Some (StudentSignupForm.password1 d)) in
  let st1 := snd (StudentSignupForm.save d st) in
  let st2 := snd (UserActionForm.accept (UserActionForm.mk (Some uid)) st1) in
  SigninForm.clean cd st1
  = (Raise (ValidationError "Please wait for your account to be enabled."
                            "disabled"), st1)
  /\ UserActionForm.accept (UserActionForm.mk (Some uid)) st1 = (Ok tt, st2)
  /\ SigninForm.clean cd st2
     = (Ok (cd, Some (User.set_is_accepted true user)), st2).
Proof.
  intros Hok Hvalid Hhash He Hp uid user cd st1 st2.
  pose proof (StudentSignupForm_save_eq d st Hok Hvalid) as Hsave.
  fold uid in Hsave. fold user in Hsave.
  pose proof Hvalid as Hv. apply andb_true_iff in Hv. destruct Hv as [_ Hunique].
  pose proof (validate_unique_passes _ st Hunique) as Hfree.
  destruct (Store_ok_inv st Hok) as (Husers & _).
  assert (Hold : forall b, In b (rows (users st)) -> pk_is (Some uid) b = false)
    by (intros b Hb; apply (Table_ok_fresh (users st)); assumption).
  assert (Hemail : forall v, User.email v = StudentSignupForm.email d ->
            filter (fun u => String.eqb (User.email u) (StudentSignupForm.email d))
                   (rows (users st) ++ [v]) = [v]).
  { intros v Hv. rewrite filter_app, (filter_none _ _ Hfree). cbn [filter app].
    rewrite Hv, String.eqb_refl. reflexivity. }
  assert (Hsignin : forall v stx,
            User.email v = StudentSignupForm.email d ->
            User.password v = make_password (StudentSignupForm.password1 d) ->
            rows (users stx) = rows (users st) ++ [v] ->
            SigninForm.clean cd stx
            = (if negb (User.is_accepted v)
               then Raise (ValidationError "Please wait for your account to be enabled."
                                           "disabled")
               else Ok (cd, Some v), stx)).
  { intros v stx Hve Hvp Hrows.
    unfold SigninForm.clean. cbv zeta. subst cd.
    cbn [SigninForm.email SigninForm.password]. rewrite He, Hp. cbn [andb].
    cbv [bind ret raise authenticate objects_filter SigninForm.confirm_login_allowed].
    cbn [table User_Model]. rewrite Hrows, (Hemail v Hve), Hvp, Hhash.
    destruct (User.is_accepted v); reflexivity. }
  assert (Hst1 : rows (users st1) = rows (users st) ++ [user])
    by (unfold st1; rewrite Hsave; reflexivity).
  assert (Haccept : UserActionForm.accept (UserActionForm.mk (Some uid)) st1
                    = (Ok tt,
                       set_table (mkTable (rows (users st)
                                           ++ [User.set_is_accepted true user])
                                          (next_pk (users st1))) st1)).
  { unfold UserActionForm.accept. cbv zeta. cbn [UserActionForm.user_id].
    rewrite (get_step (H:=User_Model) (pk_is (Some uid)) _ st1 user); cycle 1.
    { cbn [table User_Model]. rewrite Hst1, filter_app, (filter_none _ _ Hold).
      cbn [filter app]. rewrite (pk_is_refl (A:=User.t)) by reflexivity. reflexivity. }
    pose proof (Model_save_update (A:=User.t) (User.set_is_accepted true user) st1 uid)
      as Hs. cbn [table User_Model] in Hs.
    erewrite bind_ok; cycle 1.
    { apply Hs; [reflexivity | |]; rewrite Hst1.
      - apply unique_ok_intro. intros b Hb. apply in_app_or in Hb.
        destruct Hb as [Hb | [<- | []]].
        + right. cbn [conflicts User_Model]. rewrite String.eqb_sym. exact (Hfree b Hb).
        + left. apply pk_is_refl. reflexivity.
      - rewrite existsb_app. apply orb_true_iff. right. cbn [existsb].
        rewrite (pk_is_refl (A:=User.t)) by reflexivity. reflexivity. }
    cbv [ret]. f_equal. f_equal. rewrite Hst1, map_app.
    rewrite (map_overwrite_other (A:=User.t)) by exact Hold.
    cbn [map]. rewrite (pk_is_refl (A:=User.t)) by reflexivity. reflexivity. }
  split; [|split].
  - rewrite (Hsignin user st1); [reflexivity | reflexivity | reflexivity | exact Hst1].
  - unfold st2. rewrite Haccept. reflexivity.
  - rewrite (Hsignin (User.set_is_accepted true user) st2);
      [reflexivity | reflexivity | reflexivity |].
    unfold st2. rewrite Haccept. reflexivity.
Qed.

Lemma signup_accept_signin_witness :
  let cy := User.mk (Some 3) "cy@uni.example" "hash$pw12345678"
                    true false false false true true in
  let st1 := snd (@StudentSignupForm.save Sample.env
                    (StudentSignupForm.mk (F:=present) 10 "cy@uni.example" "Cy" "Orr"
                       "R-300" 2022 "pw12345678" "pw12345678")
                    Sample.campus) in
  let st2 := snd (UserActionForm.accept (UserActionForm.mk (Some 3)) st1) in
  @SigninForm.clean Sample.env
    (SigninForm.mk (Some "cy@uni.example") (Some "pw12345678")) st2
  = (Ok (SigninForm.mk (Some "cy@uni.example") (Some "pw12345678"), Some cy), st2).
Proof.
  apply (@signup_accept_signin Sample.env
           (StudentSignupForm.mk (F:=present) 10 "cy@uni.example" "Cy" "Orr"
              "R-300" 2022 "pw12345678" "pw12345678")
           Sample.campus); reflexivity.
Defined.



(** ** The invariants of the data model under the operations *)

Lemma forallb_bound {A : Type} (f : A -> Z) (b b' : Z) (l : list A) :
  b <= b' ->
  forallb (fun s => f s <? b) l = true ->
  forallb (fun s => f s <? b') l = true.
Proof.
  intros Hle. rewrite !forallb_forall. intros Hall s Hs.
  specialize (Hall s Hs). apply Z.ltb_lt in Hall. apply Z.ltb_lt. lia.
Qed.

Lemma forallb_remove {A : Type} (P q : A -> bool) (l : list A) :
  forallb P l = true -> forallb P (filter q l) = true.
Proof.
  rewrite !forallb_forall. intros Hall s Hs. apply filter_In in Hs. exact (Hall s (proj1 Hs)).
Qed.

Lemma forallb_overwrite {A : Type} (P p : A -> bool) (v : A) (l : list A) :
  forallb P l = true -> P v = true ->
  forallb P (map (fun b => if p b then v else b) l) = true.
Proof.
  rewrite !forallb_forall. intros Hall Hv s Hs. apply in_map_iff in Hs.
  destruct Hs as (c & <- & Hc). destruct (p c); [exact Hv | exact (Hall c Hc)].
Qed.

Lemma forallb_append {A : Type} (P : A -> bool) (v : A) (l : list A) :
  forallb P l = true -> P v = true -> forallb P (l ++ [v]) = true.
Proof.
  intros Hall Hv. rewrite forallb_app, Hall. cbn [forallb]. rewrite Hv. reflexivity.
Qed.

(** The components of [Store_ok] and [refs_ok], as one conjunction. *)
Lemma consistent_iff (st : Store) :
  Store_ok st = true /\ refs_ok st = true <->
  (Table_ok (users st) = true /\ Table_ok (students st) = true
   /\ Table_ok (teachers st) = true /\ Table_ok (deptadmins st) = true
   /\ Table_ok (department_students st) = true
   /\ Table_ok (department_teachers st) = true)
  /\ (distinct String.eqb (keys (fun u => Some (User.email u)) (rows (users st))) = true
      /\ distinct String.eqb (keys Student.registry_id (rows (students st))) = true)
  /\ (distinct Z.eqb (keys (fun s => Some (Student.user s)) (rows (students st))) = true
      /\ distinct Z.eqb (keys (fun s => Some (Teacher.user s)) (rows (teachers st))) = true
      /\ distinct Z.eqb (keys (fun s => Some (Deptadmin.user s)) (rows (deptadmins st)))
         = true
      /\ distinct Z.eqb (keys (fun s => Some (DepartmentStudents.user_id s))
                              (rows (department_students st))) = true
      /\ distinct Z.eqb (keys (fun s => Some (DepartmentTeachers.user_id s))
                              (rows (department_teachers st))) = true)
  /\ (forallb (fun s => Student.user s <? next_pk (users st)) (rows (students st)) = true
      /\ forallb (fun s => Teacher.user s <? next_pk (users st)) (rows (teachers st)) = true
      /\ forallb (fun s => Deptadmin.user s <? next_pk (users st))
                 (rows (deptadmins st)) = true
      /\ forallb (fun s => DepartmentStudents.user_id s <? next_pk (users st))
                 (rows (department_students st)) = true
      /\ forallb (fun s => DepartmentTeachers.user_id s <? next_pk (users st))
                 (rows (department_teachers st)) = true).
Proof.
  unfold Store_ok, refs_ok. cbv zeta. rewrite !andb_true_iff. tauto.
Qed.

(** A flag write on the user table keeps both. *)
Lemma flag_write_consistent (i : option Z) (f : User.t -> User.t) (st : Store) :
  Store_ok st = true -> refs_ok st = true ->
  (forall x, User.id (f x) = User.id x) ->
  (forall x, User.email (f x) = User.email x) ->
  let st' := snd ((user <- objects_get (pk_is i) ;; Model_save (f user) ;;; ret tt) st) in
  Store_ok st' = true /\ refs_ok st' = true.
Proof.
  intros Hok Hrefs Hid Hem st'. subst st'.
  destruct (Store_ok_inv st Hok) as (Husers & _).
  destruct (Table_ok_get (users st) i Husers) as [Hnone | (u & Hu)].
  - rewrite (get_step_none (H:=User_Model) (pk_is i) _ st Hnone). split; assumption.
  - destruct i as [i|];
      [|destruct (filter_one_in _ _ _ Hu) as [_ Hpk]; discriminate Hpk].
    destruct (flag_write_eq i f u st Hok Hu Hid Hem) as (Hrun & Hok' & _).
    rewrite Hrun. cbn [snd]. split; [exact Hok'|]. exact Hrefs.
Qed.

(** Delete keeps both: every table only loses rows. *)
Lemma delete_consistent (i : option Z) (st : Store) :
  Store_ok st = true -> refs_ok st = true ->
  let st' := snd (User_objects_delete (pk_is i) st) in
  Store_ok st' = true /\ refs_ok st' = true.
Proof.
  intros Hok Hrefs st'. subst st'.
  apply consistent_iff.
  pose proof (proj1 (consistent_iff st) (conj Hok Hrefs)) as Hst.
  unfold User_objects_delete, bind, objects_filter, remove_rows.
  cbn [table set_table User_Model Student_Model Teacher_Model Deptadmin_Model
       DepartmentStudents_Model DepartmentTeachers_Model users students teachers
       deptadmins department_students department_teachers rows next_pk fst snd].
  decompose [and] Hst. clear Hst.
  repeat split;
    first [ apply Table_ok_remove; assumption
          | apply (distinct_remove _ _ String_eqb_spec_iff); assumption
          | apply (distinct_remove _ _ Z_eqb_spec_iff); assumption
          | apply forallb_remove; assumption ].
Qed.

(** The store a valid deptadmin signup leaves. *)
Lemma DeptadminSignupForm_save_eq `{Env}
      (d : DeptadminSignupForm.valid_data) (st : Store) :
  Store_ok st = true ->
  DeptadminSignupForm.is_valid d st = true ->
  DeptadminSignupForm.save d st
  = (Ok (User.mk (Some (next_pk (users st))) (DeptadminSignupForm.email d)
                 (make_password (DeptadminSignupForm.password1 d))
                 false false true true false default_is_active),
     mkStore
       (mkTable (rows (users st)
                 ++ [User.mk (Some (next_pk (users st))) (DeptadminSignupForm.email d)
                             (make_password (DeptadminSignupForm.password1 d))
                             false false true true false default_is_active])
                (next_pk (users st) + 1))
       (students st) (teachers st)
       (mkTable (rows (deptadmins st)
                 ++ [Deptadmin.mk (Some (next_pk (deptadmins st))) (next_pk (users st))
                                  (DeptadminSignupForm.department d)])
                (next_pk (deptadmins st) + 1))
       (department_students st) (department_teachers st)).
Proof.
  intros Hok Hvalid.
  destruct (Store_ok_inv st Hok) as (_ & _ & _ & Hdeptadmins & _).
  unfold DeptadminSignupForm.is_valid in Hvalid.
  unfold DeptadminSignupForm.save. apply atomic_commit. cbv zeta.
  erewrite bind_ok;
    [| apply Model_save_insert; [reflexivity | apply new_user_unique_ok; exact Hvalid]].
  cbn [table set_table with_pk pk User_Model].
  erewrite bind_ok by reflexivity.
  unfold objects_create.
  erewrite bind_ok;
    [| apply Model_save_insert;
       [reflexivity | apply unique_ok_intro; intros b _; right; reflexivity]].
  cbn [table set_table with_pk pk Deptadmin_Model students users teachers deptadmins
       department_students department_teachers rows next_pk Deptadmin.with_id
       Deptadmin.id Deptadmin.user].
  assert (Hold : forall b, In b (rows (deptadmins st)) ->
                 pk_is (Some (next_pk (deptadmins st))) b = false).
  { intros b Hb. apply (Table_ok_fresh (deptadmins st)); assumption. }
  erewrite bind_ok; cycle 1.
  { apply (Model_save_update _ _ (next_pk (deptadmins st))); [reflexivity | | ];
      cbn [table set_table Deptadmin_Model deptadmins rows].
    - apply unique_ok_intro. intros b _. right. reflexivity.
    - rewrite existsb_app. apply orb_true_iff. right.
      cbn [existsb]. rewrite (pk_is_refl (A:=Deptadmin.t)) by reflexivity. reflexivity. }
  cbn [table set_table Deptadmin_Model students users teachers deptadmins
       department_students department_teachers rows next_pk].
  rewrite map_app, (map_overwrite_other (A:=Deptadmin.t)) by exact Hold.
  cbn [map]. rewrite (pk_is_refl (A:=Deptadmin.t)) by reflexivity.
  reflexivity.
Qed.

(** A reference to the next user key is held by no stored row. *)
Lemma owner_fresh {A : Type} (f : A -> Z) (l : list A) (bound : Z) :
  forallb (fun s => f s <? bound) l = true ->
  forall k, Some bound = Some k -> forall a, In a l -> Some (f a) <> Some k.
Proof.
  rewrite forallb_forall. intros Hall k Hk a Ha Hfa. inversion Hk. subst k.
  specialize (Hall a Ha). apply Z.ltb_lt in Hall. inversion Hfa. lia.
Qed.

Lemma email_fresh (e : string) (st : Store) :
  passes (UserCreationForm_validate_unique e) st = true ->
  forall k, Some e = Some k ->
            forall b, In b (rows (users st)) -> Some (User.email b) <> Some k.
Proof.
  intros Hv k Hk b Hb Hbk. inversion Hk. subst k. inversion Hbk as [Heq].
  pose proof (validate_unique_passes e st Hv b Hb) as Hne.
  rewrite Heq, String.eqb_refl in Hne. discriminate.
Qed.

Ltac grow_bound :=
  match goal with
  | H : forallb (fun s => _ <? ?b) ?l = true |- forallb (fun s => _ <? ?b + 1) ?l = true =>
      apply (forallb_bound _ b (b + 1)); [lia | exact H]
  end.

Ltac append_ref :=
  apply forallb_append; [grow_bound | cbv beta; cbn; apply Z.ltb_lt; lia].

(** A valid student signup keeps the store consistent. *)
Lemma student_signup_consistent `{Env} (d : StudentSignupForm.valid_data) (st : Store) :
  Store_ok st = true -> refs_ok st = true ->
  StudentSignupForm.is_valid d st = true ->
  Store_ok (snd (StudentSignupForm.save d st)) = true
  /\ refs_ok (snd (StudentSignupForm.save d st)) = true.
Proof.
  intros Hok Hrefs Hvalid.
  rewrite (StudentSignupForm_save_eq d st Hok Hvalid). cbn [snd].
  apply andb_true_iff in Hvalid. destruct Hvalid as [Hclean Hunique].
  pose proof (proj1 (consistent_iff st) (conj Hok Hrefs)) as Hst.
  apply consistent_iff.
  cbn [users students teachers deptadmins department_students department_teachers
       rows next_pk].
  decompose [and] Hst. clear Hst.
  repeat split; try assumption; try grow_bound; try append_ref;
    try (apply Table_ok_append; [assumption | reflexivity]).
  - apply (distinct_append _ _ String_eqb_spec_iff); [assumption|].
    exact (email_fresh _ st Hunique).
  - apply (distinct_append _ _ String_eqb_spec_iff); [assumption|].
    intros k Hk b Hb Hbk. cbn [Student.registry_id] in Hk.
    pose proof (StudentSignupForm_clean_passes _ st Hclean b Hb) as Hfree.
    cbn [StudentSignupForm.as_cleaned StudentSignupForm.registry_id] in Hfree.
    rewrite Hbk, Hk in Hfree.
    rewrite (proj2 (opt_eqb_spec String.eqb _ _ String_eqb_spec_iff) eq_refl) in Hfree.
    discriminate.
  - apply (distinct_append _ _ Z_eqb_spec_iff); [assumption|].
    apply owner_fresh. assumption.
  - apply (distinct_append _ _ Z_eqb_spec_iff); [assumption|].
    apply owner_fresh. assumption.
Qed.

(** A valid teacher signup keeps the store consistent. *)
Lemma teacher_signup_consistent `{Env} (d : TeacherSignupForm.valid_data) (st : Store) :
  Store_ok st = true -> refs_ok st = true ->
  TeacherSignupForm.is_valid d st = true ->
  Store_ok (snd (TeacherSignupForm.save d st)) = true
  /\ refs_ok (snd (TeacherSignupForm.save d st)) = true.
Proof.
  intros Hok Hrefs Hvalid.
  rewrite (TeacherSignupForm_save_eq d st Hok Hvalid). cbn [snd].
  unfold TeacherSignupForm.is_valid in Hvalid.
  pose proof (proj1 (consistent_iff st) (conj Hok Hrefs)) as Hst.
  apply consistent_iff.
  cbn [users students teachers deptadmins department_students department_teachers
       rows next_pk].
  decompose [and] Hst. clear Hst.
  repeat split; try assumption; try grow_bound; try append_ref;
    try (apply Table_ok_append; [assumption | reflexivity]).
  - apply (distinct_append _ _ String_eqb_spec_iff); [assumption|].
    exact (email_fresh _ st Hvalid).
  - apply (distinct_append _ _ Z_eqb_spec_iff); [assumption|].
    apply owner_fresh. assumption.
  - apply (distinct_append _ _ Z_eqb_spec_iff); [assumption|].
    apply owner_fresh. assumption.
Qed.

(** A valid deptadmin signup keeps the store consistent. *)
Lemma deptadmin_signup_consistent `{Env}
      (d : DeptadminSignupForm.valid_data) (st : Store) :
  Store_ok st = true -> refs_ok st = true ->
  DeptadminSignupForm.is_valid d st = true ->
  Store_ok (snd (DeptadminSignupForm.save d st)) = true
  /\ refs_ok (snd (DeptadminSignupForm.save d st)) = true.
Proof.
  intros Hok Hrefs Hvalid.
  rewrite (DeptadminSignupForm_save_eq d st Hok Hvalid). cbn [snd].
  unfold DeptadminSignupForm.is_valid in Hvalid.
  pose proof (proj1 (consistent_iff st) (conj Hok Hrefs)) as Hst.
  apply consistent_iff.
  cbn [users students teachers deptadmins department_students department_teachers
       rows next_pk].
  decompose [and] Hst. clear Hst.
  repeat split; try assumption; try grow_bound; try append_ref;
    try (apply Table_ok_append; [assumption | reflexivity]).
  - apply (distinct_append _ _ String_eqb_spec_iff); [assumption|].
    exact (email_fresh _ st Hvalid).
  - apply (distinct_append _ _ Z_eqb_spec_iff); [assumption|].
    apply owner_fresh. assumption.
Qed.

(** ** Overwrites that keep the store consistent *)

Section OverwriteRow.
Context {A : Type} `{Model A} (owner : A -> Z).

(** Writing back a stored row with its key and owner unchanged keeps the
    table keyed, the owners pairwise different and below the same bound. *)
Lemma overwrite_row_ok (t : Table A) (a v : A) (bound : Z) :
  Table_ok t = true -> In a (rows t) ->
  pk v = pk a -> owner v = owner a ->
  distinct Z.eqb (keys (fun s => Some (owner s)) (rows t)) = true ->
  forallb (fun s => owner s <? bound) (rows t) = true ->
  Table_ok (mkTable (map (fun b => if pk_is (pk a) b then v else b) (rows t))
                    (next_pk t)) = true
  /\ distinct Z.eqb (keys (fun s => Some (owner s))
                          (map (fun b => if pk_is (pk a) b then v else b) (rows t)))
     = true
  /\ forallb (fun s => owner s <? bound)
             (map (fun b => if pk_is (pk a) b then v else b) (rows t)) = true.
Proof.
  intros Hok Ha Hpk Howner Hd Hbound.
  destruct (Table_ok_pk t a Hok Ha) as (i & Hi & _).
  pose proof (Table_ok_find t a Hok Ha) as Hfind.
  assert (Hsame : forall b, In b (rows t) -> pk_is (pk a) b = true -> b = a).
  { intros b Hb Hpb.
    assert (Hin : In b (filter (pk_is (pk a)) (rows t)))
      by (apply filter_In; split; assumption).
    rewrite Hfind in Hin. destruct Hin as [<- | []]. reflexivity. }
  split; [|split].
  - rewrite Hi. apply Table_ok_overwrite; [exact Hok | congruence].
  - rewrite (keys_overwrite_same (fun s => Some (owner s))); [exact Hd|].
    intros b Hb Hpb. rewrite (Hsame b Hb Hpb), Howner. reflexivity.
  - apply forallb_overwrite; [exact Hbound|].
    rewrite Howner. rewrite forallb_forall in Hbound. exact (Hbound a Ha).
Qed.

(** The one row a lookup by owner found is found again by its key. *)
Lemma overwrite_row_find (t : Table A) (a : A) (p : A -> bool) :
  Table_ok t = true -> filter p (rows t) = [a] ->
  filter (pk_is (pk a)) (rows t) = [a].
Proof.
  intros Hok Hf. apply Table_ok_find; [exact Hok|].
  exact (proj1 (filter_one_in _ _ _ Hf)).
Qed.

End OverwriteRow.

Lemma Store_ok_email_column (st : Store) :
  Store_ok st = true ->
  distinct String.eqb (keys (fun u => Some (User.email u)) (rows (users st))) = true.
Proof.
  unfold Store_ok. rewrite !andb_true_iff. intros Hok. decompose [and] Hok. assumption.
Qed.

Lemma Store_ok_registry_column (st : Store) :
  Store_ok st = true ->
  distinct String.eqb (keys Student.registry_id (rows (students st))) = true.
Proof.
  unfold Store_ok. rewrite !andb_true_iff. intros Hok. decompose [and] Hok. assumption.
Qed.

(** Changing the email of the stored user [U] to one that no other user
    holds keeps the user table keyed and the emails pairwise different. *)
Lemma overwrite_email_ok (st : Store) (U : Z) (e : string) (u : User.t) :
  Store_ok st = true ->
  filter (pk_is (Some U)) (rows (users st)) = [u] ->
  (forall b, In b (rows (users st)) -> User.email b = e -> User.id b = Some U) ->
  Table_ok (mkTable (map (fun b => if pk_is (Some U) b then User.set_email e u else b)
                         (rows (users st)))
                    (next_pk (users st))) = true
  /\ distinct String.eqb
       (keys (fun x => Some (User.email x))
             (map (fun b => if pk_is (Some U) b then User.set_email e u else b)
                  (rows (users st)))) = true.
Proof.
  intros Hok Hu Hfree.
  destruct (Store_ok_inv st Hok) as (Husers & _).
  destruct (filter_one_in _ _ _ Hu) as [Hin Hpk].
  apply (pk_is_true (A:=User.t)) in Hpk. cbn [pk User_Model] in Hpk.
  split.
  - apply Table_ok_overwrite; [exact Husers|].
    cbn [pk User_Model]. unfold User.set_email. cbn [User.id]. exact Hpk.
  - apply (distinct_overwrite String.eqb _ String_eqb_spec_iff _ _ _ u);
      [exact (Store_ok_email_column st Hok) | exact Hu |].
    intros k Hk b Hb Hnot Hbk. unfold User.set_email in Hk. cbn [User.email] in Hk.
    inversion Hk. subst k. inversion Hbk as [Hem].
    pose proof (pk_is_refl (A:=User.t) b U (Hfree b Hb Hem)) as Hyes.
    rewrite Hyes in Hnot. discriminate.
Qed.

(** A lookup by owner finds one row or none. *)
Lemma owner_get {A : Type} (owner : A -> Z) (l : list A) (U : Z) :
  distinct Z.eqb (keys (fun s => Some (owner s)) l) = true ->
  filter (fun x => owner x =? U) l = []
  \/ exists a, filter (fun x => owner x =? U) l = [a].
Proof.
  intros Hd.
  apply (distinct_filter Z.eqb (fun s => Some (owner s)) l _ U);
    [apply Z.eqb_refl | exact Hd |].
  intros a Ha. apply Z.eqb_eq in Ha. rewrite Ha. reflexivity.
Qed.

(** A valid teacher update keeps the store consistent, whether it returns
    or raises. *)
Lemma teacher_update_consistent (d : TeacherUpdateForm.valid_data) (st : Store) :
  Store_ok st = true -> refs_ok st = true ->
  TeacherUpdateForm.is_valid d st = true ->
  Store_ok (snd (TeacherUpdateForm.save d st)) = true
  /\ refs_ok (snd (TeacherUpdateForm.save d st)) = true.
Proof.
  intros Hok Hrefs Hvalid.
  destruct (TeacherUpdateForm_save_cases d st Hok Hvalid) as (Hnone & Hnot & Hnom & Hall).
  cbv zeta in Hnone, Hnot, Hnom, Hall.
  pose proof (TeacherUpdateForm_valid_email d st Hok Hvalid) as Hfree.
  pose proof (proj1 (consistent_iff st) (conj Hok Hrefs)) as Hst.
  destruct Hst as ((Husers & Hstudents & Hteachers & Hadmins & Hds & Hdt)
                   & (Hemails & Hregs)
                   & (Hos & Hot & Hoa & Hods & Hodt)
                   & (Hbs & Hbt & Hba & Hbds & Hbdt)).
  destruct (Table_ok_get (users st) (Some (TeacherUpdateForm.user_id d)) Husers)
    as [Hu | (u & Hu)]; [rewrite (Hnone Hu); split; assumption|].
  destruct (owner_get Teacher.user (rows (teachers st)) (TeacherUpdateForm.user_id d) Hot)
    as [Ht | (t & Ht)]; [rewrite (Hnot u Hu Ht); split; assumption|].
  destruct (owner_get DepartmentTeachers.user_id (rows (department_teachers st))
                      (TeacherUpdateForm.user_id d) Hodt)
    as [Hm | (m & Hm)]; [rewrite (Hnom u t Hu Ht Hm); split; assumption|].
  rewrite (Hall u t m Hu Ht Hm). cbn [snd].
  destruct (overwrite_email_ok st _ _ u Hok Hu Hfree) as (Hu1 & Hu2).
  destruct (overwrite_row_ok (H:=Teacher_Model) Teacher.user (teachers st) t
              (Teacher.mk (Teacher.id t) (Teacher.user t)
                          (Some (TeacherUpdateForm.first_name d))
                          (Some (TeacherUpdateForm.last_name d))
                          (Some (TeacherUpdateForm.rank d)))
              (next_pk (users st)) Hteachers (proj1 (filter_one_in _ _ _ Ht))
              eq_refl eq_refl Hot Hbt) as (Ht1 & Ht2 & Ht3).
  destruct (overwrite_row_ok (H:=DepartmentTeachers_Model) DepartmentTeachers.user_id
              (department_teachers st) m
              (DepartmentTeachers.mk (DepartmentTeachers.id m)
                                     (TeacherUpdateForm.department d)
                                     (DepartmentTeachers.user_id m))
              (next_pk (users st)) Hdt (proj1 (filter_one_in _ _ _ Hm))
              eq_refl eq_refl Hodt Hbdt) as (Hm1 & Hm2 & Hm3).
  apply consistent_iff.
  cbn [users students teachers deptadmins department_students department_teachers
       rows next_pk].
  repeat split; first [assumption | exact Hu1 | exact Hu2 | exact Ht1 | exact Ht2
                       | exact Ht3 | exact Hm1 | exact Hm2 | exact Hm3].
Qed.

(** A valid deptadmin update keeps the store consistent, whether it returns
    or raises. *)
Lemma deptadmin_update_consistent (d : DeptadminUpdateForm.valid_data) (st : Store) :
  Store_ok st = true -> refs_ok st = true ->
  DeptadminUpdateForm.is_valid d st = true ->
  Store_ok (snd (DeptadminUpdateForm.save d st)) = true
  /\ refs_ok (snd (DeptadminUpdateForm.save d st)) = true.
Proof.
  intros Hok Hrefs Hvalid.
  destruct (DeptadminUpdateForm_save_cases d st Hok Hvalid) as (Hnone & Hnoa & Hall).
  cbv zeta in Hnone, Hnoa, Hall.
  pose proof (DeptadminUpdateForm_valid_email d st Hok Hvalid) as Hfree.
  pose proof (proj1 (consistent_iff st) (conj Hok Hrefs)) as Hst.
  destruct Hst as ((Husers & Hstudents & Hteachers & Hadmins & Hds & Hdt)
                   & (Hemails & Hregs)
                   & (Hos & Hot & Hoa & Hods & Hodt)
                   & (Hbs & Hbt & Hba & Hbds & Hbdt)).
  destruct (Table_ok_get (users st) (Some (DeptadminUpdateForm.user_id d)) Husers)
    as [Hu | (u & Hu)]; [rewrite (Hnone Hu); split; assumption|].
  destruct (owner_get Deptadmin.user (rows (deptadmins st))
                      (DeptadminUpdateForm.user_id d) Hoa)
    as [Ha | (a & Ha)]; [rewrite (Hnoa u Hu Ha); split; assumption|].
  rewrite (Hall u a Hu Ha). cbn [snd].
  destruct (overwrite_email_ok st _ _ u Hok Hu Hfree) as (Hu1 & Hu2).
  destruct (overwrite_row_ok (H:=Deptadmin_Model) Deptadmin.user (deptadmins st) a
              (Deptadmin.mk (Deptadmin.id a) (Deptadmin.user a)
                            (DeptadminUpdateForm.department d))
              (next_pk (users st)) Hadmins (proj1 (filter_one_in _ _ _ Ha))
              eq_refl eq_refl Hoa Hba) as (Ha1 & Ha2 & Ha3).
  apply consistent_iff.
  cbn [users students teachers deptadmins department_students department_teachers
       rows next_pk].
  repeat split; first [assumption | exact Hu1 | exact Hu2 | exact Ha1 | exact Ha2
                       | exact Ha3].
Qed.

(** A valid student update keeps the store consistent, whether it returns
    or raises. *)
Lemma student_update_consistent (d : StudentUpdateForm.valid_data) (st : Store) :
  Store_ok st = true -> refs_ok st = true ->
  StudentUpdateForm.is_valid d st = true ->
  Store_ok (snd (StudentUpdateForm.save d st)) = true
  /\ refs_ok (snd (StudentUpdateForm.save d st)) = true.
Proof.
  intros Hok Hrefs Hvalid.
  rewrite (StudentUpdateForm_save_eq d st Hok Hvalid).
  pose proof (StudentUpdateForm_valid_email d st Hok Hvalid) as Hfree.
  pose proof (StudentUpdateForm_valid_registry_id d st Hok Hvalid) as Hfreereg.
  pose proof (Store_ok_student_owner st Hok) as Hone.
  pose proof (proj1 (consistent_iff st) (conj Hok Hrefs)) as Hst.
  destruct Hst as ((Husers & Hstudents & Hteachers & Hadmins & Hds & Hdt)
                   & (Hemails & Hregs)
                   & (Hos & Hot & Hoa & Hods & Hodt)
                   & (Hbs & Hbt & Hba & Hbds & Hbdt)).
  destruct (filter (pk_is (Some (StudentUpdateForm.user_id d))) (rows (users st)))
    as [|u [|u' rest]] eqn:Hu; [split; assumption| |split; assumption].
  cbv zeta.
  assert (Hid : User.id u = Some (StudentUpdateForm.user_id d)).
  { exact (pk_is_true (A:=User.t) _ _ (proj2 (filter_one_in _ _ _ Hu))). }
  assert (Hid' : User.id (User.set_email (StudentUpdateForm.email d) u)
                 = Some (StudentUpdateForm.user_id d)) by exact Hid.
  destruct (filter (fun s => owned_by _ (Student.user s)) (rows (students st)))
    as [|s [|s' rest]] eqn:Hs; [split; assumption| |split; assumption].
  destruct (filter (fun m => owned_by _ (DepartmentStudents.user_id m))
                   (rows (department_students st)))
    as [|m [|m' rest]] eqn:Hm; [split; assumption| |split; assumption].
  cbn [snd]. rewrite Hid.
  destruct (filter_one_in _ _ _ Hs) as [Hsin Hsown].
  rewrite (owned_by_eqb _ _ _ Hid') in Hsown. apply Z.eqb_eq in Hsown.
  destruct (overwrite_email_ok st _ _ u Hok Hu Hfree) as (Hu1 & Hu2).
  destruct (overwrite_row_ok (H:=Student_Model) Student.user (students st) s
              (Student.mk (Student.id s) (Student.user s)
                          (Some (StudentUpdateForm.registry_id d))
                          (Some (StudentUpdateForm.first_name d))
                          (Some (StudentUpdateForm.last_name d))
                          (Some (StudentUpdateForm.admission_year d)))
              (next_pk (users st)) Hstudents Hsin
              eq_refl eq_refl Hos Hbs) as (Hs1 & Hs2 & Hs3).
  destruct (overwrite_row_ok (H:=DepartmentStudents_Model) DepartmentStudents.user_id
              (department_students st) m
              (DepartmentStudents.mk (DepartmentStudents.id m)
                                     (StudentUpdateForm.department d)
                                     (DepartmentStudents.user_id m))
              (next_pk (users st)) Hds (proj1 (filter_one_in _ _ _ Hm))
              eq_refl eq_refl Hods Hbds) as (Hm1 & Hm2 & Hm3).
  assert (Hs4 : distinct String.eqb
                  (keys Student.registry_id
                     (map (fun b => if pk_is (Student.id s) b
                                    then Student.mk (Student.id s) (Student.user s)
                                           (Some (StudentUpdateForm.registry_id d))
                                           (Some (StudentUpdateForm.first_name d))
                                           (Some (StudentUpdateForm.last_name d))
                                           (Some (StudentUpdateForm.admission_year d))
                                    else b)
                          (rows (students st)))) = true).
  { apply (distinct_overwrite String.eqb _ String_eqb_spec_iff _ _ _ s);
      [exact Hregs | exact (Table_ok_find (H:=Student_Model) (students st) s Hstudents Hsin) |].
    intros k Hk b Hb Hnot Hbk. cbn [Student.registry_id] in Hk. inversion Hk. subst k.
    assert (Hbs' : b = s).
    { apply Hone; [exact Hb | exact Hsin |].
      rewrite (Hfreereg b Hb Hbk). symmetry. exact Hsown. }
    subst b.
    destruct (Table_ok_pk (students st) s Hstudents Hsin) as (i & Hi & _).
    cbn [pk Student_Model] in Hi. unfold pk_is in Hnot. cbn [pk Student_Model] in Hnot.
    rewrite Hi, Z.eqb_refl in Hnot. discriminate. }
  apply consistent_iff.
  cbn [users students teachers deptadmins department_students department_teachers
       rows next_pk].
  repeat split; first [assumption | exact Hu1 | exact Hu2 | exact Hs1 | exact Hs2
                       | exact Hs3 | exact Hs4 | exact Hm1 | exact Hm2 | exact Hm3].
Qed.

(** ** Steps that only read *)

Lemma reads_bind {A B : Type} (m : M A) (f : A -> M B) (st : Store) :
  snd (m st) = st -> (forall a, snd (f a st) = st) -> snd (bind m f st) = st.
Proof.
  intros Hm Hf. unfold bind. destruct (m st) as [[a|e] st1]; cbn [snd] in *.
  - subst st1. apply Hf.
  - exact Hm.
Qed.

Lemma reads_raise_if (c : bool) (e : Exception) (st : Store) :
  snd (raise_if c e st) = st.
Proof. destruct c; reflexivity. Qed.

Lemma SigninForm_clean_reads `{Env} (cd : SigninForm.cleaned_data) (st : Store) :
  snd (SigninForm.clean cd st) = st.
Proof.
  unfold SigninForm.clean. cbv zeta.
  destruct (truthy _ && truthy _); [|reflexivity].
  apply reads_bind; [apply authenticate_reads|]. intros [user|]; [|reflexivity].
  apply reads_bind; [|reflexivity].
  unfold SigninForm.confirm_login_allowed. destruct (negb _); reflexivity.
Qed.

Lemma StudentSignupForm_clean_reads (cd : StudentSignupForm.cleaned_data) (st : Store) :
  snd (StudentSignupForm.clean cd st) = st.
Proof.
  unfold StudentSignupForm.clean. cbv zeta.
  apply reads_bind; [reflexivity|]. intros found.
  apply reads_bind; [apply reads_raise_if | reflexivity].
Qed.

Lemma StudentUpdateForm_clean_reads (cd : StudentUpdateForm.cleaned_data) (st : Store) :
  snd (StudentUpdateForm.clean cd st) = st.
Proof.
  unfold StudentUpdateForm.clean. cbv zeta.
  apply reads_bind; [reflexivity|]. intros found.
  apply reads_bind; [apply reads_raise_if|]. intros _.
  apply reads_bind; [reflexivity|]. intros found'.
  apply reads_bind; [apply reads_raise_if | reflexivity].
Qed.

Lemma TeacherUpdateForm_clean_reads (cd : TeacherUpdateForm.cleaned_data) (st : Store) :
  snd (TeacherUpdateForm.clean cd st) = st.
Proof.
  unfold TeacherUpdateForm.clean. cbv zeta.
  apply reads_bind; [reflexivity|]. intros found.
  apply reads_bind; [apply reads_raise_if | reflexivity].
Qed.

Lemma DeptadminUpdateForm_clean_reads
      (cd : DeptadminUpdateForm.cleaned_data) (st : Store) :
  snd (DeptadminUpdateForm.clean cd st) = st.
Proof.
  unfold DeptadminUpdateForm.clean. cbv zeta.
  apply reads_bind; [reflexivity|]. intros found.
  apply reads_bind; [apply reads_raise_if | reflexivity].
Qed.

(** ** Every operation keeps the store consistent *)

(** One operation: the [clean] hooks and sign-in change nothing, the four
    actions of [UserActionForm] keep the store consistent on any submitted
    key, and each [save] on data whose validation passed in that store. *)
Lemma run_step_consistent `{Env} (op : Operation) (st : Store) :
  Store_ok st = true -> refs_ok st = true ->
  validated op st = true ->
  Store_ok (run op st) = true /\ refs_ok (run op st) = true.
Proof.
  intros Hok Hrefs Hvalid.
  destruct op as [cd|cd|cd|cd|cd|cd|d|cd|d|d|cd|d|d|cd|d]; cbn [run validated] in *.
  - rewrite SigninForm_clean_reads. split; assumption.
  - apply (flag_write_consistent (UserActionForm.user_id cd)
                                 (User.set_is_accepted true) st Hok Hrefs);
      intros x; reflexivity.
  - exact (delete_consistent (UserActionForm.user_id cd) st Hok Hrefs).
  - apply (flag_write_consistent (UserActionForm.user_id cd)
                                 (User.set_is_active true) st Hok Hrefs);
      intros x; reflexivity.
  - apply (flag_write_consistent (UserActionForm.user_id cd)
                                 (User.set_is_active false) st Hok Hrefs);
      intros x; reflexivity.
  - rewrite StudentSignupForm_clean_reads. split; assumption.
  - exact (student_signup_consistent d st Hok Hrefs Hvalid).
  - rewrite StudentUpdateForm_clean_reads. split; assumption.
  - exact (student_update_consistent d st Hok Hrefs Hvalid).
  - exact (teacher_signup_consistent d st Hok Hrefs Hvalid).
  - rewrite TeacherUpdateForm_clean_reads. split; assumption.
  - exact (teacher_update_consistent d st Hok Hrefs Hvalid).
  - exact (deptadmin_signup_consistent d st Hok Hrefs Hvalid).
  - rewrite DeptadminUpdateForm_clean_reads. split; assumption.
  - exact (deptadmin_update_consistent d st Hok Hrefs Hvalid).
Qed.

(** X14.  In a store that satisfies the uniqueness constraints (keys,
    emails, registry ids, one profile and one membership per user) and whose
    references lie below the user sequence, any run of operations of the
    module leaves a store that does so again, whether they returned or
    raised, provided each [save] in the run is given data whose validation
    passed in the store it starts from.  The [clean] hooks, sign-in and the
    four actions of [UserActionForm] need no such proviso. *)
Theorem run_all_keeps_consistent `{Env} (ops : list Operation) (st : Store) :
  Store_ok st = true -> refs_ok st = true ->
  all_validated ops st = true ->
  Store_ok (run_all ops st) = true /\ refs_ok (run_all ops st) = true.
Proof.
  revert st. induction ops as [|op rest IH]; intros st Hok Hrefs Hvalid.
  - split; assumption.
  - cbn [all_validated] in Hvalid. apply andb_true_iff in Hvalid.
    destruct Hvalid as [Hop Hrest].
    destruct (run_step_consistent op st Hok Hrefs Hop) as [Hok' Hrefs'].
    unfold run_all. cbn [fold_left]. exact (IH (run op st) Hok' Hrefs' Hrest).
Qed.

Lemma run_all_keeps_consistent_witness :
  Store_ok
    (@run_all Sample.env
       [TeacherSignup (TeacherSignupForm.mk (F:=present) 20 "eve@uni.example" "Eve"
                         "Moss" "Lecturer" "pw12345678" "pw12345678");
        Accept (UserActionForm.mk (Some 3));
        TeacherUpdate (TeacherUpdateForm.mk (F:=present) 3 10 "Eve" "Moss-Lee"
                         "Professor" "eve@campus.example");
        StudentUpdate (StudentUpdateForm.mk (F:=present) 1 20 "Ann" "Lee" "R-101" 2021
                         "ann.lee@uni.example");
        Delete (UserActionForm.mk (Some 2))]
       Sample.campus) = true
  /\ refs_ok
       (@run_all Sample.env
          [TeacherSignup (TeacherSignupForm.mk (F:=present) 20 "eve@uni.example" "Eve"
                            "Moss" "Lecturer" "pw12345678" "pw12345678");
           Accept (UserActionForm.mk (Some 3));
           TeacherUpdate (TeacherUpdateForm.mk (F:=present) 3 10 "Eve" "Moss-Lee"
                            "Professor" "eve@campus.example");
           StudentUpdate (StudentUpdateForm.mk (F:=present) 1 20 "Ann" "Lee" "R-101" 2021
                            "ann.lee@uni.example");
           Delete (UserActionForm.mk (Some 2))]
          Sample.campus) = true.
Proof.
  apply (@run_all_keeps_consistent Sample.env); reflexivity.
Defined.

(** ** The student update, case by case *)

Lemma filter_owned_by {A : Type} (owner : A -> Z) (user : User.t) (U : Z) (l : list A) :
  User.id user = Some U ->
  filter (fun x => owned_by user (owner x)) l = filter (fun x => owner x =? U) l.
Proof.
  intros Hid. apply filter_ext. intros x. apply owned_by_eqb. exact Hid.
Qed.

(** X15.  After a passing [clean], in a consistent store,
    [StudentUpdateForm.save] looks up the user, the student profile and the
    membership row of the submitted [user_id] in that order: the first one
    missing makes it raise that model's [DoesNotExist] and leave the store
    as it was, a user write that went before included; with all three
    there it returns the user with the new email and has overwritten those
    three rows in place, every other row and table untouched.  In such a
    store each lookup finds no row or exactly one, so these cases are all
    there are. *)
Theorem student_update_save (d : StudentUpdateForm.valid_data) (st : Store) :
  Store_ok st = true ->
  StudentUpdateForm.is_valid d st = true ->
  let U := StudentUpdateForm.user_id d in
  let found_user := filter (pk_is (Some U)) (rows (users st)) in
  let found_student := filter (fun x => Student.user x =? U) (rows (students st)) in
  let found_member :=
    filter (fun x => DepartmentStudents.user_id x =? U)
           (rows (department_students st)) in
  (found_user = [] ->
   StudentUpdateForm.save d st = (Raise (DoesNotExist "User"), st))
  /\ (forall u, found_user = [u] -> found_student = [] ->
      StudentUpdateForm.save d st = (Raise (DoesNotExist "Student"), st))
  /\ (forall u s, found_user = [u] -> found_student = [s] -> found_member = [] ->
      StudentUpdateForm.save d st
      = (Raise (DoesNotExist "DepartmentStudents"), st))
  /\ (forall u s m,
         found_user = [u] -> found_student = [s] -> found_member = [m] ->
         let user := User.set_email (StudentUpdateForm.email d) u in
         let student :=
           Student.mk (Student.id s) (Student.user s)
                      (Some (StudentUpdateForm.registry_id d))
                      (Some (StudentUpdateForm.first_name d))
                      (Some (StudentUpdateForm.last_name d))
                      (Some (StudentUpdateForm.admission_year d)) in
         let dept :=
           DepartmentStudents.mk (DepartmentStudents.id m)
                                 (StudentUpdateForm.department d)
                                 (DepartmentStudents.user_id m) in
         StudentUpdateForm.save d st
         = (Ok user,
            mkStore
              (mkTable (map (fun b => if pk_is (Some U) b then user else b)
                            (rows (users st)))
                       (next_pk (users st)))
              (mkTable (map (fun b => if pk_is (Student.id s) b then student else b)
                            (rows (students st)))
                       (next_pk (students st)))
              (teachers st) (deptadmins st)
              (mkTable (map (fun b => if pk_is (DepartmentStudents.id m) b
                                      then dept else b)
                            (rows (department_students st)))
                       (next_pk (department_students st)))
              (department_teachers st)))
  /\ ((found_user = [] \/ exists u, found_user = [u])
      /\ (found_student = [] \/ exists s, found_student = [s])
      /\ (found_member = [] \/ exists m, found_member = [m])).
Proof.
  intros Hok Hvalid U found_user found_student found_member.
  subst found_user found_student found_member.
  pose proof (StudentUpdateForm_save_eq d st Hok Hvalid) as Hsave. fold U in Hsave.
  assert (Hid : forall u, filter (pk_is (Some U)) (rows (users st)) = [u] ->
                          User.id u = Some U).
  { intros u Hu. exact (pk_is_true (A:=User.t) _ _ (proj2 (filter_one_in _ _ _ Hu))). }
  split; [intros Hu; rewrite Hsave, Hu; reflexivity|].
  split; [intros u Hu Hs; rewrite Hsave, Hu; cbv zeta;
          rewrite (filter_owned_by Student.user _ U _ (Hid u Hu)), Hs; reflexivity|].
  split; [intros u s Hu Hs Hm; rewrite Hsave, Hu; cbv zeta;
          rewrite (filter_owned_by Student.user _ U _ (Hid u Hu)), Hs,
            (filter_owned_by DepartmentStudents.user_id _ U _ (Hid u Hu)), Hm;
          reflexivity|].
  split; [intros u s m Hu Hs Hm; cbv zeta; rewrite Hsave, Hu; cbv zeta;
          rewrite (filter_owned_by Student.user _ U _ (Hid u Hu)), Hs,
            (filter_owned_by DepartmentStudents.user_id _ U _ (Hid u Hu)), Hm,
            (Hid u Hu);
          reflexivity|].
  destruct (Store_ok_inv st Hok)
    as (Husers & _ & _ & _ & _ & _ & Hos & _ & _ & Hods & _).
  split; [exact (Table_ok_get (users st) (Some U) Husers)|].
  split; [exact (owner_get Student.user _ U Hos)
         | exact (owner_get DepartmentStudents.user_id _ U Hods)].
Qed.

Lemma student_update_save_witness :
  StudentUpdateForm.save
    (StudentUpdateForm.mk (F:=present) 1 20 "Ann" "Lee-Moss" "R-101" 2021
       "ann.lee@uni.example")
    Sample.campus
  = (Ok (User.set_email "ann.lee@uni.example" Sample.ann),
     mkStore (mkTable [User.set_email "ann.lee@uni.example" Sample.ann; Sample.bob] 3)
             (mkTable [Student.mk (Some 1) 1 (Some "R-101") (Some "Ann")
                                  (Some "Lee-Moss") (Some 2021);
                       Sample.bob_profile] 3)
             (teachers Sample.campus) (deptadmins Sample.campus)
             (mkTable [DepartmentStudents.mk (Some 1) 20 1;
                       DepartmentStudents.mk (Some 2) 20 2] 3)
             (department_teachers Sample.campus)).
Proof.
  destruct (student_update_save
              (StudentUpdateForm.mk (F:=present) 1 20 "Ann" "Lee-Moss" "R-101" 2021
                 "ann.lee@uni.example")
              Sample.campus) as (_ & _ & _ & Hsave & _);
    [reflexivity | reflexivity |].
  apply (Hsave Sample.ann Sample.ann_profile (DepartmentStudents.mk (Some 1) 10 1));
    reflexivity.
Defined.
